(** * Audience-simulation engine: probability gates, batched runs, ranking

    A shallow embedding of
    - [src/backend/services/simulation.service.ts]
      ([PROBABILITY_GATES], [simulateReaction], [runFullSimulation]),
    - the audience-simulation worker ([startSimulationWorker]) and
    - the ranking done by [getSimulationResults],
    with the properties the specification states about them.

    Conventions.  A JavaScript number is the rational [Q] it stands for.
    The decimal literals of the calibration table and the quotient and
    product behind a percentage are rounded to binary64 by [double]; the
    engagement rates that the ranking compares are kept as the exact
    quotients of two counts.  Counters are [nat]; database integers are [Z].
    [Math.random] and the language-model call are the two sources of
    non-determinism: both are section variables, so every theorem holds for
    every random source and every oracle. *)

From Stdlib Require Import List String Ascii Bool Arith ZArith QArith Qround.
From Stdlib Require Import Lia Lqa Permutation Sorted DecimalString.
Import ListNotations.

Close Scope Q_scope.
Local Open Scope string_scope.
Local Open Scope list_scope.
Local Open Scope nat_scope.

Local Infix "+++" := String.append (at level 60, right associativity).

(* ================================================================== *)
(** * Data model *)
(* ================================================================== *)

(** Values a parsed JSON document can hold, plus [undefined] for a property
    that is absent. *)
#[local] Unset Elimination Schemes.
Inductive JsValue : Type :=
| JsUndefined
| JsNull
| JsBoolean (b : bool)
| JsNumber (q : Q)
| JsString (s : string)
| JsArray (items : list JsValue)
| JsObject (props : list (string * JsValue)).
#[local] Set Elimination Schemes.

(** [Boolean(v)]: false for undefined, null, false, 0 and the empty string. *)
Definition Boolean (v : JsValue) : bool :=
  match v with
  | JsUndefined | JsNull => false
  | JsBoolean b => b
  | JsNumber q => negb (Qeq_bool q 0%Q)
  | JsString s => negb (String.eqb s "")
  | JsArray _ | JsObject _ => true
  end.

(** The columns of [personas] the engine reads outside the prompt text. *)
Record Persona : Type := {
  persona_id : string;
  persona_name : string;
  persona_title : string;
  socialBehavior : string
}.

Record GeneratedPost : Type := {
  post_id : string;
  variationNumber : Z;
  platform : string;
  content : string
}.

(** [interface SimulationResult]; a row of [post_simulations] carries the
    same columns. *)
Record SimulationResult : Type := {
  personaId : string;
  postId : string;
  liked : bool;
  shared : bool;
  commented : bool;
  commentText : option string;
  reasoning : string;
  engagementScore : Z
}.

(** The value [JSON.parse] returns for the model's answer, seen through the
    six properties the code reads.  The four flags are arbitrary JSON values
    (the code coerces them with [Boolean]), [JsUndefined] when absent; the
    two text properties are strings, or [None] when null or absent.  A parsed
    number, string or array has none of the six. *)
Record Parsed : Type := {
  parsed_stoppedScrolling : JsValue;
  parsed_liked : JsValue;
  parsed_shared : JsValue;
  parsed_commented : JsValue;
  parsed_commentText : option string;
  parsed_reasoning : option string
}.

Inductive JsError : Type :=
| ApiError
| SyntaxError
| TypeError
| Error (message : string).

(** What lines 176-188 of [simulateReaction] can end in. *)
Inductive OracleOutcome : Type :=
| Rejected                    (* the chat-completion request rejects *)
| Unparseable                 (* JSON.parse throws on the cleaned text *)
| ParsedNull                  (* the text is the JSON null: reading a property throws *)
| ParsedObject (parsed : Parsed).

(** A reply arrives after some delay; within a batch the continuations of
    the pending calls resume in order of arrival. *)
Record OracleReply : Type := {
  latency : nat;
  outcome : OracleOutcome
}.

Record Pair : Type := {
  persona : Persona;
  post : GeneratedPost
}.

Definition pair_ids (pr : Pair) : string * string :=
  (persona_id (persona pr), post_id (post pr)).

Definition result_ids (r : SimulationResult) : string * string :=
  (personaId r, postId r).

(* ================================================================== *)
(** * Calibration table *)
(* ================================================================== *)

(** Division of [num] by [den > 0], rounded to the nearest integer, a half
    to the even one. *)
Definition round_half_even (num den : Z) : Z :=
  let q := (num / den)%Z in
  let r := (num mod den)%Z in
  if (2 * r <? den)%Z then q
  else if (den <? 2 * r)%Z then (q + 1)%Z
  else if Z.even q then q else (q + 1)%Z.

(** The binary64 number nearest to [n / d] (round to nearest, ties to
    even), for a magnitude in the normal range: with [2^e <= |n / d| <
    2^(e+1)] it is [m * 2^(e-52)] for the integer [m] nearest to
    [|n / d| * 2^(52-e)]. *)
Definition binary64 (n : Z) (d : positive) : Q :=
  if (n =? 0)%Z then 0%Q else
  let a := Z.abs n in
  let e0 := (Z.log2 a - Z.log2 (Zpos d))%Z in
  let reaches := if (0 <=? e0)%Z then (Zpos d * 2 ^ e0 <=? a)%Z
                 else (Zpos d <=? a * 2 ^ (- e0))%Z in
  let e := if reaches then e0 else (e0 - 1)%Z in
  let shift := (52 - e)%Z in
  let magnitude :=
    if (0 <=? shift)%Z
    then Qmake (round_half_even (a * 2 ^ shift) (Zpos d)) (Z.to_pos (2 ^ shift))
    else inject_Z (round_half_even a (Zpos d * 2 ^ (- shift)) * 2 ^ (- shift)) in
  Qred (if (n <? 0)%Z then (- magnitude)%Q else magnitude).

(** The number a decimal literal, a quotient or a product evaluates to:
    the exact value, rounded to binary64. *)
Definition double (x : Q) : Q := binary64 (Qnum (Qred x)) (Qden (Qred x)).

Record Gates : Type := {
  stopRate : Q;
  likeRate : Q;
  commentRate : Q;
  shareRate : Q
}.

Definition lurker : Gates :=
  {| stopRate := double 0.30; likeRate := double 0.50;
     commentRate := double 0.08; shareRate := double 0.02 |}%Q.
Definition casual_engager : Gates :=
  {| stopRate := double 0.50; likeRate := double 0.60;
     commentRate := double 0.18; shareRate := double 0.06 |}%Q.
Definition active_commenter : Gates :=
  {| stopRate := double 0.70; likeRate := double 0.75;
     commentRate := double 0.35; shareRate := double 0.12 |}%Q.
Definition power_sharer : Gates :=
  {| stopRate := double 0.85; likeRate := double 0.85;
     commentRate := double 0.45; shareRate := double 0.22 |}%Q.

(** The own properties of the [PROBABILITY_GATES] object, in source order. *)
Definition PROBABILITY_GATES : list (string * Gates) :=
  [ ("lurker", lurker);
    ("casual_engager", casual_engager);
    ("active_commenter", active_commenter);
    ("power_sharer", power_sharer) ].

Fixpoint lookup {V : Type} (key : string) (table : list (string * V)) : option V :=
  match table with
  | [] => None
  | (k, v) :: rest => if String.eqb k key then Some v else lookup key rest
  end.

(** The names an object literal inherits from [Object.prototype]: each
    holds a function, [__proto__] the prototype itself. *)
Definition Object_prototype_keys : list string :=
  [ "constructor"; "hasOwnProperty"; "isPrototypeOf"; "propertyIsEnumerable";
    "toLocaleString"; "toString"; "valueOf"; "__proto__";
    "__defineGetter__"; "__defineSetter__"; "__lookupGetter__"; "__lookupSetter__" ].

(** [PROBABILITY_GATES[persona.socialBehavior] || PROBABILITY_GATES.casual_engager].
    An own key gives its entry.  An inherited name gives the inherited value:
    it is truthy, so the fallback is not taken, and it has none of the four
    rates ([None]).  Any other string gives [undefined], hence the
    fallback. *)
Definition gates_for (behavior : string) : option Gates :=
  match lookup behavior PROBABILITY_GATES with
  | Some g => Some g
  | None =>
      if existsb (String.eqb behavior) Object_prototype_keys then None
      else Some casual_engager
  end.

(** [x < y] on numbers. *)
Definition Qltb (x y : Q) : bool := negb (Qle_bool y x).

(** [x < rate] where [rate] is a number or [undefined]: a comparison with
    [undefined] is false. *)
Definition Number_lt (x : Q) (rate : option Q) : bool :=
  match rate with
  | Some y => Qltb x y
  | None => false
  end.

(* ================================================================== *)
(** * Effects *)
(* ================================================================== *)

(** The tables and user columns the worker reads and writes. *)
Record Db : Type := {
  personas_of_user : list Persona;         (* personaRepository.getByUserId *)
  posts_of_user : list GeneratedPost;      (* generatedPostsRepository.getByUserId *)
  postSimulations : list SimulationResult; (* table post_simulations *)
  simulationActivityLog : list string;
  simulationStatus : string;
  onboardingStep : Z
}.

Record State : Type := {
  draws : nat;                     (* calls of Math.random so far *)
  calls : list (string * string);  (* oracle requests so far: persona id, post id *)
  progress : list string;          (* messages handed to onProgress so far *)
  db : Db
}.

Inductive Completion (A : Type) : Type :=
| Normal (a : A)
| Throw (e : JsError).
Arguments Normal {A} a.
Arguments Throw {A} e.

(** Computations: state passing with exceptions. *)
Definition M (A : Type) : Type := State -> Completion A * State.

Definition ret {A : Type} (a : A) : M A := fun s => (Normal a, s).

Definition throw {A : Type} (e : JsError) : M A := fun s => (Throw e, s).

Definition bind {A B : Type} (c : M A) (k : A -> M B) : M B :=
  fun s =>
    match c s with
    | (Normal a, s') => k a s'
    | (Throw e, s') => (Throw e, s')
    end.

Definition try_catch {A : Type} (body : M A) (handler : JsError -> M A) : M A :=
  fun s =>
    match body s with
    | (Normal a, s') => (Normal a, s')
    | (Throw e, s') => handler e s'
    end.

Notation "x <- c ;; k" := (bind c (fun x => k))
  (at level 61, c at next level, right associativity).
Notation "c ;;; k" := (bind c (fun _ => k))
  (at level 61, right associativity).

Fixpoint mapM {A B : Type} (f : A -> M B) (l : list A) : M (list B) :=
  match l with
  | [] => ret []
  | x :: rest => y <- f x ;; ys <- mapM f rest ;; ret (y :: ys)
  end.

Fixpoint forM_ {A : Type} (l : list A) (f : A -> M unit) : M unit :=
  match l with
  | [] => ret tt
  | x :: rest => f x ;;; forM_ rest f
  end.

Definition set_draws (n : nat) (s : State) : State :=
  {| draws := n; calls := calls s; progress := progress s; db := db s |}.

Definition set_calls (c : list (string * string)) (s : State) : State :=
  {| draws := draws s; calls := c; progress := progress s; db := db s |}.

Definition set_progress (p : list string) (s : State) : State :=
  {| draws := draws s; calls := calls s; progress := p; db := db s |}.

Definition set_db (d : Db) (s : State) : State :=
  {| draws := draws s; calls := calls s; progress := progress s; db := d |}.

(* ================================================================== *)
(** * The engine ([class SimulationService]) *)
(* ================================================================== *)

Section Engine.

(** [random k] is the value of the [k]-th call of [Math.random] (counting
    from 0); [judge k persona post] is the reply to the [k]-th request sent
    to the language model. *)
Variable random : nat -> Q.
Variable judge : nat -> Persona -> GeneratedPost -> OracleReply.

Definition Math_random : M Q :=
  fun s => (Normal (random (draws s)), set_draws (S (draws s)) s).

(** [openai.chat.completions.create(...)]: the request leaves when the call
    is made; its reply is consumed later, at the [await]. *)
Definition openai_create (persona : Persona) (post : GeneratedPost) : M OracleReply :=
  fun s =>
    (Normal (judge (List.length (calls s)) persona post),
     set_calls (calls s ++ [(persona_id persona, post_id post)]) s).

(** Lines 176-188: await the reply, clean it, [JSON.parse] it. *)
Definition await_parsed (o : OracleOutcome) : M Parsed :=
  match o with
  | Rejected => throw ApiError
  | Unparseable => throw SyntaxError
  | ParsedNull => throw TypeError
  | ParsedObject parsed => ret parsed
  end.

(** [wanted && Math.random() < rate]: the draw happens only when [wanted]. *)
Definition gate (wanted : bool) (rate : option Q) : M bool :=
  if wanted then r <- Math_random ;; ret (Number_lt r rate) else ret false.

(** [text || fallback] on a string that may be null, absent or empty. *)
Definition or_else (text : option string) (fallback : string) : string :=
  match text with
  | Some t => if String.eqb t "" then fallback else t
  | None => fallback
  end.

(** [text || null] *)
Definition or_null (text : option string) : option string :=
  match text with
  | Some t => if String.eqb t "" then None else Some t
  | None => None
  end.

(** The object returned from the [catch] block. *)
Definition could_not_complete (persona : Persona) (post : GeneratedPost) : SimulationResult :=
  {| personaId := persona_id persona;
     postId := post_id post;
     liked := false;
     shared := false;
     commented := false;
     commentText := None;
     reasoning := "Simulation could not be completed";
     engagementScore := 0 |}.

(** The part of [simulateReaction] that runs once the reply is there: the
    [try] block from the [await] on, and the [catch] block (whose
    [console.error] line is left out). *)
Definition react (persona : Persona) (post : GeneratedPost) (o : OracleOutcome)
  : M SimulationResult :=
  try_catch
    (parsed <- await_parsed o ;;
     let gates := gates_for (socialBehavior persona) in
     let llmStopped := Boolean (parsed_stoppedScrolling parsed) in
     let llmLiked := Boolean (parsed_liked parsed) in
     let llmCommented := Boolean (parsed_commented parsed) in
     let llmShared := Boolean (parsed_shared parsed) in
     stopped <- gate llmStopped (option_map stopRate gates) ;;
     liked' <- gate (stopped && llmLiked) (option_map likeRate gates) ;;
     commented' <- gate (stopped && llmCommented) (option_map commentRate gates) ;;
     shared' <- gate (stopped && llmShared) (option_map shareRate gates) ;;
     let score := 0%Z in
     let score := if liked' then (score + 1)%Z else score in
     let score := if commented' then (score + 3)%Z else score in
     let score := if shared' then (score + 5)%Z else score in
     let reasoning' := or_else (parsed_reasoning parsed) "Scrolled past without noticing" in
     let reasoning' :=
       if llmStopped && negb stopped
       then "Glanced at it but kept scrolling — " +++ reasoning'
       else reasoning' in
     ret {| personaId := persona_id persona;
            postId := post_id post;
            liked := liked';
            shared := shared';
            commented := commented';
            commentText := if commented' then or_null (parsed_commentText parsed) else None;
            reasoning := reasoning';
            engagementScore := score |})
    (fun _ => ret (could_not_complete persona post)).

Definition simulateReaction (persona : Persona) (post : GeneratedPost) : M SimulationResult :=
  reply <- openai_create persona post ;;
  react persona post (outcome reply).

(** Stable insertion sort on a numeric key: earlier elements stay ahead of
    later ones with the same key. *)
Fixpoint insert_by {A : Type} (key : A -> nat) (x : A) (l : list A) : list A :=
  match l with
  | [] => [x]
  | y :: rest => if key x <=? key y then x :: y :: rest else y :: insert_by key x rest
  end.

Definition sort_by {A : Type} (key : A -> nat) (l : list A) : list A :=
  fold_right (insert_by key) [] l.

(** [Promise.all(batch.map(({persona, post}) => this.simulateReaction(persona, post)))].
    Mapping starts every call in array order, each up to its [await], so the
    requests leave in array order.  The continuations then run one at a time
    in order of arrival of the replies (first sent first among equal
    latencies), each consuming its own random draws.  [Promise.all] delivers
    the value of the i-th promise at index i, whatever the arrival order. *)
Definition Promise_all_simulateReaction (batch : list Pair) : M (list SimulationResult) :=
  replies <- mapM (fun pr => openai_create (persona pr) (post pr)) batch ;;
  let pending := combine (seq 0 (List.length batch)) (combine batch replies) in
  let arrival := sort_by (fun x => latency (snd (snd x))) pending in
  settled <- mapM (fun x =>
                     r <- react (persona (fst (snd x))) (post (fst (snd x)))
                                (outcome (snd (snd x))) ;;
                     ret (fst x, r))
                  arrival ;;
  ret (flat_map (fun i => map snd (filter (fun x => fst x =? i) settled))
                (seq 0 (List.length batch))).

(** [[...new Set(names)]]: first occurrences, in order. *)
Fixpoint Set_values (seen : list string) (names : list string) : list string :=
  match names with
  | [] => []
  | n :: rest =>
      if existsb (String.eqb n) seen then Set_values seen rest
      else n :: Set_values (n :: seen) rest
  end.

Definition nat_to_string (n : nat) : string := NilEmpty.string_of_uint (Nat.to_uint n).

Definition Z_to_string (z : Z) : string := NilZero.string_of_int (Z.to_int z).

(** [Math.round]: the integer nearest to the number, halves upwards. *)
Definition Math_round (x : Q) : Z := Qfloor (x + (1 # 2))%Q.

(** [(part / whole) * 100] on two counts: the quotient is rounded to
    binary64, and so is its product with 100. *)
Definition percent (part whole : nat) : Q :=
  double (double (inject_Z (Z.of_nat part) / inject_Z (Z.of_nat whole)) * 100)%Q.

(** Calling the [onProgress] callback; [progress] records the message. *)
Definition call_onProgress (onProgress : string -> M unit) (message : string) : M unit :=
  (fun s => (Normal tt, set_progress (progress s ++ [message]) s)) ;;;
  onProgress message.

Definition BATCH_SIZE : nat := 8.

(** [pairs.slice(i, j)] *)
Definition slice {A : Type} (l : list A) (i j : nat) : list A := firstn (j - i) (skipn i l).

Definition is_engaged (r : SimulationResult) : bool := liked r || commented r || shared r.

Definition is_scrolledPast (r : SimulationResult) : bool :=
  negb (liked r) && negb (commented r) && negb (shared r).

(** Lines 270-279. *)
Definition announce_batch (personaList : list Persona) (batch : list Pair)
  (onProgress : string -> M unit) : M unit :=
  let personaNames := Set_values [] (map (fun p => persona_name (persona p)) batch) in
  let personaDetails :=
    String.concat ", "
      (map (fun name =>
              match find (fun pl => String.eqb (persona_name pl) name) personaList with
              | Some p => name +++ " (" +++ persona_title p +++ ")"
              | None => name
              end)
           personaNames) in
  call_onProgress onProgress (personaDetails +++ " scrolling through the feed...").

(** The message of lines 295-304 for one engaged result. *)
Definition reaction_message (personaList : list Persona) (posts : list GeneratedPost)
  (r : SimulationResult) : string :=
  let persona := find (fun p => String.eqb (persona_id p) (personaId r)) personaList in
  let post := find (fun p => String.eqb (post_id p) (postId r)) posts in
  let actions :=
    (if liked r then ["liked"] else []) ++
    (if commented r then ["commented"] else []) ++
    (if shared r then ["shared"] else []) in
  or_else (option_map persona_name persona) "Someone" +++ " " +++
  String.concat " & " actions +++ " Variation " +++
  match post with
  | Some p => if Z.eqb (variationNumber p) 0 then "?" else Z_to_string (variationNumber p)
  | None => "?"
  end.

(** Lines 288-312. *)
Definition report_batch (personaList : list Persona) (posts : list GeneratedPost)
  (pairs : list Pair) (i : nat) (batchResults : list SimulationResult)
  (onProgress : string -> M unit) : M unit :=
  let engaged := filter is_engaged batchResults in
  let scrolledPast := filter is_scrolledPast batchResults in
  (if (0 <? List.length scrolledPast) && (List.length engaged =? 0) then
     call_onProgress onProgress
       ("All " +++ nat_to_string (List.length scrolledPast) +++
        " scrolled past — no engagement on these")
   else if 0 <? List.length engaged then
     forM_ engaged (fun r =>
       call_onProgress onProgress (reaction_message personaList posts r))
   else ret tt) ;;;
  let completed := Nat.min (i + BATCH_SIZE) (List.length pairs) in
  let total := List.length pairs in
  let pct := Math_round (percent completed total) in
  call_onProgress onProgress
    (nat_to_string completed +++ "/" +++ nat_to_string total +++
     " reactions simulated (" +++ Z_to_string pct +++ "%)").

(** [if (onProgress) { ... }] *)
Definition when_given (onProgress : option (string -> M unit))
  (body : (string -> M unit) -> M unit) : M unit :=
  match onProgress with
  | Some callback => body callback
  | None => ret tt
  end.

(** The loop [for (let i = 0; i < pairs.length; i += BATCH_SIZE)], from
    index [i] on, with the results gathered so far.  [fuel] bounds the number
    of iterations; [runFullSimulation] supplies enough. *)
Fixpoint batch_loop (fuel : nat) (personaList : list Persona) (posts : list GeneratedPost)
  (onProgress : option (string -> M unit)) (pairs : list Pair)
  (i : nat) (allResults : list SimulationResult) : M (list SimulationResult) :=
  match fuel with
  | 0 => ret allResults
  | S fuel' =>
      if i <? List.length pairs then
        let batch := slice pairs i (i + BATCH_SIZE) in
        when_given onProgress (announce_batch personaList batch) ;;;
        batchResults <- Promise_all_simulateReaction batch ;;
        let allResults := allResults ++ batchResults in
        when_given onProgress (report_batch personaList posts pairs i batchResults) ;;;
        batch_loop fuel' personaList posts onProgress pairs (i + BATCH_SIZE) allResults
      else ret allResults
  end.

(** Lines 258-264: persona-major, post-minor. *)
Definition build_pairs (personaList : list Persona) (posts : list GeneratedPost) : list Pair :=
  flat_map (fun persona => map (fun post => {| persona := persona; post := post |}) posts)
           personaList.

Definition runFullSimulation (personaList : list Persona) (posts : list GeneratedPost)
  (onProgress : option (string -> M unit)) : M (list SimulationResult) :=
  let pairs := build_pairs personaList posts in
  batch_loop (List.length pairs) personaList posts onProgress pairs 0 [].

(* ================================================================== *)
(** * Repositories *)
(* ================================================================== *)

(** [SimulationRepository.getByPostId]: the rows of the post.  The join with
    [personas] drops nothing, [persona_id] being a foreign key. *)
Definition rows_of_post (d : Db) (id : string) : list SimulationResult :=
  filter (fun r => String.eqb (postId r) id) (postSimulations d).

Definition getByPostId (id : string) : M (list SimulationResult) :=
  fun s => (Normal (rows_of_post (db s) id), s).

(** [personaRepository.getByUserId(userId)] *)
Definition getPersonasByUserId : M (list Persona) :=
  fun s => (Normal (personas_of_user (db s)), s).

(** [generatedPostsRepository.getByUserId(userId)], ordered by variation
    number. *)
Definition getPostsByUserId : M (list GeneratedPost) :=
  fun s => (Normal (posts_of_user (db s)), s).

Definition set_postSimulations (rows : list SimulationResult) (d : Db) : Db :=
  {| personas_of_user := personas_of_user d;
     posts_of_user := posts_of_user d;
     postSimulations := rows;
     simulationActivityLog := simulationActivityLog d;
     simulationStatus := simulationStatus d;
     onboardingStep := onboardingStep d |}.

Definition set_simulationActivityLog (log : list string) (d : Db) : Db :=
  {| personas_of_user := personas_of_user d;
     posts_of_user := posts_of_user d;
     postSimulations := postSimulations d;
     simulationActivityLog := log;
     simulationStatus := simulationStatus d;
     onboardingStep := onboardingStep d |}.

Definition set_simulationStatus (status : string) (d : Db) : Db :=
  {| personas_of_user := personas_of_user d;
     posts_of_user := posts_of_user d;
     postSimulations := postSimulations d;
     simulationActivityLog := simulationActivityLog d;
     simulationStatus := status;
     onboardingStep := onboardingStep d |}.

Definition set_onboardingStep (step : Z) (d : Db) : Db :=
  {| personas_of_user := personas_of_user d;
     posts_of_user := posts_of_user d;
     postSimulations := postSimulations d;
     simulationActivityLog := simulationActivityLog d;
     simulationStatus := simulationStatus d;
     onboardingStep := step |}.

(** [authRepository.updateUser(userId, {...})] *)
Definition updateUser (change : Db -> Db) : M unit :=
  fun s => (Normal tt, set_db (change (db s)) s).

(** [SimulationRepository.createBulk] *)
Definition createBulk (sims : list SimulationResult) : M unit :=
  fun s => (Normal tt, set_db (set_postSimulations (postSimulations (db s) ++ sims) (db s)) s).

(* ================================================================== *)
(** * The audience-simulation worker ([startSimulationWorker]) *)
(* ================================================================== *)

(** The closure [updateLog]: read the log, push, write it back. *)
Definition updateLog (message : string) : M unit :=
  fun s =>
    let existingLog := simulationActivityLog (db s) in
    (Normal tt, set_db (set_simulationActivityLog (existingLog ++ [message]) (db s)) s).

(** Lines 1091-1101: posts with at least one stored result are set aside. *)
Fixpoint split_posts (allPosts postsNeedingSimulation postsAlreadySimulated : list GeneratedPost)
  : M (list GeneratedPost * list GeneratedPost) :=
  match allPosts with
  | [] => ret (postsNeedingSimulation, postsAlreadySimulated)
  | post :: rest =>
      existingSims <- getByPostId (post_id post) ;;
      if 0 <? List.length existingSims
      then split_posts rest postsNeedingSimulation (postsAlreadySimulated ++ [post])
      else split_posts rest (postsNeedingSimulation ++ [post]) postsAlreadySimulated
  end.

(** Lines 1155-1161. *)
Fixpoint gather_results (allPosts : list GeneratedPost) (allSimResults : list SimulationResult)
  : M (list SimulationResult) :=
  match allPosts with
  | [] => ret allSimResults
  | post :: rest =>
      sims <- getByPostId (post_id post) ;;
      gather_results rest (allSimResults ++ sims)
  end.

(** [Map.prototype.set]: a present key keeps its place, a new key goes last. *)
Fixpoint Map_set (key : string) (value : Z) (m : list (string * Z)) : list (string * Z) :=
  match m with
  | [] => [(key, value)]
  | (k, v) :: rest =>
      if String.eqb k key then (k, value) :: rest else (k, v) :: Map_set key value rest
  end.

(** [postScores.get(id) || 0] *)
Definition Map_get_or_0 (key : string) (m : list (string * Z)) : Z :=
  match lookup key m with
  | Some v => v
  | None => 0%Z
  end.

(** Lines 1163-1166. *)
Definition postScores_of (allSimResults : list SimulationResult) : list (string * Z) :=
  fold_left
    (fun postScores r =>
       Map_set (postId r) (Map_get_or_0 (postId r) postScores + engagementScore r)%Z postScores)
    allSimResults [].

(** Lines 1180-1187: the pair (winningPostId, highestScore) after the loop. *)
Definition winning (postScores : list (string * Z)) : string * Z :=
  fold_left
    (fun best entry => if (snd best <? snd entry)%Z then entry else best)
    postScores ("", (-1)%Z).

(** Line 1189. *)
Definition winningPost (allPosts : list GeneratedPost) (allSimResults : list SimulationResult)
  : option GeneratedPost :=
  let winningPostId := fst (winning (postScores_of allSimResults)) in
  find (fun p => String.eqb (post_id p) winningPostId) allPosts.

(** Lines 1168-1177. *)
Definition summary_message (allSimResults : list SimulationResult) : string :=
  let totalLikes := List.length (filter liked allSimResults) in
  let totalShares := List.length (filter shared allSimResults) in
  let totalComments := List.length (filter commented allSimResults) in
  let totalScrolled :=
    List.length (filter (fun r => negb (liked r) && negb (shared r) && negb (commented r))
                        allSimResults) in
  let totalReactions := List.length allSimResults in
  let engRate :=
    if 0 <? totalReactions
    then Math_round (percent (totalReactions - totalScrolled) totalReactions)
    else 0%Z in
  "Focus group complete — " +++ Z_to_string engRate +++ "% overall engagement rate (" +++
  nat_to_string totalLikes +++ " likes, " +++ nat_to_string totalComments +++ " comments, " +++
  nat_to_string totalShares +++ " shares)".

(** Lines 1191-1196: the message naming the top performer. *)
Definition top_performer_message (winningPost : GeneratedPost)
  (postsAlreadySimulated : list GeneratedPost) : string :=
  let label :=
    if Z.eqb (variationNumber winningPost) 1 && (0 <? List.length postsAlreadySimulated)
    then "Your original post"
    else "Variation " +++ Z_to_string (variationNumber winningPost) in
  label +++ " is the top performer — highest engagement from the panel".

(** Lines 1190-1197. *)
Definition report_winner (found : option GeneratedPost)
  (postsAlreadySimulated : list GeneratedPost) : M unit :=
  match found with
  | Some winningPost => updateLog (top_performer_message winningPost postsAlreadySimulated)
  | None => ret tt
  end.

(** Lines 1083-1089. *)
Definition require_inputs (personaList : list Persona) (allPosts : list GeneratedPost) : M unit :=
  (if List.length personaList =? 0
   then throw (Error "No personas found — persona generation may not have completed")
   else ret tt) ;;;
  (if List.length allPosts =? 0
   then throw (Error "No generated posts found")
   else ret tt).

(** Lines 1117-1152: simulate the posts that need it and store the results. *)
Definition simulate_missing (personaList : list Persona)
  (posts postsAlreadySimulated : list GeneratedPost) : M unit :=
  if 0 <? List.length posts then
    (if 0 <? List.length postsAlreadySimulated then
       updateLog
         (nat_to_string (List.length postsAlreadySimulated) +++
          " post(s) already tested (original) — simulating " +++
          nat_to_string (List.length posts) +++ " new variation(s) with " +++
          nat_to_string (List.length personaList) +++ " panelists")
     else
       updateLog
         ("Focus group ready — " +++ nat_to_string (List.length personaList) +++
          " panelists will review " +++ nat_to_string (List.length posts) +++
          " post variations")) ;;;
    results <- runFullSimulation personaList posts (Some updateLog) ;;
    let simsToCreate :=
      map (fun r =>
             {| personaId := personaId r; postId := postId r;
                liked := liked r; shared := shared r; commented := commented r;
                commentText := commentText r; reasoning := reasoning r;
                engagementScore := engagementScore r |})
          results in
    createBulk simsToCreate
  else
    updateLog "All posts already have focus group results — skipping to summary.".

(** Lines 1154-1197: the summary over all posts and the top performer. *)
Definition log_summary (allPosts postsAlreadySimulated : list GeneratedPost) : M unit :=
  allSimResults <- gather_results allPosts [] ;;
  updateLog (summary_message allSimResults) ;;;
  report_winner (winningPost allPosts allSimResults) postsAlreadySimulated.

(** The job handler, lines 1071-1214. *)
Definition simulation_job : M unit :=
  try_catch
    (updateUser (fun d =>
       set_simulationActivityLog ["Assembling focus group panel..."]
         (set_simulationStatus "simulating" d)) ;;;
     personaList <- getPersonasByUserId ;;
     allPosts <- getPostsByUserId ;;
     require_inputs personaList allPosts ;;;
     split <- split_posts allPosts [] [] ;;
     let postsNeedingSimulation := fst split in
     let postsAlreadySimulated := snd split in
     let posts := postsNeedingSimulation in
     simulate_missing personaList posts postsAlreadySimulated ;;;
     log_summary allPosts postsAlreadySimulated ;;;
     updateUser (fun d => set_onboardingStep 7 (set_simulationStatus "complete" d)))
    (fun error =>
       updateUser (set_simulationStatus "error") ;;;
       throw error).

End Engine.

(* ================================================================== *)
(** * Ranking ([getSimulationResults]) *)
(* ================================================================== *)

Record PostEngagementSummary : Type := {
  summary_postId : string;
  totalLikes : Z;
  totalShares : Z;
  totalComments : Z;
  totalEngagementScore : Z;
  simulationCount : Z
}.

Definition count_where (f : SimulationResult -> bool) (rows : list SimulationResult) : Z :=
  Z.of_nat (List.length (filter f rows)).

Definition sum_scores (rows : list SimulationResult) : Z :=
  fold_right (fun r acc => (engagementScore r + acc)%Z) 0%Z rows.

(** [SimulationRepository.getEngagementByUserId]: one summary per post of
    the user that has rows ([GROUP BY post_id] over the join with the user's
    posts).  These are the rows of a query that does not fail; when it fails
    is said by [getEngagementByUserId_fails] below.  The groups are listed
    in order of first occurrence; the database may list them in any order,
    and the handler only searches them by post id. *)
Definition getEngagementByUserId (d : Db) : list PostEngagementSummary :=
  let joined :=
    filter (fun r => existsb (fun p => String.eqb (post_id p) (postId r)) (posts_of_user d))
           (postSimulations d) in
  map (fun id =>
         let group := filter (fun r => String.eqb (postId r) id) joined in
         {| summary_postId := id;
            totalLikes := count_where liked group;
            totalShares := count_where shared group;
            totalComments := count_where commented group;
            totalEngagementScore := sum_scores group;
            simulationCount := Z.of_nat (List.length group) |})
      (Set_values [] (map postId joined)).

Record PostResult : Type := {
  result_post : GeneratedPost;
  simulations : list SimulationResult;
  engagement : PostEngagementSummary
}.

(** Lines 757-779. *)
Definition postResults_of (d : Db) : list PostResult :=
  let engagementSummaries := getEngagementByUserId d in
  map (fun post =>
         {| result_post := post;
            simulations := rows_of_post d (post_id post);
            engagement :=
              match find (fun e => String.eqb (summary_postId e) (post_id post))
                         engagementSummaries with
              | Some e => e
              | None =>
                  {| summary_postId := post_id post; totalLikes := 0; totalShares := 0;
                     totalComments := 0; totalEngagementScore := 0; simulationCount := 0 |}
              end |})
      (posts_of_user d).

(** Lines 784-793, for one side of the comparison: [aEngRate]. *)
Definition engRate (sims : list SimulationResult) : Q :=
  let total := if List.length sims =? 0 then 1 else List.length sims in
  let scrolled :=
    List.length (filter (fun s => negb (liked s) && negb (shared s) && negb (commented s)) sims) in
  (inject_Z (Z.of_nat total - Z.of_nat scrolled) / inject_Z (Z.of_nat total))%Q.

(** The comparator handed to [sort], lines 783-798. *)
Definition compare_results (a b : PostResult) : Q :=
  let aEngRate := engRate (simulations a) in
  let bEngRate := engRate (simulations b) in
  if negb (Qeq_bool bEngRate aEngRate) then (bEngRate - aEngRate)%Q
  else inject_Z (totalEngagementScore (engagement b) - totalEngagementScore (engagement a)).

(** [Array.prototype.sort(cmp)]: stable; [x] goes ahead of [y] when
    [cmp x y <= 0]. *)
Fixpoint insert_cmp {A : Type} (cmp : A -> A -> Q) (x : A) (l : list A) : list A :=
  match l with
  | [] => [x]
  | y :: rest => if Qle_bool (cmp x y) 0 then x :: y :: rest else y :: insert_cmp cmp x rest
  end.

Definition Array_sort {A : Type} (cmp : A -> A -> Q) (l : list A) : list A :=
  fold_right (insert_cmp cmp) [] l.

(** The [results] array of the response. *)
Definition getSimulationResults (d : Db) : list PostResult :=
  Array_sort compare_results (postResults_of d).

(** [CAST(... AS INTEGER)] succeeds on a value that fits 32 bits. *)
Definition fits_INTEGER (z : Z) : bool :=
  (-2147483648 <=? z)%Z && (z <=? 2147483647)%Z.

(** The query of [getEngagementByUserId] casts the five aggregates of each
    group to [INTEGER]; it fails ("integer out of range") when one of them
    does not fit, and [getEngagementByUserId] gives its rows when it does not
    fail.  The three counts of actions are at most the count of rows. *)
Definition getEngagementByUserId_fails (d : Db) : bool :=
  existsb (fun e => negb (fits_INTEGER (totalEngagementScore e) &&
                          fits_INTEGER (simulationCount e)))
          (getEngagementByUserId d).

(** What the handler answers: the results, or status 500 from its [catch]
    block when the query fails. *)
Inductive Response : Type :=
| Ok (results : list PostResult)
| InternalServerError.

Definition getSimulationResults_response (d : Db) : Response :=
  if getEngagementByUserId_fails d then InternalServerError
  else Ok (getSimulationResults d).

(* ================================================================== *)
(** * Vocabulary of the statements *)
(* ================================================================== *)

(** The score the code accumulates, as a closed formula. *)
Definition score_of (l c sh : bool) : Z :=
  (1 * Z.b2z l + 3 * Z.b2z c + 5 * Z.b2z sh)%Z.

(** [s'] differs from [s] at most in the number of random draws, which did
    not decrease. *)
Definition only_draws (s s' : State) : Prop :=
  draws s <= draws s' /\ calls s' = calls s /\ progress s' = progress s /\ db s' = db s.

(** The outcomes that make the [try] block of [simulateReaction] throw. *)
Definition oracle_failed (o : OracleOutcome) : bool :=
  match o with
  | ParsedObject _ => false
  | _ => true
  end.

(** The callback, when given, returns normally on every message. *)
Definition never_throws (onProgress : option (string -> M unit)) : Prop :=
  match onProgress with
  | Some callback => forall message s, exists s', callback message s = (Normal tt, s')
  | None => True
  end.

(** The callback, when given, leaves a component of the state alone. *)
Definition callback_keeps {X : Type} (component : State -> X)
  (onProgress : option (string -> M unit)) : Prop :=
  match onProgress with
  | Some callback => forall message s, component (snd (callback message s)) = component s
  | None => True
  end.

Definition stored_rows (s : State) : list SimulationResult := postSimulations (db s).

(** Reporting progress changes the state only through the callback: the
    list of requests, and any view of the database, that the callback leaves
    alone are unchanged. *)
Definition framed (onProgress : option (string -> M unit)) (s s' : State) : Prop :=
  (callback_keeps calls onProgress -> calls s' = calls s) /\
  (forall (X : Type) (view : Db -> X),
      callback_keeps (fun s => view (db s)) onProgress -> view (db s') = view (db s)).

(** [r] is what [simulateReaction] yields for the pair [pr] on some reply of
    the oracle to that pair. *)
Definition reaction_of (random : nat -> Q)
  (judge : nat -> Persona -> GeneratedPost -> OracleReply)
  (pr : Pair) (r : SimulationResult) : Prop :=
  result_ids r = pair_ids pr /\
  exists (k : nat) (s0 s1 : State),
    react random (persona pr) (post pr) (outcome (judge k (persona pr) (post pr))) s0
    = (Normal r, s1).

(** The post has at least one stored result. *)
Definition has_rows (d : Db) (p : GeneratedPost) : bool :=
  0 <? List.length (rows_of_post d (post_id p)).

(** The posts the worker hands to [runFullSimulation], and the pairs that
    makes. *)
Definition posts_to_simulate (d : Db) : list GeneratedPost :=
  filter (fun p => negb (has_rows d p)) (posts_of_user d).

Definition pairs_to_simulate (d : Db) : list Pair :=
  build_pairs (personas_of_user d) (posts_to_simulate d).

(** A result is stored for the pair of ids. *)
Definition has_result (rows : list SimulationResult) (ids : string * string) : Prop :=
  exists row, In row rows /\ result_ids row = ids.

(** The total engagement score of a post over a set of results. *)
Definition total_score (id : string) (rows : list SimulationResult) : Z :=
  sum_scores (filter (fun r => String.eqb (postId r) id) rows).

(** The engagement rate as the specification words it: the share of results
    with some action, and 0 for a post without results. *)
Definition spec_engagementRate (sims : list SimulationResult) : Q :=
  let simulationCount := List.length sims in
  let scrolledPastCount :=
    List.length (filter (fun s => negb (liked s) && negb (shared s) && negb (commented s)) sims) in
  if simulationCount =? 0 then 0%Q
  else (inject_Z (Z.of_nat simulationCount - Z.of_nat scrolledPastCount)
        / inject_Z (Z.of_nat simulationCount))%Q.

(** ** Sample data for the examples *)

Definition sample_persona (id name behavior : string) : Persona :=
  {| persona_id := id; persona_name := name; persona_title := "Engineer";
     socialBehavior := behavior |}.

Definition sample_post (id : string) (n : Z) : GeneratedPost :=
  {| post_id := id; variationNumber := n; platform := "LinkedIn"; content := "Launch day" |}.

Definition ada : Persona := sample_persona "u1" "Ada" "lurker".
Definition bob : Persona := sample_persona "u2" "Bob" "power_sharer".
Definition post1 : GeneratedPost := sample_post "p1" 1.
Definition post2 : GeneratedPost := sample_post "p2" 2.

(** An oracle answer with the given flags. *)
Definition verdict (stop like comment share : bool) : Parsed :=
  {| parsed_stoppedScrolling := JsBoolean stop;
     parsed_liked := JsBoolean like;
     parsed_shared := JsBoolean share;
     parsed_commented := JsBoolean comment;
     parsed_commentText := Some "Nice";
     parsed_reasoning := Some "It speaks to me" |}.

Definition answering (o : OracleOutcome) : nat -> Persona -> GeneratedPost -> OracleReply :=
  fun _ _ _ => {| latency := 0; outcome := o |}.

(** An oracle that rejects the request about the second post and approves
    of everything else. *)
Definition failing_on_post2 : nat -> Persona -> GeneratedPost -> OracleReply :=
  fun k _ post =>
    {| latency := 3 - k;
       outcome := if String.eqb (post_id post) "p2" then Rejected
                  else ParsedObject (verdict true true true true) |}.

(** A stored result with the given actions. *)
Definition stored (pid qid : string) (l c sh : bool) : SimulationResult :=
  {| personaId := pid; postId := qid; liked := l; shared := sh; commented := c;
     commentText := None; reasoning := "Stored earlier";
     engagementScore := (1 * Z.b2z l + 3 * Z.b2z c + 5 * Z.b2z sh)%Z |}.

(** Both posts were simulated in an earlier round, by both personas. *)
Definition settled_db : Db :=
  {| personas_of_user := [ada; bob];
     posts_of_user := [post1; post2];
     postSimulations :=
       [ stored "u1" "p1" true false false; stored "u2" "p1" true false false;
         stored "u1" "p2" false false true; stored "u2" "p2" false false false ];
     simulationActivityLog := [];
     simulationStatus := "idle";
     onboardingStep := 6 |}.

(** The first post has results from an earlier round; the results of the
    second are not stored yet. *)
Definition pending_db : Db :=
  {| personas_of_user := [ada; bob];
     posts_of_user := [post1; post2];
     postSimulations :=
       [ stored "u1" "p1" true false false; stored "u2" "p1" false false false ];
     simulationActivityLog := [];
     simulationStatus := "simulating";
     onboardingStep := 6 |}.

(** One persona of each behavior type. *)
Definition panel : list Persona :=
  [ sample_persona "u1" "Ada" "lurker";
    sample_persona "u2" "Bob" "casual_engager";
    sample_persona "u3" "Cy" "active_commenter";
    sample_persona "u4" "Di" "power_sharer" ].

(** Every draw is 0.99: no gate of the table passes. *)
Definition always_high : nat -> Q := fun _ => 0.99%Q.

(** The first [n] draws are 0, the later ones 0.99. *)
Definition lucky_first (n : nat) : nat -> Q :=
  fun k => if k <? n then 0%Q else 0.99%Q.

(** The oracle approves of everything; its k-th reply takes [nth k delays 0]. *)
Definition approving_after (delays : list nat) : nat -> Persona -> GeneratedPost -> OracleReply :=
  fun k _ _ =>
    {| latency := nth k delays 0;
       outcome := ParsedObject (verdict true true true true) |}.

(** The oracle approves of everything, but the request for one persona
    rejects. *)
Definition failing_for (id : string) : nat -> Persona -> GeneratedPost -> OracleReply :=
  fun _ persona _ =>
    {| latency := 0;
       outcome := if String.eqb (persona_id persona) id then Rejected
                  else ParsedObject (verdict true true true true) |}.

(** The first post carries results of an earlier round by the whole panel. *)
Definition regeneration_db : Db :=
  {| personas_of_user := panel;
     posts_of_user := [post1; post2];
     postSimulations :=
       [ stored "u1" "p1" false false false; stored "u2" "p1" true false false;
         stored "u3" "p1" true true false; stored "u4" "p1" true false true ];
     simulationActivityLog := [];
     simulationStatus := "idle";
     onboardingStep := 6 |}.

(** Every draw is 0: every gate that is tried passes. *)
Definition always_zero : nat -> Q := fun _ => 0%Q.

Definition empty_db (personas : list Persona) (posts : list GeneratedPost) : Db :=
  {| personas_of_user := personas; posts_of_user := posts; postSimulations := [];
     simulationActivityLog := []; simulationStatus := "idle"; onboardingStep := 6 |}.

Definition initial_state (d : Db) : State :=
  {| draws := 0; calls := []; progress := []; db := d |}.

(** [a] may stand ahead of [b] in the ranking: higher engagement rate (as
    the code computes it), or the same rate and a total score not lower. *)
Definition ranks_before (a b : PostResult) : Prop :=
  (engRate (simulations b) < engRate (simulations a))%Q \/
  ((engRate (simulations a) == engRate (simulations b))%Q /\
   (totalEngagementScore (engagement b) <= totalEngagementScore (engagement a))%Z).

(** The value a computation returned, if it returned. *)
Definition returned {A : Type} (run : Completion A * State) : option A :=
  match fst run with
  | Normal a => Some a
  | Throw _ => None
  end.

(** The eight combinations of (liked, commented, shared). *)
Definition eight_combinations : list (bool * bool * bool) :=
  [ (false, false, false); (false, false, true); (false, true, false); (false, true, true);
    (true, false, false); (true, false, true); (true, true, false); (true, true, true) ].

(** The behavior types, from the least to the most engaged. *)
Definition behavior_tiers : list string :=
  [ "lurker"; "casual_engager"; "active_commenter"; "power_sharer" ].

(* ================================================================== *)
(** * Deleting and regenerating ([deleteByUserId], [regeneratePost]) *)
(* ================================================================== *)

Definition set_posts_of_user (posts : list GeneratedPost) (d : Db) : Db :=
  {| personas_of_user := personas_of_user d;
     posts_of_user := posts;
     postSimulations := postSimulations d;
     simulationActivityLog := simulationActivityLog d;
     simulationStatus := simulationStatus d;
     onboardingStep := onboardingStep d |}.

(** [DELETE FROM post_simulations WHERE post_id = id] *)
Definition delete_rows_of_post (id : string) (d : Db) : Db :=
  set_postSimulations
    (filter (fun r => negb (String.eqb (postId r) id)) (postSimulations d)) d.

(** [SimulationRepository.deleteByUserId]: the posts of the user are read,
    then the rows of each of them are deleted, post by post. *)
Definition simulations_deleteByUserId : M unit :=
  fun s =>
    let userPosts := posts_of_user (db s) in
    (Normal tt,
     set_db (fold_left (fun d post => delete_rows_of_post (post_id post) d) userPosts (db s)) s).

(** [GeneratedPostsRepository.deleteByUserId]: the posts of the user go, and
    with them ([ON DELETE CASCADE]) the rows that refer to them. *)
Definition posts_deleteByUserId : M unit :=
  fun s =>
    let userPosts := posts_of_user (db s) in
    (Normal tt,
     set_db (set_posts_of_user []
               (fold_left (fun d post => delete_rows_of_post (post_id post) d)
                          userPosts (db s))) s).

(** Where a post of the given variation number goes in the result of
    [getByUserId], which is ordered by variation number (a new post after
    the posts of the same number). *)
Fixpoint insert_post (post : GeneratedPost) (posts : list GeneratedPost) : list GeneratedPost :=
  match posts with
  | [] => [post]
  | p :: rest =>
      if (variationNumber post <? variationNumber p)%Z then post :: p :: rest
      else p :: insert_post post rest
  end.

(** [GeneratedPostsRepository.create]: the database assigns the id [new_id]
    to the row and returns it. *)
Definition posts_create (new_id : string) (variation : Z) (platform' content' : string)
  : M GeneratedPost :=
  fun s =>
    let post := {| post_id := new_id; variationNumber := variation;
                   platform := platform'; content := content' |} in
    (Normal post, set_db (set_posts_of_user (insert_post post (posts_of_user (db s))) (db s)) s).

(** A JavaScript string is truthy when it is not empty. *)
Definition truthy (text : string) : bool := negb (String.eqb text "").

(** The row re-inserted for the original post: the stored result, filed
    under the new post id (lines 1020-1029; [s.reasoning || ""] is
    [s.reasoning]). *)
Definition reinserted_row (reinsertedPostId : string) (s : SimulationResult)
  : SimulationResult :=
  {| postId := reinsertedPostId;
     personaId := personaId s;
     liked := liked s;
     shared := shared s;
     commented := commented s;
     commentText := commentText s;
     reasoning := or_else (Some (reasoning s)) "";
     engagementScore := engagementScore s |}.

(** [regeneratePost], lines 953-1042, for a request that passed validation:
    what the handler does to the posts, the stored results and the
    simulation columns of the user.  [selectedPostId] is the column of that
    name of the current user; [new_id] is the id the database gives to the
    re-inserted post.  Of a post, the columns of [GeneratedPost] are carried;
    the post-generation columns of the user, the queued job and the
    response are left out. *)
Definition regeneratePost (selectedPostId : option string) (new_id : string) : M unit :=
  posts <- getPostsByUserId ;;
  let selectedPost :=
    match selectedPostId with
    | Some id =>
        if truthy id then find (fun p => String.eqb (post_id p) id) posts else None
    | None => None
    end in
  originalPostSimulations <-
    match selectedPostId, selectedPost with
    | Some id, Some _ => getByPostId id
    | _, _ => ret []
    end ;;
  simulations_deleteByUserId ;;;
  posts_deleteByUserId ;;;
  reinsertedPostId <-
    match selectedPost with
    | Some original =>
        reinserted <- posts_create new_id 1 (platform original) (content original) ;;
        ret (Some (post_id reinserted))
    | None => ret None
    end ;;
  match reinsertedPostId with
  | Some id =>
      if truthy id && (0 <? List.length originalPostSimulations)
      then createBulk (map (reinserted_row id) originalPostSimulations)
      else ret tt
  | None => ret tt
  end ;;;
  updateUser (fun d =>
    set_onboardingStep 5
      (set_simulationActivityLog [] (set_simulationStatus "pending" d))).

(** The row belongs to a post of the user. *)
Definition of_user (d : Db) (r : SimulationResult) : bool :=
  existsb (fun p => String.eqb (post_id p) (postId r)) (posts_of_user d).

(* ================================================================== *)
(** * The content calendar ([startContentCalendarWorker],
      [startPostGenerationWorker]) *)
(* ================================================================== *)

Module Calendar.

(** An element of [posts] of [ContentCalendarDay]. *)
Record CalendarPost : Type := {
  postNumber : Z;
  theme : string;
  platform : string
}.

Record ContentCalendarDay : Type := {
  day : string;
  dayNumber : Z;
  posts : list CalendarPost
}.

(** A row of the table [content_calendar] of one user (the columns the
    workers write and read). *)
Record ContentCalendar : Type := {
  dayOfWeek : string;
  row_dayNumber : Z;
  row_postNumber : Z;
  row_theme : string;
  row_platform : string
}.

Definition row_of (d : ContentCalendarDay) (post : CalendarPost) : ContentCalendar :=
  {| dayOfWeek := day d;
     row_dayNumber := dayNumber d;
     row_postNumber := postNumber post;
     row_theme := theme post;
     row_platform := platform post |}.

(** The calendar worker, lines 750-759: the rows that replace the user's
    rows of the table. *)
Definition postsToCreate (calendar : list ContentCalendarDay) : list ContentCalendar :=
  flat_map (fun d => map (row_of d) (posts d)) calendar.

(** [calendarByDay], a [Map] from day number to day, in insertion order. *)
Definition Map_has (key : Z) (m : list (Z * ContentCalendarDay)) : bool :=
  existsb (fun e => Z.eqb (fst e) key) m.

Fixpoint Map_set_day (key : Z) (value : ContentCalendarDay)
  (m : list (Z * ContentCalendarDay)) : list (Z * ContentCalendarDay) :=
  match m with
  | [] => [(key, value)]
  | (k, v) :: rest =>
      if Z.eqb k key then (k, value) :: rest else (k, v) :: Map_set_day key value rest
  end.

(** [calendarByDay.get(key)!.posts.push(post)]: the day held under the key
    gets the post; without the key, reading [posts] of [undefined] throws
    ([None]). *)
Fixpoint push_post (key : Z) (post : CalendarPost) (m : list (Z * ContentCalendarDay))
  : option (list (Z * ContentCalendarDay)) :=
  match m with
  | [] => None
  | (k, v) :: rest =>
      if Z.eqb k key
      then Some ((k, {| day := day v; dayNumber := dayNumber v;
                        posts := posts v ++ [post] |}) :: rest)
      else option_map (cons (k, v)) (push_post key post rest)
  end.

(** The body of the loop of the post-generation worker, lines 829-841. *)
Definition add_row (row : ContentCalendar) (m : list (Z * ContentCalendarDay))
  : option (list (Z * ContentCalendarDay)) :=
  let m1 :=
    if negb (Map_has (row_dayNumber row) m)
    then Map_set_day (row_dayNumber row)
           {| day := dayOfWeek row; dayNumber := row_dayNumber row; posts := [] |} m
    else m in
  push_post (row_dayNumber row)
    {| postNumber := row_postNumber row; theme := row_theme row;
       platform := row_platform row |} m1.

Fixpoint calendarByDay (calendarRows : list ContentCalendar)
  (m : list (Z * ContentCalendarDay)) : option (list (Z * ContentCalendarDay)) :=
  match calendarRows with
  | [] => Some m
  | row :: rest =>
      match add_row row m with
      | Some m' => calendarByDay rest m'
      | None => None
      end
  end.

(** Lines 826-844: the calendar rebuilt from the rows of the user. *)
Definition contentCalendar (calendarRows : list ContentCalendar)
  : option (list ContentCalendarDay) :=
  match calendarByDay calendarRows [] with
  | Some m =>
      Some (Array_sort (fun a b => inject_Z (dayNumber a - dayNumber b)) (map snd m))
  | None => None
  end.

(** [ORDER BY day_number, post_number] *)
Definition row_le (a b : ContentCalendar) : Prop :=
  (row_dayNumber a < row_dayNumber b \/
   (row_dayNumber a = row_dayNumber b /\ row_postNumber a <= row_postNumber b))%Z.

Definition row_lt (a b : ContentCalendar) : Prop :=
  (row_dayNumber a < row_dayNumber b \/
   (row_dayNumber a = row_dayNumber b /\ row_postNumber a < row_postNumber b))%Z.

(** [getUserCalendar]: [rows] are the rows of the user in [table], ordered
    by day number, then post number. *)
Definition returned_by_getUserCalendar (table rows : list ContentCalendar) : Prop :=
  Permutation rows table /\ StronglySorted row_le rows.

(** Days in ascending order of distinct day numbers, the posts of each day
    in ascending order of distinct post numbers. *)
Definition ascending (calendar : list ContentCalendarDay) : Prop :=
  StronglySorted (fun a b => (dayNumber a < dayNumber b)%Z) calendar /\
  Forall (fun d => StronglySorted (fun p q => (postNumber p < postNumber q)%Z) (posts d))
         calendar.

Definition has_posts (d : ContentCalendarDay) : bool :=
  match posts d with
  | [] => false
  | _ :: _ => true
  end.

(** The post a row stands for, and a day with one more post. *)
Definition post_of_row (row : ContentCalendar) : CalendarPost :=
  {| postNumber := row_postNumber row; theme := row_theme row;
     platform := row_platform row |}.

Definition with_post (post : CalendarPost) (v : ContentCalendarDay) : ContentCalendarDay :=
  {| day := day v; dayNumber := dayNumber v; posts := posts v ++ [post] |}.

Definition on_day (k : Z) (row : ContentCalendar) : bool := Z.eqb (row_dayNumber row) k.

(** The day [d] is the day of its number among [rows]: its posts are those
    of the rows of that day number, in the order of the rows, there is at
    least one, and its name is that of the first such row. *)
Definition day_of_rows (rows : list ContentCalendar) (d : ContentCalendarDay) : Prop :=
  posts d = map post_of_row (filter (on_day (dayNumber d)) rows) /\
  posts d <> [] /\
  option_map dayOfWeek (find (on_day (dayNumber d)) rows) = Some (day d).

(** The map [m] holds the days of [rows], each under its number. *)
Definition grouped (rows : list ContentCalendar) (m : list (Z * ContentCalendarDay)) : Prop :=
  NoDup (map fst m) /\
  Forall (fun e => dayNumber (snd e) = fst e /\ day_of_rows rows (snd e)) m /\
  Forall (fun row => Map_has (row_dayNumber row) m = true) rows.

(** Two posts on Monday, none on Tuesday, one on Wednesday. *)
Definition sample_calendar : list ContentCalendarDay :=
  [ {| day := "Monday"; dayNumber := 1;
       posts := [ {| postNumber := 1; theme := "Launch"; platform := "LinkedIn" |};
                  {| postNumber := 2; theme := "Team"; platform := "Instagram" |} ] |};
    {| day := "Tuesday"; dayNumber := 2; posts := [] |};
    {| day := "Wednesday"; dayNumber := 3;
       posts := [ {| postNumber := 1; theme := "Tips"; platform := "LinkedIn" |} ] |} ].

End Calendar.

(* ================================================================== *)
(** * Vocabulary of the further properties *)
(* ================================================================== *)

Definition nat_of_bool (b : bool) : nat := if b then 1 else 0.

(** The number of random draws a reaction to the outcome [o] makes when the
    next draw is the [n]-th: none unless the oracle stopped, one for the stop
    gate, and, when that passes, one for each action the oracle said yes to. *)
Definition draws_needed (random : nat -> Q) (n : nat) (behavior : string)
  (o : OracleOutcome) : nat :=
  match o with
  | ParsedObject parsed =>
      if Boolean (parsed_stoppedScrolling parsed) then
        1 + (if Number_lt (random n) (option_map stopRate (gates_for behavior))
             then nat_of_bool (Boolean (parsed_liked parsed))
                  + nat_of_bool (Boolean (parsed_commented parsed))
                  + nat_of_bool (Boolean (parsed_shared parsed))
             else 0)
      else 0
  | _ => 0
  end.

(** The values JavaScript takes for false, among those a parsed JSON
    document can hold and [undefined]. *)
Definition falsy (v : JsValue) : Prop :=
  v = JsUndefined \/ v = JsNull \/ v = JsBoolean false \/ v = JsString "" \/
  exists q, v = JsNumber q /\ (q == 0)%Q.

(** The same persona, filed under another behavior type. *)
Definition with_behavior (behavior : string) (p : Persona) : Persona :=
  {| persona_id := persona_id p; persona_name := persona_name p;
     persona_title := persona_title p; socialBehavior := behavior |}.

(** The score of the row is the weighted sum of its actions. *)
Definition well_scored (r : SimulationResult) : Prop :=
  engagementScore r = score_of (liked r) (commented r) (shared r).

(** The running counter that closes the report of a batch (lines 308-311). *)
Definition counter_message (completed total : nat) : string :=
  nat_to_string completed +++ "/" +++ nat_to_string total +++
  " reactions simulated (" +++
  Z_to_string (Math_round (percent completed total)) +++ "%)".

(** What reporting progress does to the state, relative to what the
    callback leaves alone; [messages] are the messages handed to a callback
    that is given. *)
Definition reported (onProgress : option (string -> M unit)) (s s' : State)
  (messages : list string) : Prop :=
  (callback_keeps calls onProgress -> calls s' = calls s) /\
  (callback_keeps draws onProgress -> draws s' = draws s) /\
  (callback_keeps progress onProgress ->
   progress s' = progress s ++ match onProgress with
                               | Some _ => messages
                               | None => []
                               end).

(** [r] is the reaction to the reply to the request number [k], about the
    pair [pr]. *)
Definition reaction_to_request (random : nat -> Q)
  (judge : nat -> Persona -> GeneratedPost -> OracleReply)
  (k : nat) (pr : Pair) (r : SimulationResult) : Prop :=
  exists s0 s1,
    react random (persona pr) (post pr) (outcome (judge k (persona pr) (post pr))) s0
    = (Normal r, s1).

(** Bob reviewed the first post in an earlier round, Ada did not; the
    second post is new. *)
Definition partial_db : Db :=
  {| personas_of_user := [ada; bob];
     posts_of_user := [post1; post2];
     postSimulations := [ stored "u2" "p1" true false false ];
     simulationActivityLog := [];
     simulationStatus := "idle";
     onboardingStep := 6 |}.

(** The aggregates of a set of results, filed under a post id. *)
Definition summary_of (id : string) (rows : list SimulationResult) : PostEngagementSummary :=
  {| summary_postId := id;
     totalLikes := count_where liked rows;
     totalShares := count_where shared rows;
     totalComments := count_where commented rows;
     totalEngagementScore := sum_scores rows;
     simulationCount := Z.of_nat (List.length rows) |}.

(** The number of results without any action. *)
Definition scrolled_count (sims : list SimulationResult) : nat :=
  List.length (filter (fun s => negb (liked s) && negb (shared s) && negb (commented s)) sims).

(* ================================================================== *)
(** * Facts about the per-pair reaction *)
(* ================================================================== *)

Section ReactionFacts.

Variable random : nat -> Q.

Lemma gate_run (wanted : bool) (rate : option Q) (s : State) :
  gate random wanted rate s =
  (Normal (wanted && Number_lt (random (draws s)) rate),
   if wanted then set_draws (S (draws s)) s else s).
Proof. destruct wanted; reflexivity. Qed.

Lemma only_draws_refl (s : State) : only_draws s s.
Proof. repeat split; auto. Qed.

Lemma only_draws_trans (s1 s2 s3 : State) :
  only_draws s1 s2 -> only_draws s2 s3 -> only_draws s1 s3.
Proof.
  intros (H1 & H2 & H3 & H4) (K1 & K2 & K3 & K4).
  repeat split; try lia; congruence.
Qed.

Lemma gate_only_draws (wanted : bool) (rate : option Q) (s : State) :
  only_draws s (snd (gate random wanted rate s)).
Proof.
  rewrite gate_run. destruct wanted; simpl; repeat split; simpl; auto.
Qed.

(** [react] always returns, for the right pair, with a consistent score. *)
Lemma react_returns (persona : Persona) (post : GeneratedPost) (o : OracleOutcome) (s : State) :
  exists r s',
    react random persona post o s = (Normal r, s') /\
    only_draws s s' /\
    result_ids r = (persona_id persona, post_id post) /\
    engagementScore r = score_of (liked r) (commented r) (shared r).
Proof.
  destruct o as [ | | | parsed];
    try solve [exists (could_not_complete persona post), s;
               repeat split; auto].
  unfold react, try_catch, bind.
  simpl await_parsed. unfold ret at 1.
  rewrite gate_run.
  set (s1 := if Boolean (parsed_stoppedScrolling parsed) then _ else s).
  rewrite (gate_run _ _ s1).
  set (s2 := if _ && Boolean (parsed_liked parsed) then _ else s1).
  rewrite (gate_run _ _ s2).
  set (s3 := if _ && Boolean (parsed_commented parsed) then _ else s2).
  rewrite (gate_run _ _ s3).
  set (s4 := if _ && Boolean (parsed_shared parsed) then _ else s3).
  unfold ret. cbv beta iota.
  eexists; exists s4. split; [reflexivity | ].
  split.
  - apply only_draws_trans with s3.
    apply only_draws_trans with s2.
    apply only_draws_trans with s1.
    + subst s1. destruct (Boolean _); repeat split; simpl; auto.
    + subst s2. destruct (_ && Boolean (parsed_liked parsed)); repeat split; simpl; auto.
    + subst s3. destruct (_ && Boolean (parsed_commented parsed)); repeat split; simpl; auto.
    + subst s4. destruct (_ && Boolean (parsed_shared parsed)); repeat split; simpl; auto.
  - split; [reflexivity | ].
    simpl. unfold score_of.
    repeat match goal with |- context [if ?b then _ else _] => destruct b end;
      reflexivity.
Qed.

End ReactionFacts.

(* ================================================================== *)
(** * The two-stage gate *)
(* ================================================================== *)

#[local] Arguments Qltb : simpl never.
#[local] Arguments Number_lt : simpl never.
#[local] Arguments double : simpl never.
#[local] Arguments gates_for : simpl never.
#[local] Arguments String.append : simpl never.




Lemma Boolean_false_iff (v : JsValue) : Boolean v = false <-> falsy v.
Proof.
  unfold falsy. destruct v as [ | | b | q | t | items | props]; simpl.
  - tauto.
  - tauto.
  - split.
    + intros ->. tauto.
    + intros [H | [H | [H | [H | (q & H & _)]]]]; try discriminate.
      inversion H. reflexivity.
  - rewrite negb_false_iff, Qeq_bool_iff. split.
    + intros H. right. right. right. right. exists q. split; [reflexivity | exact H].
    + intros [H | [H | [H | [H | (q' & H & H0)]]]]; try discriminate.
      inversion H. subst q'. exact H0.
  - rewrite negb_false_iff, String.eqb_eq. split.
    + intros ->. tauto.
    + intros [H | [H | [H | [H | (q & H & _)]]]]; try discriminate.
      inversion H. reflexivity.
  - split; [discriminate | ].
    intros [H | [H | [H | [H | (q & H & _)]]]]; discriminate.
  - split; [discriminate | ].
    intros [H | [H | [H | [H | (q & H & _)]]]]; discriminate.
Qed.

Lemma Boolean_true_iff (v : JsValue) : Boolean v = true <-> ~ falsy v.
Proof.
  rewrite <- Boolean_false_iff. destruct (Boolean v); split; congruence.
Qed.

Lemma Qltb_lt (x y : Q) : Qltb x y = true <-> (x < y)%Q.
Proof.
  unfold Qltb. rewrite negb_true_iff. split.
  - intros H. apply Qnot_le_lt. intros Hle. apply Qle_bool_iff in Hle. congruence.
  - intros H. destruct (Qle_bool y x) eqn:E; [ | reflexivity].
    apply Qle_bool_iff in E. exfalso. exact (Qlt_not_le _ _ H E).
Qed.


(** The numbers the sixteen literals of the table evaluate to: the
    binary64 neighbours of the decimals, given as exact fractions. *)
Lemma PROBABILITY_GATES_numbers :
  map (fun entry => let g := snd entry in
                    (stopRate g, likeRate g, commentRate g, shareRate g))
      PROBABILITY_GATES
  = [ (5404319552844595 # 18014398509481984, 1 # 2,
       5764607523034235 # 72057594037927936, 5764607523034235 # 288230376151711744);
      (1 # 2, 5404319552844595 # 9007199254740992,
       3242591731706757 # 18014398509481984, 1080863910568919 # 18014398509481984);
      (3152519739159347 # 4503599627370496, 3 # 4,
       3152519739159347 # 9007199254740992, 1080863910568919 # 9007199254740992);
      (7656119366529843 # 9007199254740992, 7656119366529843 # 9007199254740992,
       8106479329266893 # 18014398509481984, 7926335344172073 # 36028797018963968) ]%Q.
Proof. vm_compute. reflexivity. Qed.


(* ================================================================== *)
(** * List lemmas used by the batch proofs *)
(* ================================================================== *)

Section ListFacts.

Context {A B : Type}.

Lemma insert_by_perm (key : A -> nat) (x : A) (l : list A) :
  Permutation (insert_by key x l) (x :: l).
Proof.
  induction l as [ | y rest IH]; simpl.
  - apply Permutation_refl.
  - destruct (key x <=? key y).
    + apply Permutation_refl.
    + apply Permutation_trans with (y :: x :: rest).
      * apply perm_skip, IH.
      * apply perm_swap.
Qed.

Lemma sort_by_perm (key : A -> nat) (l : list A) : Permutation (sort_by key l) l.
Proof.
  induction l as [ | x rest IH]; simpl.
  - apply perm_nil.
  - apply Permutation_trans with (x :: sort_by key rest).
    + apply insert_by_perm.
    + apply perm_skip, IH.
Qed.

Lemma map_fst_combine (l : list A) (l' : list B) :
  List.length l = List.length l' -> map fst (combine l l') = l.
Proof.
  revert l'. induction l as [ | a l IH]; intros [ | b l'] H; simpl in *;
    try discriminate; auto.
  f_equal. apply IH. lia.
Qed.

Lemma filter_no_key (l : list (nat * B)) (i : nat) :
  ~ In i (map fst l) -> filter (fun x => fst x =? i) l = [].
Proof.
  induction l as [ | x l IH]; simpl; intros H; auto.
  destruct (Nat.eqb_spec (fst x) i) as [E | E].
  - exfalso. apply H. left. exact E.
  - apply IH. intros K. apply H. right. exact K.
Qed.

Lemma filter_unique_key (l : list (nat * B)) (i : nat) (b : B) :
  NoDup (map fst l) -> In (i, b) l -> filter (fun x => fst x =? i) l = [(i, b)].
Proof.
  induction l as [ | x l IH]; simpl; intros Hnd Hin.
  - contradiction.
  - inversion Hnd as [ | k ks Hk Hks]; subst.
    destruct Hin as [-> | Hin].
    + simpl. rewrite Nat.eqb_refl. f_equal. apply filter_no_key. exact Hk.
    + destruct (Nat.eqb_spec (fst x) i) as [E | E].
      * exfalso. apply Hk. rewrite E.
        change i with (fst (i, b)). apply in_map. exact Hin.
      * apply IH; assumption.
Qed.

Lemma flat_map_singletons (l : list A) (h : A -> list B) (P : A -> B -> Prop) :
  (forall a, In a l -> exists b, h a = [b] /\ P a b) ->
  Forall2 P l (flat_map h l).
Proof.
  induction l as [ | a l IH]; simpl; intros H.
  - constructor.
  - destruct (H a (or_introl eq_refl)) as (b & -> & Hb).
    simpl. constructor; auto.
Qed.

Lemma Forall2_by_position (R : A -> B -> Prop) (pre l : list A) (l' : list B) :
  Forall2 (fun i b => exists a, nth_error (pre ++ l) i = Some a /\ R a b)
          (seq (List.length pre) (List.length l)) l' ->
  Forall2 R l l'.
Proof.
  revert pre l'. induction l as [ | a l IH]; intros pre l' H; simpl in H.
  - inversion H. constructor.
  - inversion H as [ | i b idx bs (a' & Ha' & HR) Hrest]; subst.
    rewrite nth_error_app2 in Ha' by lia.
    rewrite Nat.sub_diag in Ha'. simpl in Ha'. inversion Ha'; subst a'.
    constructor; [exact HR | ].
    apply (IH (pre ++ [a])).
    rewrite <- app_assoc. simpl.
    rewrite length_app. simpl. rewrite Nat.add_1_r. exact Hrest.
Qed.

Lemma Forall2_in_r (R : A -> B -> Prop) (l : list A) (l' : list B) (b : B) :
  Forall2 R l l' -> In b l' -> exists a, In a l /\ R a b.
Proof.
  induction 1 as [ | x y l l' Hxy H IH]; simpl; intros Hin.
  - contradiction.
  - destruct Hin as [-> | Hin].
    + exists x. auto.
    + destruct (IH Hin) as (a & Ha & HR). exists a. auto.
Qed.

End ListFacts.

Lemma in_pending {A B : Type} (la : list A) (lb : list B) (off i : nat) (a : A) (b : B) :
  In (i, (a, b)) (combine (seq off (List.length la)) (combine la lb)) ->
  off <= i /\ nth_error la (i - off) = Some a /\ nth_error lb (i - off) = Some b.
Proof.
  revert lb off. induction la as [ | x la IH]; intros lb off H; simpl in H.
  - contradiction.
  - destruct lb as [ | y lb]; simpl in H; [contradiction | ].
    destruct H as [H | H].
    + inversion H; subst. rewrite Nat.sub_diag. simpl. auto.
    + apply IH in H. destruct H as (H1 & H2 & H3).
      replace (i - off) with (S (i - S off)) by lia. simpl. repeat split; auto. lia.
Qed.

Lemma Forall2_at {A B : Type} (R : A -> B -> Prop) (l : list A) (l' : list B)
  (i : nat) (a : A) (b : B) :
  Forall2 R l l' -> nth_error l i = Some a -> nth_error l' i = Some b -> R a b.
Proof.
  intros H. revert i. induction H as [ | x y l l' Hxy H IH]; intros [ | i] Ha Hb;
    simpl in *; try discriminate.
  - inversion Ha; inversion Hb; subst. exact Hxy.
  - eapply IH; eassumption.
Qed.

Lemma Forall2_map_fst {A B C : Type} (R : (C * A) -> (C * B) -> Prop)
  (l : list (C * A)) (l' : list (C * B)) :
  Forall2 R l l' -> (forall x y, R x y -> fst y = fst x) -> map fst l' = map fst l.
Proof.
  intros H HR. induction H as [ | x y l l' Hxy H IH]; simpl; auto.
  rewrite IH. f_equal. apply HR. exact Hxy.
Qed.

(* ================================================================== *)
(** * One batch: [Promise.all] over [simulateReaction] *)
(* ================================================================== *)

Section BatchFacts.

Variable random : nat -> Q.
Variable judge : nat -> Persona -> GeneratedPost -> OracleReply.

(** Starting the calls of a batch sends one request per pair, in order. *)
Lemma requests_sent (batch : list Pair) (s : State) :
  exists replies s',
    mapM (fun pr => openai_create judge (persona pr) (post pr)) batch s
    = (Normal replies, s') /\
    Forall2 (fun pr reply => exists k, reply = judge k (persona pr) (post pr)) batch replies /\
    calls s' = calls s ++ map pair_ids batch /\
    draws s' = draws s /\ progress s' = progress s /\ db s' = db s.
Proof.
  revert s. induction batch as [ | pr batch IH]; intros s.
  - exists [], s. simpl. rewrite app_nil_r. repeat split; auto.
  - simpl. unfold bind at 1. unfold openai_create at 1.
    destruct (IH (set_calls (calls s ++ [(persona_id (persona pr), post_id (post pr))]) s))
      as (replies & s' & Hrun & Hall & Hcalls & Hdraws & Hprog & Hdb).
    unfold bind at 1. rewrite Hrun. unfold ret.
    eexists; exists s'. split; [reflexivity | ].
    split; [ constructor; [eexists; reflexivity | exact Hall] | ].
    simpl in *. rewrite Hcalls, <- app_assoc. repeat split; auto.
Qed.

(** Resuming the continuations, in any order, settles every one of them. *)
Lemma continuations_settle (arrival : list (nat * (Pair * OracleReply))) (s : State) :
  exists settled s',
    mapM (fun x =>
            r <- react random (persona (fst (snd x))) (post (fst (snd x)))
                       (outcome (snd (snd x))) ;;
            ret (fst x, r))
         arrival s
    = (Normal settled, s') /\
    only_draws s s' /\
    Forall2 (fun x y =>
               fst y = fst x /\
               result_ids (snd y) = pair_ids (fst (snd x)) /\
               exists s0 s1,
                 react random (persona (fst (snd x))) (post (fst (snd x)))
                       (outcome (snd (snd x))) s0 = (Normal (snd y), s1))
            arrival settled.
Proof.
  revert s. induction arrival as [ | x arrival IH]; intros s.
  - exists [], s. simpl. split; [reflexivity | ].
    split; [apply only_draws_refl | constructor].
  - destruct (react_returns random (persona (fst (snd x))) (post (fst (snd x)))
                (outcome (snd (snd x))) s) as (r & s1 & Hr & Hframe & Hids & _).
    destruct (IH s1) as (settled & s' & Hrun & Hframe' & Hall).
    exists ((fst x, r) :: settled), s'.
    split.
    + simpl. unfold bind at 1. unfold bind at 1. rewrite Hr.
      unfold ret at 1. unfold bind at 1. rewrite Hrun. reflexivity.
    + split; [eapply only_draws_trans; eassumption | ].
      constructor; [ | exact Hall].
      simpl. repeat split; auto. exists s, s1. exact Hr.
Qed.

(** [Promise.all] returns one reaction per pair of the batch, at the
    position of the pair, whatever the order of arrival of the replies. *)
Lemma Promise_all_settles (batch : list Pair) (s : State) :
  exists results s',
    Promise_all_simulateReaction random judge batch s = (Normal results, s') /\
    Forall2 (reaction_of random judge) batch results /\
    calls s' = calls s ++ map pair_ids batch /\
    progress s' = progress s /\ db s' = db s.
Proof.
  unfold Promise_all_simulateReaction.
  destruct (requests_sent batch s)
    as (replies & s1 & Hsent & Hreplies & Hcalls & Hdraws & Hprog & Hdb).
  unfold bind at 1. rewrite Hsent.
  set (pending := combine (seq 0 (List.length batch)) (combine batch replies)).
  set (arrival := sort_by (fun x => latency (snd (snd x))) pending).
  destruct (continuations_settle arrival s1)
    as (settled & s' & Hrun & (_ & Fcalls & Fprog & Fdb) & Hsettled).
  unfold bind at 1. rewrite Hrun. unfold ret.
  eexists; exists s'. split; [reflexivity | ].
  split; [ | repeat split; congruence].
  assert (Hperm : Permutation arrival pending) by apply sort_by_perm.
  assert (Hkeys : Permutation (map fst settled) (seq 0 (List.length batch))).
  { rewrite (Forall2_map_fst _ _ _ Hsettled) by (intros x y (E & _); exact E).
    apply Permutation_trans with (map fst pending).
    - apply Permutation_map. exact Hperm.
    - unfold pending. rewrite map_fst_combine; [apply Permutation_refl | ].
      rewrite length_seq, length_combine.
      apply Forall2_length in Hreplies. lia. }
  apply (Forall2_by_position (reaction_of random judge) [] batch).
  apply flat_map_singletons.
  intros i Hi.
  assert (Hin : In i (map fst settled))
    by (eapply Permutation_in; [apply Permutation_sym; exact Hkeys | exact Hi]).
  apply in_map_iff in Hin. destruct Hin as ([i' r] & Ei & Hin). simpl in Ei. subst i'.
  exists r. split.
  - rewrite (filter_unique_key settled i r); auto.
    eapply Permutation_NoDup; [apply Permutation_sym; exact Hkeys | apply seq_NoDup].
  - destruct (Forall2_in_r _ _ _ _ Hsettled Hin) as ([j [pr reply]] & Hx & Ej & Hids & Hreact).
    simpl in Ej, Hids, Hreact. subst j.
    apply (Permutation_in _ Hperm) in Hx.
    apply in_pending in Hx. destruct Hx as (_ & Hpr & Hreply).
    rewrite Nat.sub_0_r in Hpr, Hreply.
    exists pr. split; [exact Hpr | ].
    destruct (Forall2_at _ _ _ _ _ _ Hreplies Hpr Hreply) as (k & Ek).
    split; [exact Hids | ].
    destruct Hreact as (s0 & s1' & Hreact).
    exists k, s0, s1'. rewrite <- Ek. exact Hreact.
Qed.

End BatchFacts.

(* ================================================================== *)
(** * Progress reporting *)
(* ================================================================== *)

Lemma framed_refl (onProgress : option (string -> M unit)) (s : State) :
  framed onProgress s s.
Proof. split; auto. Qed.

Lemma framed_trans (onProgress : option (string -> M unit)) (s1 s2 s3 : State) :
  framed onProgress s1 s2 -> framed onProgress s2 s3 -> framed onProgress s1 s3.
Proof.
  intros (H1 & H2) (K1 & K2). split.
  - intros H. rewrite K1, H1; auto.
  - intros X view H. rewrite (K2 X view H), (H2 X view H). reflexivity.
Qed.

Lemma call_onProgress_returns (callback : string -> M unit) (message : string) (s : State) :
  never_throws (Some callback) ->
  exists s', call_onProgress callback message s = (Normal tt, s') /\
             framed (Some callback) s s'.
Proof.
  intros Hcb. unfold call_onProgress, bind.
  destruct (Hcb message (set_progress (progress s ++ [message]) s)) as (s' & Hs').
  exists s'. split; [exact Hs' | ].
  split; [intros Hkeep | intros X view Hkeep];
    specialize (Hkeep message (set_progress (progress s ++ [message]) s));
    rewrite Hs' in Hkeep; simpl in Hkeep; exact Hkeep.
Qed.

Lemma forM_onProgress_returns (callback : string -> M unit) {A : Type}
  (l : list A) (text : A -> string) (s : State) :
  never_throws (Some callback) ->
  exists s', forM_ l (fun a => call_onProgress callback (text a)) s = (Normal tt, s') /\
             framed (Some callback) s s'.
Proof.
  intros Hcb. revert s. induction l as [ | a l IH]; intros s.
  - exists s. split; [reflexivity | apply framed_refl].
  - destruct (call_onProgress_returns callback (text a) s Hcb) as (s1 & H1 & F1).
    destruct (IH s1) as (s' & H' & F').
    exists s'. split.
    + simpl. unfold bind. rewrite H1. exact H'.
    + eapply framed_trans; eassumption.
Qed.

Lemma announce_batch_returns (onProgress : option (string -> M unit))
  (personaList : list Persona) (batch : list Pair) (s : State) :
  never_throws onProgress ->
  exists s', when_given onProgress (announce_batch personaList batch) s = (Normal tt, s') /\
             framed onProgress s s'.
Proof.
  intros Hcb. destruct onProgress as [callback | ]; simpl.
  - apply call_onProgress_returns. exact Hcb.
  - exists s. split; [reflexivity | apply framed_refl].
Qed.

Lemma report_batch_returns (onProgress : option (string -> M unit))
  (personaList : list Persona) (posts : list GeneratedPost) (pairs : list Pair)
  (i : nat) (batchResults : list SimulationResult) (s : State) :
  never_throws onProgress ->
  exists s',
    when_given onProgress (report_batch personaList posts pairs i batchResults) s
    = (Normal tt, s') /\
    framed onProgress s s'.
Proof.
  intros Hcb. destruct onProgress as [callback | ]; simpl.
  - unfold report_batch.
    set (first_part := if _ && _ then _ else _).
    assert (H1 : exists s1, first_part s = (Normal tt, s1) /\ framed (Some callback) s s1).
    { subst first_part.
      destruct (_ && _).
      - apply call_onProgress_returns. exact Hcb.
      - destruct (0 <? _).
        + apply forM_onProgress_returns. exact Hcb.
        + exists s. split; [reflexivity | apply framed_refl]. }
    destruct H1 as (s1 & H1 & F1).
    unfold bind at 1. rewrite H1.
    match goal with |- context [call_onProgress callback ?m s1] =>
      destruct (call_onProgress_returns callback m s1 Hcb) as (s' & H' & F')
    end.
    exists s'. split; [exact H' | eapply framed_trans; eassumption].
  - exists s. split; [reflexivity | apply framed_refl].
Qed.

(* ================================================================== *)
(** * The whole run *)
(* ================================================================== *)

Section RunFacts.

Variable random : nat -> Q.
Variable judge : nat -> Persona -> GeneratedPost -> OracleReply.

Lemma batch_loop_returns (personaList : list Persona) (posts : list GeneratedPost)
  (onProgress : option (string -> M unit)) (pairs : list Pair) :
  never_throws onProgress ->
  forall (fuel i : nat) (allResults : list SimulationResult) (s : State),
    List.length pairs <= i + fuel ->
    exists rs s',
      batch_loop random judge fuel personaList posts onProgress pairs i allResults s
      = (Normal (allResults ++ rs), s') /\
      Forall2 (reaction_of random judge) (skipn i pairs) rs /\
      (callback_keeps calls onProgress ->
       calls s' = calls s ++ map pair_ids (skipn i pairs)) /\
      (forall (X : Type) (view : Db -> X),
          callback_keeps (fun s => view (db s)) onProgress -> view (db s') = view (db s)).
Proof.
  intros Hcb. induction fuel as [ | fuel IH]; intros i allResults s Hfuel.
  - exists [], s. simpl. rewrite skipn_all2 by lia. simpl.
    rewrite !app_nil_r. repeat split; auto.
  - simpl. destruct (Nat.ltb_spec i (List.length pairs)) as [Hlt | Hge].
    + unfold slice. replace (i + BATCH_SIZE - i) with BATCH_SIZE by lia.
      set (batch := firstn BATCH_SIZE (skipn i pairs)).
      destruct (announce_batch_returns onProgress personaList batch s Hcb)
        as (s1 & H1 & (F1c & F1r)).
      unfold bind at 1. rewrite H1.
      destruct (Promise_all_settles random judge batch s1)
        as (batchResults & s2 & H2 & Hbatch & H2c & _ & H2d).
      unfold bind at 1. rewrite H2.
      destruct (report_batch_returns onProgress personaList posts pairs i batchResults s2 Hcb)
        as (s3 & H3 & (F3c & F3r)).
      unfold bind at 1. rewrite H3.
      destruct (IH (i + BATCH_SIZE) (allResults ++ batchResults) s3)
        as (rs & s' & H4 & Hrest & H4c & H4r); [unfold BATCH_SIZE; lia | ].
      exists (batchResults ++ rs), s'.
      rewrite app_assoc. split; [exact H4 | ].
      assert (Esplit : skipn i pairs = batch ++ skipn (i + BATCH_SIZE) pairs).
      { subst batch. rewrite <- (firstn_skipn BATCH_SIZE (skipn i pairs)) at 1.
        rewrite skipn_skipn. rewrite (Nat.add_comm BATCH_SIZE i). reflexivity. }
      split; [rewrite Esplit; apply Forall2_app; assumption | ].
      split; [intros Hkeep | intros X view Hkeep].
      * rewrite H4c, F3c, H2c, F1c by assumption.
        rewrite Esplit, map_app, app_assoc. reflexivity.
      * rewrite (H4r X view Hkeep), (F3r X view Hkeep), H2d.
        apply F1r. exact Hkeep.
    + exists [], s. rewrite skipn_all2 by lia. simpl.
      rewrite !app_nil_r. repeat split; auto.
Qed.

(** [runFullSimulation] returns one reaction per pair, in the order of the
    pairs, and sends exactly one request per pair. *)
Lemma runFullSimulation_returns (personaList : list Persona) (posts : list GeneratedPost)
  (onProgress : option (string -> M unit)) (s : State) :
  never_throws onProgress ->
  exists results s',
    runFullSimulation random judge personaList posts onProgress s = (Normal results, s') /\
    Forall2 (reaction_of random judge) (build_pairs personaList posts) results /\
    (callback_keeps calls onProgress ->
     calls s' = calls s ++ map pair_ids (build_pairs personaList posts)) /\
    (forall (X : Type) (view : Db -> X),
        callback_keeps (fun s => view (db s)) onProgress -> view (db s') = view (db s)).
Proof.
  intros Hcb. unfold runFullSimulation.
  destruct (batch_loop_returns personaList posts onProgress
              (build_pairs personaList posts) Hcb
              (List.length (build_pairs personaList posts)) 0 [] s)
    as (rs & s' & Hrun & Hall & Hcalls & Hrows); [lia | ].
  exists rs, s'. simpl in *. auto.
Qed.

Lemma length_build_pairs (personaList : list Persona) (posts : list GeneratedPost) :
  List.length (build_pairs personaList posts) = List.length personaList * List.length posts.
Proof.
  unfold build_pairs. induction personaList as [ | p personaList IH]; simpl; auto.
  rewrite length_app, length_map, IH. reflexivity.
Qed.

End RunFacts.

(* ================================================================== *)
(** * Properties of [simulateReaction] *)
(* ================================================================== *)


Lemma react_failed (random : nat -> Q) (persona : Persona) (post : GeneratedPost)
  (o : OracleOutcome) (s : State) :
  oracle_failed o = true ->
  react random persona post o s = (Normal (could_not_complete persona post), s).
Proof. destruct o; simpl; intros H; try discriminate; reflexivity. Qed.

Lemma simulateReaction_returns (random : nat -> Q)
  (judge : nat -> Persona -> GeneratedPost -> OracleReply)
  (persona : Persona) (post : GeneratedPost) (s : State) :
  exists r s',
    simulateReaction random judge persona post s = (Normal r, s') /\
    result_ids r = (persona_id persona, post_id post) /\
    engagementScore r = score_of (liked r) (commented r) (shared r).
Proof.
  unfold simulateReaction, bind, openai_create.
  destruct (react_returns random persona post
              (outcome (judge (List.length (calls s)) persona post))
              (set_calls (calls s ++ [(persona_id persona, post_id post)]) s))
    as (r & s' & Hr & _ & Hids & Hscore).
  exists r, s'. auto.
Qed.

(** C6.  Scroll-gate dominance: when the oracle's verdict has a falsy
    [stoppedScrolling], then for every random source the result has [liked],
    [commented] and [shared] false and score 0, whatever the other flags of
    the verdict say; no random number is even drawn. *)
Theorem scroll_gate_dominance
  (random : nat -> Q) (judge : nat -> Persona -> GeneratedPost -> OracleReply)
  (persona : Persona) (post : GeneratedPost) (parsed : Parsed) (s : State) :
  outcome (judge (List.length (calls s)) persona post) = ParsedObject parsed ->
  Boolean (parsed_stoppedScrolling parsed) = false ->
  exists r s',
    simulateReaction random judge persona post s = (Normal r, s') /\
    liked r = false /\ commented r = false /\ shared r = false /\
    engagementScore r = 0%Z /\
    draws s' = draws s.
Proof.
  intros Hreply Hstop.
  unfold simulateReaction, bind, openai_create. rewrite Hreply.
  unfold react, try_catch, bind. simpl await_parsed. unfold ret at 1.
  rewrite Hstop.
  do 2 eexists. split; [reflexivity | ].
  repeat split; reflexivity.
Qed.

Lemma scroll_gate_dominance_witness :
  exists r s',
    simulateReaction always_zero (answering (ParsedObject (verdict false true true true)))
      bob post1 (initial_state (empty_db [bob] [post1])) = (Normal r, s') /\
    liked r = false /\ commented r = false /\ shared r = false /\
    engagementScore r = 0%Z /\
    draws s' = 0.
Proof.
  exact (scroll_gate_dominance always_zero
           (answering (ParsedObject (verdict false true true true)))
           bob post1 (verdict false true true true)
           (initial_state (empty_db [bob] [post1])) eq_refl eq_refl).
Defined.

(** C7.  Every result of [simulateReaction] has
    [engagementScore = 1*liked + 3*commented + 5*shared]; each of the eight
    combinations of the three booleans is produced by some run, and their
    scores are 0, 5, 3, 8, 1, 6, 4, 9 (liked+shared is 6, all three 9, none 0). *)
Theorem engagementScore_weights :
  (forall (random : nat -> Q) (judge : nat -> Persona -> GeneratedPost -> OracleReply)
          (persona : Persona) (post : GeneratedPost) (s : State),
      exists r s',
        simulateReaction random judge persona post s = (Normal r, s') /\
        engagementScore r
        = (1 * Z.b2z (liked r) + 3 * Z.b2z (commented r) + 5 * Z.b2z (shared r))%Z)
  /\
  map (fun '(l, c, sh) =>
         option_map (fun r => (liked r, commented r, shared r, engagementScore r))
           (returned (simulateReaction always_zero
                        (answering (ParsedObject (verdict true l c sh)))
                        ada post1 (initial_state (empty_db [ada] [post1])))))
      eight_combinations
  = [ Some (false, false, false, 0%Z); Some (false, false, true, 5%Z);
      Some (false, true, false, 3%Z); Some (false, true, true, 8%Z);
      Some (true, false, false, 1%Z); Some (true, false, true, 6%Z);
      Some (true, true, false, 4%Z); Some (true, true, true, 9%Z) ].
Proof.
  split.
  - intros random judge persona post s.
    destruct (simulateReaction_returns random judge persona post s)
      as (r & s' & Hrun & _ & Hscore).
    exists r, s'. split; [exact Hrun | exact Hscore].
  - vm_compute. reflexivity.
Qed.

(* ================================================================== *)
(** * The calibration table *)
(* ================================================================== *)

Ltac compare_rates := unfold Qle, Qlt; vm_compute; first [reflexivity | discriminate].

(** C8.  The table holds the four behavior types in the order lurker,
    casual_engager, active_commenter, power_sharer; along that order each of
    [stopRate], [likeRate], [commentRate], [shareRate] never decreases; and
    for every behavior type [commentRate] and [shareRate] are strictly below
    [likeRate]. *)
Theorem PROBABILITY_GATES_calibration :
  map fst PROBABILITY_GATES = behavior_tiers /\
  (exists lurker' casual_engager' active_commenter' power_sharer' : Gates,
     gates_for "lurker" = Some lurker' /\
     gates_for "casual_engager" = Some casual_engager' /\
     gates_for "active_commenter" = Some active_commenter' /\
     gates_for "power_sharer" = Some power_sharer' /\
     Forall (fun rate : Gates -> Q =>
               (rate lurker' <= rate casual_engager')%Q /\
               (rate casual_engager' <= rate active_commenter')%Q /\
               (rate active_commenter' <= rate power_sharer')%Q)
            [stopRate; likeRate; commentRate; shareRate]) /\
  Forall (fun entry : string * Gates =>
            (commentRate (snd entry) < likeRate (snd entry))%Q /\
            (shareRate (snd entry) < likeRate (snd entry))%Q)
         PROBABILITY_GATES.
Proof.
  split; [reflexivity | ].
  split.
  - exists lurker, casual_engager, active_commenter, power_sharer.
    repeat (split; [reflexivity | ]).
    repeat constructor; compare_rates.
  - repeat constructor; compare_rates.
Qed.

(* ================================================================== *)
(** * Properties of [runFullSimulation] *)
(* ================================================================== *)

Lemma Forall2_at_l {A B : Type} (R : A -> B -> Prop) (l : list A) (l' : list B)
  (i : nat) (a : A) :
  Forall2 R l l' -> nth_error l i = Some a -> exists b, nth_error l' i = Some b /\ R a b.
Proof.
  intros H. revert i. induction H as [ | x y l l' Hxy H IH]; intros [ | i] Ha;
    simpl in *; try discriminate.
  - inversion Ha; subst. exists y. auto.
  - apply IH. exact Ha.
Qed.

Lemma Forall2_map_eq {A B C : Type} (f : A -> C) (g : B -> C) (l : list A) (l' : list B) :
  Forall2 (fun a b => g b = f a) l l' -> map g l' = map f l.
Proof.
  induction 1 as [ | x y l l' Hxy H IH]; simpl; congruence.
Qed.

Lemma reactions_have_pair_ids (random : nat -> Q)
  (judge : nat -> Persona -> GeneratedPost -> OracleReply)
  (pairs : list Pair) (results : list SimulationResult) :
  Forall2 (reaction_of random judge) pairs results ->
  map result_ids results = map pair_ids pairs.
Proof.
  intros H. apply Forall2_map_eq.
  eapply Forall2_impl; [ | exact H]. intros pr r (Hids & _). exact Hids.
Qed.

Lemma pair_ids_build_pairs (personaList : list Persona) (posts : list GeneratedPost) :
  map pair_ids (build_pairs personaList posts)
  = flat_map (fun p => map (fun q => (persona_id p, post_id q)) posts) personaList.
Proof.
  unfold build_pairs. induction personaList as [ | p personaList IH]; simpl; auto.
  rewrite map_app, IH, map_map. reflexivity.
Qed.

Lemma build_pairs_no_posts (personaList : list Persona) : build_pairs personaList [] = [].
Proof.
  unfold build_pairs. induction personaList as [ | p personaList IH]; simpl; auto.
Qed.

Lemma updateLog_never_throws : never_throws (Some updateLog).
Proof. intros message s. eexists. reflexivity. Qed.

(** C5.  When the oracle call for a pair rejects, or its output does not
    parse, [simulateReaction] returns normally the negative default for the
    pair: no action, no comment text, reasoning "Simulation could not be
    completed", score 0.  A run of [runFullSimulation] returns normally too,
    with one result per pair, and the result of a pair on which the oracle
    fails is that default. *)
Theorem oracle_failure_is_absorbed
  (random : nat -> Q) (judge : nat -> Persona -> GeneratedPost -> OracleReply) :
  (forall (persona : Persona) (post : GeneratedPost) (s : State),
      oracle_failed (outcome (judge (List.length (calls s)) persona post)) = true ->
      exists s',
        simulateReaction random judge persona post s
        = (Normal {| personaId := persona_id persona;
                     postId := post_id post;
                     liked := false;
                     shared := false;
                     commented := false;
                     commentText := None;
                     reasoning := "Simulation could not be completed";
                     engagementScore := 0 |},
           s'))
  /\
  (forall (personaList : list Persona) (posts : list GeneratedPost)
          (onProgress : option (string -> M unit)) (s : State),
      never_throws onProgress ->
      exists results s',
        runFullSimulation random judge personaList posts onProgress s = (Normal results, s') /\
        map result_ids results = map pair_ids (build_pairs personaList posts) /\
        forall (i : nat) (pr : Pair),
          nth_error (build_pairs personaList posts) i = Some pr ->
          (forall k, oracle_failed (outcome (judge k (persona pr) (post pr))) = true) ->
          nth_error results i
          = Some {| personaId := persona_id (persona pr);
                    postId := post_id (post pr);
                    liked := false;
                    shared := false;
                    commented := false;
                    commentText := None;
                    reasoning := "Simulation could not be completed";
                    engagementScore := 0 |}).
Proof.
  split.
  - intros persona post s Hfail.
    unfold simulateReaction, bind, openai_create.
    rewrite react_failed by exact Hfail.
    eexists. reflexivity.
  - intros personaList posts onProgress s Hcb.
    destruct (runFullSimulation_returns random judge personaList posts onProgress s Hcb)
      as (results & s' & Hrun & Hall & _).
    exists results, s'. split; [exact Hrun | ].
    split; [eapply reactions_have_pair_ids; exact Hall | ].
    intros i pr Hpr Hfail.
    destruct (Forall2_at_l _ _ _ _ _ Hall Hpr) as (r & Hr & _ & k & s0 & s1 & Hreact).
    rewrite react_failed in Hreact by apply Hfail.
    inversion Hreact; subst r. exact Hr.
Qed.

Lemma oracle_failure_is_absorbed_witness :
  (exists s',
     simulateReaction always_zero failing_on_post2 ada post2
       (initial_state (empty_db [ada; bob] [post1; post2]))
     = (Normal (could_not_complete ada post2), s'))
  /\
  (exists results s',
     runFullSimulation always_zero failing_on_post2 [ada; bob] [post1; post2]
       (Some updateLog) (initial_state (empty_db [ada; bob] [post1; post2]))
     = (Normal results, s') /\
     map result_ids results = [("u1", "p1"); ("u1", "p2"); ("u2", "p1"); ("u2", "p2")] /\
     nth_error results 1 = Some (could_not_complete ada post2)).
Proof.
  split.
  - exact (proj1 (oracle_failure_is_absorbed always_zero failing_on_post2)
             ada post2 (initial_state (empty_db [ada; bob] [post1; post2])) eq_refl).
  - destruct (proj2 (oracle_failure_is_absorbed always_zero failing_on_post2)
                [ada; bob] [post1; post2] (Some updateLog)
                (initial_state (empty_db [ada; bob] [post1; post2]))
                updateLog_never_throws)
      as (results & s' & Hrun & Hids & Hdefault).
    exists results, s'. split; [exact Hrun | ]. split; [exact Hids | ].
    apply (Hdefault 1 {| persona := ada; post := post2 |} eq_refl).
    intros k. reflexivity.
Defined.

(** C9.  For all persona and post lists [runFullSimulation] returns a list
    of [|personas| * |posts|] results, the i-th of which is the reaction to
    the i-th pair of the persona-major, post-minor cross product (same
    persona id, same post id) -- whatever the oracle answers and in whatever
    order its replies arrive. *)
Theorem runFullSimulation_cross_product
  (random : nat -> Q) (judge : nat -> Persona -> GeneratedPost -> OracleReply)
  (personaList : list Persona) (posts : list GeneratedPost)
  (onProgress : option (string -> M unit)) (s : State) :
  never_throws onProgress ->
  exists results s',
    runFullSimulation random judge personaList posts onProgress s = (Normal results, s') /\
    List.length results = List.length personaList * List.length posts /\
    map result_ids results
    = flat_map (fun p => map (fun q => (persona_id p, post_id q)) posts) personaList /\
    Forall2 (reaction_of random judge) (build_pairs personaList posts) results.
Proof.
  intros Hcb.
  destruct (runFullSimulation_returns random judge personaList posts onProgress s Hcb)
    as (results & s' & Hrun & Hall & _).
  exists results, s'. split; [exact Hrun | ].
  split; [ | split; [ | exact Hall]].
  - rewrite <- (Forall2_length Hall). apply length_build_pairs.
  - rewrite (reactions_have_pair_ids _ _ _ _ Hall). apply pair_ids_build_pairs.
Qed.

Lemma runFullSimulation_cross_product_witness :
  exists results s',
    runFullSimulation always_zero failing_on_post2 [ada; bob] [post1; post2]
      (Some updateLog) (initial_state (empty_db [ada; bob] [post1; post2]))
    = (Normal results, s') /\
    List.length results = 4 /\
    map result_ids results = [("u1", "p1"); ("u1", "p2"); ("u2", "p1"); ("u2", "p2")] /\
    Forall2 (reaction_of always_zero failing_on_post2)
            (build_pairs [ada; bob] [post1; post2]) results.
Proof.
  exact (runFullSimulation_cross_product always_zero failing_on_post2
           [ada; bob] [post1; post2] (Some updateLog)
           (initial_state (empty_db [ada; bob] [post1; post2]))
           updateLog_never_throws).
Defined.

(** C10.  With an empty persona list, or an empty post list,
    [runFullSimulation] returns the empty list normally and leaves the state
    as it was: no request went to the oracle and the callback was not
    called. *)
Theorem runFullSimulation_empty_input
  (random : nat -> Q) (judge : nat -> Persona -> GeneratedPost -> OracleReply)
  (onProgress : option (string -> M unit)) (s : State) :
  (forall posts : list GeneratedPost,
      runFullSimulation random judge [] posts onProgress s = (Normal [], s)) /\
  (forall personaList : list Persona,
      runFullSimulation random judge personaList [] onProgress s = (Normal [], s)).
Proof.
  split.
  - intros posts. reflexivity.
  - intros personaList. unfold runFullSimulation.
    rewrite build_pairs_no_posts. reflexivity.
Qed.

(* ================================================================== *)
(** * The worker *)
(* ================================================================== *)

Lemma split_posts_returns (allPosts need already : list GeneratedPost) (s : State) :
  split_posts allPosts need already s
  = (Normal (need ++ filter (fun p => negb (has_rows (db s) p)) allPosts,
             already ++ filter (has_rows (db s)) allPosts),
     s).
Proof.
  revert need already. induction allPosts as [ | p allPosts IH]; intros need already; simpl.
  - rewrite !app_nil_r. reflexivity.
  - unfold bind, getByPostId. fold (has_rows (db s) p).
    destruct (has_rows (db s) p); simpl; rewrite IH, <- app_assoc; reflexivity.
Qed.

Lemma gather_results_returns (allPosts : list GeneratedPost)
  (allSimResults : list SimulationResult) (s : State) :
  gather_results allPosts allSimResults s
  = (Normal (allSimResults ++ flat_map (fun p => rows_of_post (db s) (post_id p)) allPosts), s).
Proof.
  revert allSimResults. induction allPosts as [ | p allPosts IH]; intros allSimResults; simpl.
  - rewrite app_nil_r. reflexivity.
  - unfold bind, getByPostId. rewrite IH, <- app_assoc. reflexivity.
Qed.

Lemma simsToCreate_same (results : list SimulationResult) :
  map (fun r =>
         {| personaId := personaId r; postId := postId r;
            liked := liked r; shared := shared r; commented := commented r;
            commentText := commentText r; reasoning := reasoning r;
            engagementScore := engagementScore r |})
      results
  = results.
Proof.
  induction results as [ | r results IH]; simpl; auto.
  rewrite IH. destruct r. reflexivity.
Qed.

Section WorkerFacts.

Variable random : nat -> Q.
Variable judge : nat -> Persona -> GeneratedPost -> OracleReply.

Lemma updateLog_keeps_calls : callback_keeps calls (Some updateLog).
Proof. intros message s. reflexivity. Qed.

Lemma updateLog_keeps_rows : callback_keeps (fun s => postSimulations (db s)) (Some updateLog).
Proof. intros message s. reflexivity. Qed.

Lemma updateLog_keeps_inputs :
  callback_keeps (fun s => (personas_of_user (db s), posts_of_user (db s))) (Some updateLog).
Proof. intros message s. reflexivity. Qed.

Lemma simulate_missing_returns (personaList : list Persona)
  (posts already : list GeneratedPost) (s : State) :
  exists results s',
    simulate_missing random judge personaList posts already s = (Normal tt, s') /\
    calls s' = calls s ++ map pair_ids (build_pairs personaList posts) /\
    stored_rows s' = stored_rows s ++ results /\
    Forall2 (reaction_of random judge) (build_pairs personaList posts) results /\
    (personas_of_user (db s'), posts_of_user (db s'))
    = (personas_of_user (db s), posts_of_user (db s)).
Proof.
  unfold simulate_missing.
  destruct posts as [ | q posts].
  - simpl. rewrite build_pairs_no_posts.
    eexists [], _. split; [reflexivity | ].
    unfold stored_rows. simpl. rewrite !app_nil_r. repeat split; auto.
  - set (posts' := q :: posts).
    replace (0 <? List.length posts') with true by reflexivity.
    set (announce := if 0 <? List.length already then _ else _).
    assert (Hann : exists s1, announce s = (Normal tt, s1) /\
                              calls s1 = calls s /\ stored_rows s1 = stored_rows s /\
                              (personas_of_user (db s1), posts_of_user (db s1))
                              = (personas_of_user (db s), posts_of_user (db s))).
    { subst announce. destruct (0 <? List.length already);
        eexists; (split; [reflexivity | repeat split]). }
    destruct Hann as (s1 & H1 & H1c & H1r & H1i).
    unfold bind at 1. rewrite H1.
    destruct (runFullSimulation_returns random judge personaList posts' (Some updateLog) s1
                updateLog_never_throws)
      as (results & s2 & H2 & Hall & H2c & H2r).
    unfold bind at 1. rewrite H2. rewrite simsToCreate_same.
    exists results. eexists. split; [reflexivity | ].
    split; [ | split; [ | split; [exact Hall | ]]].
    + simpl. rewrite (H2c updateLog_keeps_calls), H1c. reflexivity.
    + unfold stored_rows at 1. simpl.
      rewrite (H2r _ postSimulations updateLog_keeps_rows). fold (stored_rows s1).
      rewrite H1r. reflexivity.
    + simpl.
      rewrite <- H1i.
      exact (H2r _ (fun d => (personas_of_user d, posts_of_user d)) updateLog_keeps_inputs).
Qed.

Lemma log_summary_returns (allPosts already : list GeneratedPost) (s : State) :
  let allSimResults := flat_map (fun p => rows_of_post (db s) (post_id p)) allPosts in
  exists s',
    log_summary allPosts already s = (Normal tt, s') /\
    calls s' = calls s /\
    stored_rows s' = stored_rows s /\
    simulationActivityLog (db s')
    = simulationActivityLog (db s) ++ summary_message allSimResults
        :: match winningPost allPosts allSimResults with
           | Some w => [top_performer_message w already]
           | None => []
           end /\
    (personas_of_user (db s'), posts_of_user (db s'))
    = (personas_of_user (db s), posts_of_user (db s)).
Proof.
  intros allSimResults. unfold log_summary.
  unfold bind at 1. rewrite gather_results_returns. simpl app. fold allSimResults.
  unfold bind at 1. unfold updateLog at 1.
  unfold report_winner.
  destruct (winningPost allPosts allSimResults) as [w | ].
  - eexists. split; [reflexivity | ]. simpl.
    rewrite <- app_assoc. repeat split; reflexivity.
  - eexists. split; [reflexivity | ]. simpl. repeat split; reflexivity.
Qed.

(** The effect of one job on the oracle and on the stored results: it asks
    the oracle about the pairs of the posts that have no stored result, in
    order, and stores one reaction for each of them; the personas and posts
    of the user stay as they are.  When it completes, the log ends with the
    summary and the top performer computed over the stored results of all
    posts. *)
Lemma simulation_job_effect (s : State) :
  exists completion s' results,
    simulation_job random judge s = (completion, s') /\
    calls s' = calls s ++ map pair_ids (pairs_to_simulate (db s)) /\
    stored_rows s' = stored_rows s ++ results /\
    Forall2 (reaction_of random judge) (pairs_to_simulate (db s)) results /\
    (personas_of_user (db s'), posts_of_user (db s'))
    = (personas_of_user (db s), posts_of_user (db s)) /\
    (completion = Normal tt ->
     personas_of_user (db s) <> [] /\ posts_of_user (db s) <> [] /\
     let allPosts := posts_of_user (db s) in
     let allSimResults :=
       flat_map (fun p => filter (fun r => String.eqb (postId r) (post_id p)) (stored_rows s'))
                allPosts in
     exists earlier,
       simulationActivityLog (db s')
       = earlier ++ summary_message allSimResults
           :: match winningPost allPosts allSimResults with
              | Some w => [top_performer_message w (filter (has_rows (db s)) allPosts)]
              | None => []
              end).
Proof.
  unfold simulation_job, try_catch, pairs_to_simulate, posts_to_simulate.
  unfold bind at 1. unfold updateUser at 1.
  set (s0 := set_db _ s).
  unfold bind at 1. unfold bind at 1.
  unfold getPersonasByUserId, getPostsByUserId.
  change (personas_of_user (db s0)) with (personas_of_user (db s)).
  change (posts_of_user (db s0)) with (posts_of_user (db s)).
  destruct (personas_of_user (db s)) as [ | p0 personaList] eqn:Epersonas.
  { eexists; eexists; exists []. split; [reflexivity | ].
    simpl. unfold stored_rows. simpl. rewrite !app_nil_r, Epersonas.
    repeat split; auto; discriminate. }
  destruct (posts_of_user (db s)) as [ | q0 allPosts] eqn:Eposts.
  { eexists; eexists; exists []. split; [reflexivity | ].
    simpl. rewrite build_pairs_no_posts. unfold stored_rows. simpl.
    rewrite !app_nil_r, Epersonas, Eposts.
    repeat split; auto; discriminate. }
  set (personas := p0 :: personaList). set (posts := q0 :: allPosts).
  unfold bind at 1.
  replace (require_inputs personas posts s0) with (Normal tt, s0) by reflexivity.
  unfold bind at 1. rewrite split_posts_returns.
  cbv beta iota zeta. cbn [fst snd app].
  change (has_rows (db s0)) with (has_rows (db s)).
  set (need := filter (fun p => negb (has_rows (db s) p)) posts).
  set (already := filter (has_rows (db s)) posts).
  destruct (simulate_missing_returns personas need already s0)
    as (results & s1 & H1 & H1c & H1r & Hall & H1i).
  unfold bind at 1. rewrite H1.
  destruct (log_summary_returns posts already s1) as (s2 & H2 & H2c & H2r & H2log & H2i).
  unfold bind at 1. rewrite H2.
  eexists; eexists; exists results. split; [reflexivity | ].
  split; [simpl; rewrite H2c, H1c; reflexivity | ].
  split; [unfold stored_rows at 1; simpl; fold (stored_rows s2);
          rewrite H2r, H1r; reflexivity | ].
  split; [exact Hall | ].
  split.
  { cbn [db set_db personas_of_user posts_of_user set_onboardingStep set_simulationStatus].
    rewrite H2i, H1i. subst s0. simpl. rewrite Epersonas, Eposts. reflexivity. }
  intros _. split; [discriminate | ]. split; [discriminate | ].
  exists (simulationActivityLog (db s1)).
  cbn [db set_db simulationActivityLog set_onboardingStep set_simulationStatus].
  rewrite H2log.
  unfold stored_rows at 1 2.
  cbn [db set_db postSimulations set_onboardingStep set_simulationStatus].
  fold (stored_rows s2). rewrite H2r.
  reflexivity.
Qed.

End WorkerFacts.

Lemma in_build_pairs (personaList : list Persona) (posts : list GeneratedPost) (pr : Pair) :
  In pr (build_pairs personaList posts) -> In (persona pr) personaList /\ In (post pr) posts.
Proof.
  unfold build_pairs. intros H. apply in_flat_map in H. destruct H as (p & Hp & H).
  apply in_map_iff in H. destruct H as (q & <- & Hq). simpl. auto.
Qed.

Lemma build_pairs_in (personaList : list Persona) (posts : list GeneratedPost)
  (p : Persona) (q : GeneratedPost) :
  In p personaList -> In q posts ->
  In {| persona := p; post := q |} (build_pairs personaList posts).
Proof.
  intros Hp Hq. unfold build_pairs. apply in_flat_map. exists p. split; [exact Hp | ].
  apply in_map. exact Hq.
Qed.

Lemma has_rows_of_result (d : Db) (q : GeneratedPost) (pid : string) :
  has_result (postSimulations d) (pid, post_id q) -> has_rows d q = true.
Proof.
  intros (row & Hin & Hids). unfold has_rows, rows_of_post.
  assert (Hrow : In row (filter (fun r => String.eqb (postId r) (post_id q))
                                (postSimulations d))).
  { apply filter_In. split; [exact Hin | ].
    inversion Hids. apply String.eqb_refl. }
  destruct (filter _ (postSimulations d)); [contradiction | reflexivity].
Qed.

Lemma pairs_to_simulate_have_no_result (d : Db) (ids : string * string) :
  has_result (postSimulations d) ids -> ~ In ids (map pair_ids (pairs_to_simulate d)).
Proof.
  intros Hres Hin. apply in_map_iff in Hin. destruct Hin as (pr & <- & Hpr).
  apply in_build_pairs in Hpr. destruct Hpr as (_ & Hq).
  apply filter_In in Hq. destruct Hq as (_ & Hq).
  rewrite (has_rows_of_result d (post pr) (persona_id (persona pr)) Hres) in Hq.
  discriminate.
Qed.

Lemma nothing_to_simulate (d : Db) :
  (forall persona post,
      In persona (personas_of_user d) -> In post (posts_of_user d) ->
      has_result (postSimulations d) (persona_id persona, post_id post)) ->
  pairs_to_simulate d = [].
Proof.
  intros Hall. unfold pairs_to_simulate.
  destruct (personas_of_user d) as [ | p0 personaList] eqn:E; [reflexivity | ].
  replace (posts_to_simulate d) with (@nil GeneratedPost);
    [apply build_pairs_no_posts | ].
  unfold posts_to_simulate. symmetry.
  induction (posts_of_user d) as [ | q posts IH]; simpl; auto.
  rewrite (has_rows_of_result d q (persona_id p0)) by (apply Hall; simpl; auto).
  simpl. apply IH. intros persona post Hp Hq. apply Hall; simpl; auto.
Qed.

(** C3.  A job asks the oracle about no pair that already has a stored
    result and stores no second result for such a pair; and when every
    (persona, post) pair of the user already has a stored result, the job
    sends no request to the oracle and stores no new result. *)
Theorem stored_pairs_are_not_simulated_again
  (random : nat -> Q) (judge : nat -> Persona -> GeneratedPost -> OracleReply) (s : State) :
  exists completion s' requests results,
    simulation_job random judge s = (completion, s') /\
    calls s' = calls s ++ requests /\
    stored_rows s' = stored_rows s ++ results /\
    (forall ids, has_result (stored_rows s) ids ->
                 ~ In ids requests /\ ~ In ids (map result_ids results)) /\
    ((forall persona post,
         In persona (personas_of_user (db s)) -> In post (posts_of_user (db s)) ->
         has_result (stored_rows s) (persona_id persona, post_id post)) ->
     requests = [] /\ results = []).
Proof.
  destruct (simulation_job_effect random judge s)
    as (completion & s' & results & Hrun & Hcalls & Hrows & Hall & _).
  exists completion, s', (map pair_ids (pairs_to_simulate (db s))), results.
  split; [exact Hrun | ]. split; [exact Hcalls | ]. split; [exact Hrows | ].
  split.
  - intros ids Hres.
    rewrite (reactions_have_pair_ids _ _ _ _ Hall).
    split; apply pairs_to_simulate_have_no_result; exact Hres.
  - intros Hsettled.
    rewrite (nothing_to_simulate (db s) Hsettled) in *.
    inversion Hall. split; reflexivity.
Qed.

Lemma stored_pairs_are_not_simulated_again_witness :
  exists completion s',
    simulation_job always_zero (answering (ParsedObject (verdict true true true true)))
      (initial_state settled_db) = (completion, s') /\
    calls s' = [] /\
    stored_rows s' = postSimulations settled_db.
Proof.
  destruct (stored_pairs_are_not_simulated_again always_zero
              (answering (ParsedObject (verdict true true true true)))
              (initial_state settled_db))
    as (completion & s' & requests & results & Hrun & Hcalls & Hrows & _ & Hnone).
  exists completion, s'. split; [exact Hrun | ].
  destruct Hnone as (-> & ->).
  - intros persona post Hp Hq. simpl in Hp, Hq.
    destruct Hp as [<- | [<- | []]]; destruct Hq as [<- | [<- | []]];
      [ exists (stored "u1" "p1" true false false)
      | exists (stored "u1" "p2" false false true)
      | exists (stored "u2" "p1" true false false)
      | exists (stored "u2" "p2" false false false) ];
      (split; [simpl; tauto | reflexivity]).
  - rewrite Hcalls, Hrows. split; [reflexivity | apply app_nil_r].
Defined.

Lemma no_post_left (d : Db) (posts : list GeneratedPost) :
  (forall q, In q posts -> has_rows d q = true) ->
  filter (fun p => negb (has_rows d p)) posts = [].
Proof.
  induction posts as [ | q posts IH]; simpl; intros H; [reflexivity | ].
  rewrite H by (left; reflexivity). simpl.
  apply IH. intros q' Hq'. apply H. right. exact Hq'.
Qed.

(** After a job that completed, every post of the user has a stored
    result. *)
Lemma completed_job_covers_posts
  (random : nat -> Q) (judge : nat -> Persona -> GeneratedPost -> OracleReply)
  (s s' : State) (q : GeneratedPost) :
  simulation_job random judge s = (Normal tt, s') ->
  In q (posts_of_user (db s)) ->
  exists r, In r (stored_rows s') /\ postId r = post_id q.
Proof.
  intros Hjob Hq.
  destruct (simulation_job_effect random judge s)
    as (completion & s'' & results & Hrun & _ & Hrows & Hall & _ & Hdone).
  rewrite Hjob in Hrun. inversion Hrun; subst completion s''. clear Hrun.
  destruct (Hdone eq_refl) as (Hpersonas & _). clear Hdone.
  destruct (personas_of_user (db s)) as [ | p0 personaList] eqn:Epersonas; [congruence | ].
  destruct (has_rows (db s) q) eqn:Ehas.
  - unfold has_rows, rows_of_post in Ehas.
    destruct (filter (fun r => String.eqb (postId r) (post_id q)) (postSimulations (db s)))
      as [ | r rows] eqn:Ef; [discriminate | ].
    assert (Hr : In r (filter (fun r => String.eqb (postId r) (post_id q))
                              (postSimulations (db s))))
      by (rewrite Ef; left; reflexivity).
    apply filter_In in Hr. destruct Hr as (Hr & E). apply String.eqb_eq in E.
    exists r. split; [rewrite Hrows; apply in_or_app; left; exact Hr | exact E].
  - assert (Hpair : In (persona_id p0, post_id q) (map pair_ids (pairs_to_simulate (db s)))).
    { apply (in_map pair_ids _ {| persona := p0; post := q |}).
      unfold pairs_to_simulate. apply build_pairs_in.
      - rewrite Epersonas. left. reflexivity.
      - unfold posts_to_simulate. apply filter_In. split; [exact Hq | ].
        rewrite Ehas. reflexivity. }
    rewrite <- (reactions_have_pair_ids _ _ _ _ Hall) in Hpair.
    apply in_map_iff in Hpair. destruct Hpair as (r & Er & Hr).
    exists r. split; [rewrite Hrows; apply in_or_app; right; exact Hr | ].
    inversion Er. reflexivity.
Qed.

(** X11.  Idempotence: a job that follows a completed job sends no request
    to the oracle and stores nothing. *)
Lemma second_job_simulates_nothing
  (random random' : nat -> Q) (judge judge' : nat -> Persona -> GeneratedPost -> OracleReply)
  (s s1 : State) :
  simulation_job random judge s = (Normal tt, s1) ->
  exists completion s2,
    simulation_job random' judge' s1 = (completion, s2) /\
    calls s2 = calls s1 /\
    stored_rows s2 = stored_rows s1.
Proof.
  intros Hfirst.
  destruct (simulation_job_effect random judge s)
    as (completion0 & s1' & results0 & Hrun0 & _ & _ & _ & Hinputs & _).
  rewrite Hfirst in Hrun0. inversion Hrun0; subst completion0 s1'. clear Hrun0.
  inversion Hinputs as [[Epersonas Eposts]].
  destruct (simulation_job_effect random' judge' s1)
    as (completion & s2 & results & Hrun & Hcalls & Hrows & Hall & _).
  assert (Hnone : pairs_to_simulate (db s1) = []).
  { unfold pairs_to_simulate.
    replace (posts_to_simulate (db s1)) with (@nil GeneratedPost);
      [apply build_pairs_no_posts | ].
    symmetry. unfold posts_to_simulate.
    assert (Hcovered : forall q, In q (posts_of_user (db s1)) -> has_rows (db s1) q = true).
    { intros q Hq. rewrite Eposts in Hq.
      destruct (completed_job_covers_posts random judge s s1 q Hfirst Hq) as (r & Hr & Er).
      apply (has_rows_of_result (db s1) q (personaId r)).
      exists r. split; [exact Hr | ]. unfold result_ids. rewrite Er. reflexivity. }
    apply no_post_left. exact Hcovered. }
  rewrite Hnone in *. inversion Hall; subst results.
  exists completion, s2. split; [exact Hrun | ].
  simpl in Hcalls. rewrite app_nil_r in Hcalls, Hrows. split; assumption.
Qed.

(* ================================================================== *)
(** * The top performer *)
(* ================================================================== *)

Lemma lookup_Map_set (k k' : string) (v : Z) (m : list (string * Z)) :
  lookup k (Map_set k' v m) = if String.eqb k' k then Some v else lookup k m.
Proof.
  induction m as [ | [k0 v0] m IH]; simpl.
  - reflexivity.
  - destruct (String.eqb_spec k0 k') as [E | E]; simpl.
    + subst k0. destruct (String.eqb k' k); reflexivity.
    + rewrite IH. destruct (String.eqb_spec k0 k) as [E' | E']; [ | reflexivity].
      subst k0. destruct (String.eqb_spec k' k); [congruence | reflexivity].
Qed.

Lemma Map_set_keys (k' : string) (v : Z) (m : list (string * Z)) (k : string) :
  In k (map fst (Map_set k' v m)) <-> k = k' \/ In k (map fst m).
Proof.
  induction m as [ | [k0 v0] m IH]; simpl.
  - intuition.
  - destruct (String.eqb_spec k0 k') as [E | E]; simpl.
    + subst k0. intuition.
    + rewrite IH. intuition.
Qed.

Lemma Map_set_NoDup (k' : string) (v : Z) (m : list (string * Z)) :
  NoDup (map fst m) -> NoDup (map fst (Map_set k' v m)).
Proof.
  induction m as [ | [k0 v0] m IH]; simpl; intros H.
  - constructor; [intros [] | constructor].
  - inversion H as [ | x l Hx Hl]; subst.
    destruct (String.eqb_spec k0 k') as [E | E]; simpl.
    + constructor; assumption.
    + constructor; [ | apply IH; exact Hl].
      rewrite Map_set_keys. intros [E' | E']; [congruence | contradiction].
Qed.

Lemma postScores_of_snoc (rs : list SimulationResult) (r : SimulationResult) :
  postScores_of (rs ++ [r])
  = Map_set (postId r)
      (Map_get_or_0 (postId r) (postScores_of rs) + engagementScore r)%Z
      (postScores_of rs).
Proof. unfold postScores_of. rewrite fold_left_app. reflexivity. Qed.

Lemma postScores_of_NoDup (rs : list SimulationResult) :
  NoDup (map fst (postScores_of rs)).
Proof.
  induction rs as [ | r rs IH] using rev_ind.
  - constructor.
  - rewrite postScores_of_snoc. apply Map_set_NoDup. exact IH.
Qed.

Lemma sum_scores_app (l l' : list SimulationResult) :
  sum_scores (l ++ l') = (sum_scores l + sum_scores l')%Z.
Proof.
  unfold sum_scores. induction l as [ | r l IH]; simpl; [reflexivity | ].
  rewrite IH. lia.
Qed.

Lemma total_score_snoc (k : string) (rs : list SimulationResult) (r : SimulationResult) :
  total_score k (rs ++ [r])
  = (total_score k rs + if String.eqb (postId r) k then engagementScore r else 0)%Z.
Proof.
  unfold total_score. rewrite filter_app, sum_scores_app. simpl.
  destruct (String.eqb (postId r) k); simpl; lia.
Qed.

Lemma total_score_absent (k : string) (rs : list SimulationResult) :
  existsb (fun r => String.eqb (postId r) k) rs = false -> total_score k rs = 0%Z.
Proof.
  unfold total_score. induction rs as [ | r rs IH]; simpl; [reflexivity | ].
  intros H. apply orb_false_iff in H. destruct H as (H1 & H2).
  rewrite H1. apply IH. exact H2.
Qed.

(** The map [postScores] holds, for each post with results, the sum of the
    scores of its results. *)
Lemma postScores_of_lookup (rs : list SimulationResult) (k : string) :
  lookup k (postScores_of rs)
  = if existsb (fun r => String.eqb (postId r) k) rs
    then Some (total_score k rs)
    else None.
Proof.
  induction rs as [ | r rs IH] using rev_ind.
  - reflexivity.
  - rewrite postScores_of_snoc, lookup_Map_set, existsb_app, total_score_snoc.
    simpl. rewrite orb_false_r.
    destruct (String.eqb_spec (postId r) k) as [E | E].
    + rewrite orb_true_r. f_equal. f_equal.
      unfold Map_get_or_0. rewrite E, IH.
      destruct (existsb _ rs) eqn:Eex; [reflexivity | ].
      symmetry. apply total_score_absent. exact Eex.
    + rewrite orb_false_r, IH, Z.add_0_r. reflexivity.
Qed.

Lemma lookup_of_entry (m : list (string * Z)) (k : string) (v : Z) :
  NoDup (map fst m) -> In (k, v) m -> lookup k m = Some v.
Proof.
  induction m as [ | [k0 v0] m IH]; simpl; intros Hnd Hin; [contradiction | ].
  inversion Hnd as [ | x l Hx Hl]; subst.
  destruct Hin as [E | Hin].
  - inversion E; subst. rewrite String.eqb_refl. reflexivity.
  - destruct (String.eqb_spec k0 k) as [E | E].
    + subst k0. exfalso. apply Hx. change k with (fst (k, v)). apply in_map. exact Hin.
    + apply IH; assumption.
Qed.

Lemma entry_of_lookup (m : list (string * Z)) (k : string) (v : Z) :
  lookup k m = Some v -> In (k, v) m.
Proof.
  induction m as [ | [k0 v0] m IH]; simpl; intros H; [discriminate | ].
  destruct (String.eqb_spec k0 k) as [E | E].
  - inversion H; subst. left. reflexivity.
  - right. apply IH. exact H.
Qed.

(** The loop over [postScores] ends on an entry with the greatest score, or
    on its initial value when no score exceeds it. *)
Lemma winning_from (m : list (string * Z)) (best : string * Z) :
  let final := fold_left (fun best entry => if (snd best <? snd entry)%Z then entry else best)
                         m best in
  (snd best <= snd final)%Z /\
  (forall entry, In entry m -> (snd entry <= snd final)%Z) /\
  (final = best \/ In final m).
Proof.
  revert best. induction m as [ | e m IH]; intros best; simpl.
  - split; [lia | ]. split; [intros entry [] | left; reflexivity].
  - destruct (Z.ltb_spec (snd best) (snd e)) as [Hlt | Hge].
    + destruct (IH e) as (H1 & H2 & H3).
      split; [lia | ]. split.
      * intros entry [<- | Hin]; [exact H1 | apply H2; exact Hin].
      * right. destruct H3 as [-> | H3]; auto.
    + destruct (IH best) as (H1 & H2 & H3).
      split; [exact H1 | ]. split.
      * intros entry [<- | Hin]; [lia | apply H2; exact Hin].
      * destruct H3 as [-> | H3]; auto.
Qed.

Lemma total_score_nonneg (k : string) (rs : list SimulationResult) :
  (forall r, In r rs -> (0 <= engagementScore r)%Z) -> (0 <= total_score k rs)%Z.
Proof.
  unfold total_score, sum_scores. induction rs as [ | r rs IH]; simpl; intros H; [lia | ].
  assert (0 <= engagementScore r)%Z by (apply H; auto).
  assert (IH' := IH (fun r' Hr' => H r' (or_intror Hr'))).
  destruct (String.eqb (postId r) k); simpl; lia.
Qed.

(** Over results with non-negative scores, not all absent, the post found
    by the worker is one with the greatest total score. *)
Lemma winningPost_is_best (allPosts : list GeneratedPost)
  (allSimResults : list SimulationResult) :
  (forall r, In r allSimResults -> (0 <= engagementScore r)%Z) ->
  (forall r, In r allSimResults -> exists p, In p allPosts /\ post_id p = postId r) ->
  allSimResults <> [] ->
  exists w,
    winningPost allPosts allSimResults = Some w /\
    In w allPosts /\
    forall k, (total_score k allSimResults <= total_score (post_id w) allSimResults)%Z.
Proof.
  intros Hnonneg Hposts Hsome.
  unfold winningPost, winning.
  set (m := postScores_of allSimResults).
  destruct (winning_from m ("", (-1)%Z)) as (Hinit & Hmax & Hfinal).
  set (final := fold_left _ m _) in *.
  assert (Hin : In final m).
  { destruct Hfinal as [E | Hin]; [ | exact Hin]. exfalso.
    destruct allSimResults as [ | r0 rs]; [congruence | ].
    assert (Hr0 : lookup (postId r0) m = Some (total_score (postId r0) (r0 :: rs))).
    { unfold m. rewrite postScores_of_lookup. simpl. rewrite String.eqb_refl. reflexivity. }
    apply entry_of_lookup, Hmax in Hr0. rewrite E in Hr0. simpl in Hr0.
    assert (0 <= total_score (postId r0) (r0 :: rs))%Z
      by (apply total_score_nonneg; exact Hnonneg).
    lia. }
  destruct final as [wid hs]. simpl in *.
  assert (Hwid : lookup wid m = Some hs)
    by (apply lookup_of_entry; [apply postScores_of_NoDup | exact Hin]).
  unfold m in Hwid. rewrite postScores_of_lookup in Hwid.
  destruct (existsb _ allSimResults) eqn:Eex; [ | discriminate].
  inversion Hwid as [Ehs]. clear Hwid.
  apply existsb_exists in Eex. destruct Eex as (r & Hr & Er).
  apply String.eqb_eq in Er.
  destruct (Hposts r Hr) as (p & Hp & Ep).
  destruct (find (fun p => String.eqb (post_id p) wid) allPosts) as [w | ] eqn:Efind.
  - apply find_some in Efind. destruct Efind as (Hw & Ew). apply String.eqb_eq in Ew.
    exists w. split; [reflexivity | ]. split; [exact Hw | ].
    intros k. rewrite Ew, Ehs.
    destruct (existsb (fun r => String.eqb (postId r) k) allSimResults) eqn:Ek.
    + apply (Hmax (k, total_score k allSimResults)).
      apply entry_of_lookup. unfold m. rewrite postScores_of_lookup, Ek. reflexivity.
    + rewrite (total_score_absent k allSimResults Ek).
      rewrite <- Ehs. apply total_score_nonneg. exact Hnonneg.
  - exfalso. apply (find_none _ _ Efind) in Hp.
    rewrite Ep, Er, String.eqb_refl in Hp. discriminate.
Qed.

Lemma reaction_score_nonneg (random : nat -> Q)
  (judge : nat -> Persona -> GeneratedPost -> OracleReply)
  (pr : Pair) (r : SimulationResult) :
  reaction_of random judge pr r -> (0 <= engagementScore r)%Z.
Proof.
  intros (_ & k & s0 & s1 & Hreact).
  destruct (react_returns random (persona pr) (post pr)
              (outcome (judge k (persona pr) (post pr))) s0)
    as (r' & s1' & Hr' & _ & _ & Hscore).
  rewrite Hreact in Hr'. inversion Hr'; subst r'.
  rewrite Hscore. unfold score_of.
  destruct (liked r), (commented r), (shared r); simpl; lia.
Qed.

Lemma filter_same_post (rows : list SimulationResult) (id : string) :
  filter (fun r => String.eqb (postId r) id) (filter (fun r => String.eqb (postId r) id) rows)
  = filter (fun r => String.eqb (postId r) id) rows.
Proof.
  induction rows as [ | r rows IH]; simpl; [reflexivity | ].
  destruct (String.eqb (postId r) id) eqn:E; simpl; [rewrite E, IH | ]; auto.
Qed.

Lemma filter_other_post (rows : list SimulationResult) (id id' : string) :
  id <> id' ->
  filter (fun r => String.eqb (postId r) id) (filter (fun r => String.eqb (postId r) id') rows)
  = [].
Proof.
  intros Hne. induction rows as [ | r rows IH]; simpl; [reflexivity | ].
  destruct (String.eqb_spec (postId r) id') as [E | E]; simpl; [ | exact IH].
  destruct (String.eqb_spec (postId r) id) as [E' | E']; [congruence | exact IH].
Qed.

Lemma filter_gathered_absent (rows : list SimulationResult) (posts : list GeneratedPost)
  (id : string) :
  ~ In id (map post_id posts) ->
  filter (fun r => String.eqb (postId r) id)
         (flat_map (fun q => filter (fun r => String.eqb (postId r) (post_id q)) rows) posts)
  = [].
Proof.
  induction posts as [ | q posts IH]; simpl; intros H; [reflexivity | ].
  rewrite filter_app, IH by tauto. rewrite app_nil_r.
  apply filter_other_post. intros E. apply H. left. symmetry. exact E.
Qed.

(** Gathering the rows post by post neither loses nor repeats a row of a
    post, post ids being unique. *)
Lemma filter_gathered (rows : list SimulationResult) (posts : list GeneratedPost)
  (p : GeneratedPost) :
  NoDup (map post_id posts) -> In p posts ->
  filter (fun r => String.eqb (postId r) (post_id p))
         (flat_map (fun q => filter (fun r => String.eqb (postId r) (post_id q)) rows) posts)
  = filter (fun r => String.eqb (postId r) (post_id p)) rows.
Proof.
  induction posts as [ | q posts IH]; simpl; intros Hnd Hin; [contradiction | ].
  inversion Hnd as [ | x l Hx Hl]; subst.
  rewrite filter_app.
  destruct (String.eqb_spec (post_id p) (post_id q)) as [E | E].
  - rewrite E, filter_same_post, filter_gathered_absent by exact Hx.
    apply app_nil_r.
  - rewrite filter_other_post by exact E. simpl.
    destruct Hin as [-> | Hin]; [congruence | ].
    apply IH; assumption.
Qed.

(** X27.  How the worker picks the top performer.  When a job completes,
    its log ends with the top-performer message for a post of the user whose
    total engagement score, summed over all its stored results -- those
    carried over from an earlier round as well as the new ones -- is the
    greatest among the user's posts.  The engagement rate plays no part. *)
Theorem top_performer_has_highest_total_score
  (random : nat -> Q) (judge : nat -> Persona -> GeneratedPost -> OracleReply)
  (s s' : State) :
  simulation_job random judge s = (Normal tt, s') ->
  (forall row, In row (stored_rows s) -> (0 <= engagementScore row)%Z) ->
  NoDup (map post_id (posts_of_user (db s))) ->
  exists w earlier,
    simulationActivityLog (db s')
    = earlier ++ [top_performer_message w (filter (has_rows (db s)) (posts_of_user (db s)))] /\
    In w (posts_of_user (db s)) /\
    forall p, In p (posts_of_user (db s)) ->
              (total_score (post_id p) (stored_rows s')
               <= total_score (post_id w) (stored_rows s'))%Z.
Proof.
  intros Hjob Hnonneg Hids.
  destruct (simulation_job_effect random judge s)
    as (completion & s'' & results & Hrun & _ & Hrows & Hall & _ & Hlog).
  rewrite Hjob in Hrun. inversion Hrun; subst completion s''. clear Hrun.
  destruct (Hlog eq_refl) as (Hpersonas & Hposts & earlier & Elog). clear Hlog.
  set (allPosts := posts_of_user (db s)) in *.
  set (allSimResults :=
         flat_map (fun p => filter (fun r => String.eqb (postId r) (post_id p)) (stored_rows s'))
                  allPosts) in *.
  assert (Hgathered : forall r, In r allSimResults ->
                                In r (stored_rows s') /\
                                exists p, In p allPosts /\ post_id p = postId r).
  { intros r Hr. apply in_flat_map in Hr. destruct Hr as (p & Hp & Hr).
    apply filter_In in Hr. destruct Hr as (Hr & E). apply String.eqb_eq in E.
    split; [exact Hr | exists p; auto]. }
  destruct (winningPost_is_best allPosts allSimResults) as (w & Ew & Hw & Hbest).
  - intros r Hr. apply Hgathered in Hr. destruct Hr as (Hr & _).
    rewrite Hrows in Hr. apply in_app_or in Hr. destruct Hr as [Hr | Hr].
    + apply Hnonneg. exact Hr.
    + destruct (Forall2_in_r _ _ _ _ Hall Hr) as (pr & _ & Hpr).
      eapply reaction_score_nonneg. exact Hpr.
  - intros r Hr. apply Hgathered in Hr. tauto.
  - destruct allPosts as [ | q0 rest] eqn:Eposts; [congruence | ].
    assert (Hrow : exists r, In r (stored_rows s') /\ postId r = post_id q0).
    { apply (completed_job_covers_posts random judge s s' q0 Hjob).
      fold allPosts. rewrite Eposts. left. reflexivity. }
    destruct Hrow as (r & Hr & Er).
    assert (Hin : In r allSimResults).
    { unfold allSimResults. apply in_flat_map. exists q0. split; [left; reflexivity | ].
      apply filter_In. split; [exact Hr | ]. rewrite Er. apply String.eqb_refl. }
    intros Eempty. rewrite Eempty in Hin. contradiction.
  - rewrite Ew in Elog.
    exists w, (earlier ++ [summary_message allSimResults]).
    split; [rewrite <- app_assoc; exact Elog | ].
    split; [exact Hw | ].
    intros p Hp. specialize (Hbest (post_id p)).
    unfold total_score in *. unfold allSimResults in Hbest.
    rewrite !filter_gathered in Hbest by assumption.
    exact Hbest.
Qed.

Lemma settled_job_completes :
  simulation_job always_zero (answering Rejected) (initial_state settled_db)
  = (Normal tt,
     snd (simulation_job always_zero (answering Rejected) (initial_state settled_db))).
Proof. vm_compute. reflexivity. Qed.

Lemma top_performer_has_highest_total_score_witness :
  let s' := snd (simulation_job always_zero (answering Rejected) (initial_state settled_db)) in
  exists w earlier,
    simulationActivityLog (db s')
    = earlier ++ [top_performer_message w [post1; post2]] /\
    In w [post1; post2] /\
    forall p, In p [post1; post2] ->
              (total_score (post_id p) (stored_rows s')
               <= total_score (post_id w) (stored_rows s'))%Z.
Proof.
  apply (top_performer_has_highest_total_score always_zero (answering Rejected)
           (initial_state settled_db) _ settled_job_completes).
  - intros row Hrow. simpl in Hrow.
    destruct Hrow as [<- | [<- | [<- | [<- | []]]]]; vm_compute; discriminate.
  - simpl. repeat (apply NoDup_cons; [simpl; intuition discriminate | ]). apply NoDup_nil.
Defined.

(** C2.  The worker's top performer is not the highest-ranked post: on
    stored results where the first post was liked by both personas (rate 1,
    total score 2) and the second was shared by one of the two (rate 1/2,
    total score 5), the job names the second post the top performer, although
    the first has the higher engagement rate and comes first in the ranking
    that [getSimulationResults] computes from the same results. *)
Lemma top_performer_is_not_top_ranked :
  let s' := snd (simulation_job always_zero (answering Rejected) (initial_state settled_db)) in
  last (simulationActivityLog (db s')) ""
  = "Variation 2 is the top performer — highest engagement from the panel" /\
  winningPost [post1; post2] (stored_rows s') = Some post2 /\
  (spec_engagementRate (rows_of_post (db s') "p2")
   < spec_engagementRate (rows_of_post (db s') "p1"))%Q /\
  map result_post (getSimulationResults (db s')) = [post1; post2].
Proof.
  vm_compute. repeat split; reflexivity.
Qed.

(* ================================================================== *)
(** * Ranking *)
(* ================================================================== *)

Lemma compare_results_le (a b : PostResult) :
  Qle_bool (compare_results a b) 0 = true <-> ranks_before a b.
Proof.
  unfold compare_results, ranks_before.
  set (ra := engRate (simulations a)). set (rb := engRate (simulations b)).
  set (sa := totalEngagementScore (engagement a)).
  set (sb := totalEngagementScore (engagement b)).
  rewrite Qle_bool_iff.
  destruct (Qeq_bool rb ra) eqn:E; simpl.
  - apply Qeq_bool_iff in E.
    assert (Hz : (inject_Z (sb - sa) <= 0)%Q <-> (sb <= sa)%Z)
      by (unfold Qle; simpl; lia).
    rewrite Hz. split.
    + intros H. right. split; [lra | exact H].
    + intros [H | (_ & H)]; [lra | exact H].
  - apply Qeq_bool_neq in E. split.
    + intros H. left. destruct (Qlt_le_dec rb ra) as [Hlt | Hle]; [exact Hlt | ].
      exfalso. apply E. lra.
    + intros [H | (H & _)]; [lra | ]. exfalso. apply E. lra.
Qed.

Lemma ranks_before_total (a b : PostResult) : ranks_before a b \/ ranks_before b a.
Proof.
  unfold ranks_before.
  destruct (Qlt_le_dec (engRate (simulations b)) (engRate (simulations a))) as [H | H];
    [left; left; exact H | ].
  destruct (Qlt_le_dec (engRate (simulations a)) (engRate (simulations b))) as [H' | H'];
    [right; left; exact H' | ].
  destruct (Z_le_gt_dec (totalEngagementScore (engagement b))
                        (totalEngagementScore (engagement a))) as [Hs | Hs].
  - left. right. split; [lra | exact Hs].
  - right. right. split; [lra | lia].
Qed.

Lemma ranks_before_trans (a b c : PostResult) :
  ranks_before a b -> ranks_before b c -> ranks_before a c.
Proof.
  unfold ranks_before. intros [H | (H & Hs)] [K | (K & Ks)].
  - left. lra.
  - left. lra.
  - left. lra.
  - right. split; [lra | lia].
Qed.

Lemma insert_cmp_in {A : Type} (cmp : A -> A -> Q) (x y : A) (l : list A) :
  In y (insert_cmp cmp x l) -> y = x \/ In y l.
Proof.
  induction l as [ | z l IH]; simpl.
  - intros [<- | []]. left. reflexivity.
  - destruct (Qle_bool (cmp x z) 0); simpl.
    + intros [<- | H]; auto.
    + intros [<- | H]; auto. destruct (IH H); auto.
Qed.

Lemma insert_cmp_sorted (x : PostResult) (l : list PostResult) :
  StronglySorted ranks_before l ->
  StronglySorted ranks_before (insert_cmp compare_results x l).
Proof.
  induction 1 as [ | y l Hsorted IH Hy]; simpl.
  - constructor; constructor.
  - destruct (Qle_bool (compare_results x y) 0) eqn:E.
    + apply compare_results_le in E.
      constructor; [constructor; assumption | ].
      constructor; [exact E | ].
      rewrite Forall_forall in *. intros z Hz.
      eapply ranks_before_trans; [exact E | apply Hy; exact Hz].
    + assert (Hyx : ranks_before y x).
      { destruct (ranks_before_total x y) as [H | H]; [ | exact H].
        apply compare_results_le in H. congruence. }
      constructor; [exact IH | ].
      rewrite Forall_forall in *. intros z Hz.
      apply insert_cmp_in in Hz. destruct Hz as [-> | Hz]; [exact Hyx | apply Hy; exact Hz].
Qed.

(** X17.  The part of the ranking that holds: the response lists the posts
    by descending engagement rate as the code computes it, equal rates by
    descending total score. *)
Lemma getSimulationResults_sorted (d : Db) :
  StronglySorted ranks_before (getSimulationResults d).
Proof.
  unfold getSimulationResults, Array_sort.
  induction (postResults_of d) as [ | x l IH]; simpl.
  - constructor.
  - apply insert_cmp_sorted. exact IH.
Qed.

(** For a post with results the code's rate is the specified one. *)
Lemma engRate_matches_spec (sims : list SimulationResult) :
  sims <> [] -> engRate sims = spec_engagementRate sims.
Proof.
  intros H. unfold engRate, spec_engagementRate.
  destruct sims as [ | r sims]; [congruence | reflexivity].
Qed.

(** C4, where the code departs from it.  For a post without results the
    code computes the engagement rate (1 - 0) / 1 = 1, not 0: such a post is
    listed first, ahead of a post that half of the panel engaged with. *)
Theorem unsimulated_post_is_ranked_first :
  rows_of_post pending_db "p2" = [] /\
  (engRate (rows_of_post pending_db "p2") == 1)%Q /\
  (spec_engagementRate (rows_of_post pending_db "p2") == 0)%Q /\
  (engRate (rows_of_post pending_db "p1") == 1 # 2)%Q /\
  map result_post (getSimulationResults pending_db) = [post2; post1].
Proof.
  vm_compute. repeat split; reflexivity.
Qed.

(* ================================================================== *)
(** * Scenarios of the specification, run on the model *)
(* ================================================================== *)

(** One persona of each type, one post, an approving oracle, every gate
    passing: four results with all three actions and score 9, total 36,
    engagement rate 1. *)
Example scenario_every_gate_passes :
  let run := runFullSimulation always_zero (approving_after []) panel [post1] None
               (initial_state (empty_db panel [post1])) in
  option_map (map (fun r => (liked r, commented r, shared r, engagementScore r)))
             (returned run)
  = Some [ (true, true, true, 9%Z); (true, true, true, 9%Z);
           (true, true, true, 9%Z); (true, true, true, 9%Z) ] /\
  option_map sum_scores (returned run) = Some 36%Z /\
  option_map (fun rs => Qeq_bool (engRate rs) 1) (returned run) = Some true.
Proof. vm_compute. repeat split; reflexivity. Qed.

(** Same setup, every draw 0.99: nothing passes, and the reasoning says
    that the post was glanced at. *)
Example scenario_no_gate_passes :
  let run := runFullSimulation always_high (approving_after []) panel [post1] None
               (initial_state (empty_db panel [post1])) in
  option_map (map (fun r => (liked r, commented r, shared r, engagementScore r)))
             (returned run)
  = Some [ (false, false, false, 0%Z); (false, false, false, 0%Z);
           (false, false, false, 0%Z); (false, false, false, 0%Z) ] /\
  option_map (map reasoning) (returned run)
  = Some (repeat "Glanced at it but kept scrolling — It speaks to me" 4) /\
  option_map (fun rs => Qeq_bool (engRate rs) 0) (returned run) = Some true.
Proof. vm_compute. repeat split; reflexivity. Qed.

(** The oracle rejects for one of four pairs: four results, the third being
    the negative default. *)
Example scenario_one_oracle_failure :
  option_map (map (fun r => (reasoning r, engagementScore r)))
    (returned (runFullSimulation always_zero (failing_for "u3") panel [post1]
                 (Some updateLog) (initial_state (empty_db panel [post1]))))
  = Some [ ("It speaks to me", 9%Z); ("It speaks to me", 9%Z);
           ("Simulation could not be completed", 0%Z); ("It speaks to me", 9%Z) ].
Proof. vm_compute. reflexivity. Qed.

(** The order of arrival decides which pair consumes which draws, not where
    its result goes: with four lucky draws, the pair whose reply arrives
    first takes them; the results stay in the order of the pairs. *)
Example scenario_arrival_order :
  let run delays :=
    returned (runFullSimulation (lucky_first 4) (approving_after delays) [ada; bob] [post1]
                None (initial_state (empty_db [ada; bob] [post1]))) in
  option_map (map (fun r => (personaId r, engagementScore r))) (run [1; 5])
  = Some [("u1", 9%Z); ("u2", 0%Z)] /\
  option_map (map (fun r => (personaId r, engagementScore r))) (run [5; 1])
  = Some [("u1", 0%Z); ("u2", 9%Z)].
Proof. vm_compute. split; reflexivity. Qed.

(** Regeneration: the first post keeps its four stored results, only the
    pairs of the second post go to the oracle, and the summary covers both. *)
Example scenario_regeneration :
  let run := simulation_job always_zero (approving_after []) (initial_state regeneration_db) in
  fst run = Normal tt /\
  calls (snd run) = [("u1", "p2"); ("u2", "p2"); ("u3", "p2"); ("u4", "p2")] /\
  map result_ids (stored_rows (snd run))
  = [ ("u1", "p1"); ("u2", "p1"); ("u3", "p1"); ("u4", "p1");
      ("u1", "p2"); ("u2", "p2"); ("u3", "p2"); ("u4", "p2") ] /\
  firstn 4 (stored_rows (snd run)) = postSimulations regeneration_db /\
  simulationActivityLog (db (snd run))
  = [ "Assembling focus group panel...";
      "1 post(s) already tested (original) — simulating 1 new variation(s) with 4 panelists";
      "Ada (Engineer), Bob (Engineer), Cy (Engineer), Di (Engineer) scrolling through the feed...";
      "Ada liked & commented & shared Variation 2";
      "Bob liked & commented & shared Variation 2";
      "Cy liked & commented & shared Variation 2";
      "Di liked & commented & shared Variation 2";
      "4/4 reactions simulated (100%)";
      "Focus group complete — 88% overall engagement rate (7 likes, 5 comments, 5 shares)";
      "Variation 2 is the top performer — highest engagement from the panel" ] /\
  simulationStatus (db (snd run)) = "complete".
Proof. vm_compute. repeat split; reflexivity. Qed.

(* ================================================================== *)
(** * Further properties of [simulateReaction] *)
(* ================================================================== *)

Lemma commentText_of_result
  (random : nat -> Q) (judge : nat -> Persona -> GeneratedPost -> OracleReply)
  (persona : Persona) (post : GeneratedPost) (s : State) :
  exists r s',
    simulateReaction random judge persona post s = (Normal r, s') /\
    commentText r
    = if commented r
      then match outcome (judge (List.length (calls s)) persona post) with
           | ParsedObject parsed => or_null (parsed_commentText parsed)
           | _ => None
           end
      else None.
Proof.
  unfold simulateReaction, bind, openai_create.
  destruct (outcome (judge (List.length (calls s)) persona post)) as [ | | | parsed];
    try (do 2 eexists; split; [reflexivity | reflexivity]).
  unfold react, try_catch, bind. simpl await_parsed. unfold ret at 1.
  repeat (rewrite gate_run; cbv beta iota).
  unfold ret. cbv beta iota.
  do 2 eexists. split; [reflexivity | ].
  cbn [commentText commented].
  destruct (_ && Number_lt _ (option_map commentRate _)); reflexivity.
Qed.

(** X1.  A result carries a comment text exactly when it is a comment and
    the oracle's verdict has a non-empty [commentText]; the text is then that
    one.  In every other case -- no comment, a failed oracle, a missing, null
    or empty text -- the comment text of the result is null. *)
Theorem commentText_only_when_commented
  (random : nat -> Q) (judge : nat -> Persona -> GeneratedPost -> OracleReply)
  (persona : Persona) (post : GeneratedPost) (s : State) :
  exists r s',
    simulateReaction random judge persona post s = (Normal r, s') /\
    forall text : string,
      commentText r = Some text <->
      commented r = true /\ text <> "" /\
      exists parsed,
        outcome (judge (List.length (calls s)) persona post) = ParsedObject parsed /\
        parsed_commentText parsed = Some text.
Proof.
  destruct (commentText_of_result random judge persona post s) as (r & s' & Hrun & Htext).
  exists r, s'. split; [exact Hrun | ].
  intros text. rewrite Htext. clear Htext Hrun.
  destruct (commented r).
  - destruct (outcome (judge (List.length (calls s)) persona post)) as [ | | | parsed].
    + split; [discriminate | intros (_ & _ & p & H & _); discriminate].
    + split; [discriminate | intros (_ & _ & p & H & _); discriminate].
    + split; [discriminate | intros (_ & _ & p & H & _); discriminate].
    + unfold or_null. destruct (parsed_commentText parsed) as [t | ] eqn:Et.
      * destruct (String.eqb_spec t "") as [E | E].
        -- split; [discriminate | ].
           intros (_ & Hne & p & Hp & Ht). inversion Hp; subst p.
           rewrite Et in Ht. congruence.
        -- split.
           ++ intros H. inversion H; subst text.
              split; [reflexivity | ]. split; [exact E | ].
              exists parsed. split; [reflexivity | exact Et].
           ++ intros (_ & _ & p & Hp & Ht). inversion Hp; subst p.
              rewrite Et in Ht. exact Ht.
      * split; [discriminate | ].
        intros (_ & _ & p & Hp & Ht). inversion Hp; subst p.
        rewrite Et in Ht. discriminate.
  - split; [discriminate | intros (H & _); discriminate].
Qed.

Lemma gates_for_fallback (behavior : string) :
  existsb (String.eqb behavior) behavior_tiers = false ->
  existsb (String.eqb behavior) Object_prototype_keys = false ->
  gates_for behavior = Some casual_engager.
Proof.
  intros Htiers Hproto. unfold gates_for. rewrite Hproto. clear Hproto.
  unfold behavior_tiers in Htiers. unfold PROBABILITY_GATES.
  cbn [existsb lookup] in *.
  rewrite !(String.eqb_sym behavior) in Htiers.
  destruct (String.eqb "lurker" behavior); [discriminate | ].
  destruct (String.eqb "casual_engager" behavior); [discriminate | ].
  destruct (String.eqb "active_commenter" behavior); [discriminate | ].
  destruct (String.eqb "power_sharer" behavior); [discriminate | reflexivity].
Qed.

Lemma gates_for_inherited (behavior : string) :
  existsb (String.eqb behavior) Object_prototype_keys = true ->
  gates_for behavior = None.
Proof.
  intros H. apply existsb_exists in H. destruct H as (key & Hkey & E).
  apply String.eqb_eq in E. subst key.
  unfold Object_prototype_keys in Hkey. cbn [In] in Hkey.
  repeat (destruct Hkey as [<- | Hkey]; [reflexivity | ]). destruct Hkey.
Qed.

(** X2.  A persona whose behavior type is none of the four of the table.
    When the type is a name that objects inherit ([toString], [constructor],
    ...), the lookup yields the inherited value and no rate: no gate ever
    passes, the result has no action and score 0, and the only draw is the
    one of the stop gate, made when the oracle stopped.  With any other type
    the persona reacts exactly as it would as a casual engager: same result,
    same draws. *)
Theorem unlisted_behavior_falls_back_unless_inherited
  (random : nat -> Q) (persona : Persona) (post : GeneratedPost)
  (o : OracleOutcome) (s : State) :
  existsb (String.eqb (socialBehavior persona)) behavior_tiers = false ->
  if existsb (String.eqb (socialBehavior persona)) Object_prototype_keys
  then exists r s',
         react random persona post o s = (Normal r, s') /\
         liked r = false /\ commented r = false /\ shared r = false /\
         engagementScore r = 0%Z /\
         draws s' = draws s + match o with
                              | ParsedObject parsed =>
                                  if Boolean (parsed_stoppedScrolling parsed) then 1 else 0
                              | _ => 0
                              end
  else react random persona post o s
       = react random (with_behavior "casual_engager" persona) post o s.
Proof.
  intros Hunknown.
  destruct (existsb (String.eqb (socialBehavior persona)) Object_prototype_keys) eqn:Hproto.
  - destruct o as [ | | | parsed];
      try (do 2 eexists; split; [reflexivity | ]; simpl; repeat split; lia).
    unfold react, try_catch, bind. simpl await_parsed. unfold ret at 1.
    rewrite (gates_for_inherited _ Hproto). cbn [option_map].
    repeat (rewrite gate_run; cbv beta iota).
    unfold ret. cbv beta iota. unfold Number_lt.
    rewrite !andb_false_r. cbn [andb].
    do 2 eexists. split; [reflexivity | ].
    cbn [liked commented shared engagementScore].
    repeat (split; [reflexivity | ]).
    destruct (Boolean (parsed_stoppedScrolling parsed)); simpl; lia.
  - unfold react. simpl socialBehavior.
    rewrite (gates_for_fallback _ Hunknown Hproto).
    reflexivity.
Qed.

Lemma unlisted_behavior_falls_back_unless_inherited_witness :
  (exists r s',
     react always_zero (sample_persona "u8" "Yan" "toString") post1
           (ParsedObject (verdict true true true true)) (initial_state (empty_db [] []))
     = (Normal r, s') /\
     liked r = false /\ commented r = false /\ shared r = false /\
     engagementScore r = 0%Z /\
     draws s' = 1) /\
  react always_zero (sample_persona "u9" "Zoe" "influencer") post1
        (ParsedObject (verdict true true true true)) (initial_state (empty_db [] []))
  = react always_zero (sample_persona "u9" "Zoe" "casual_engager") post1
          (ParsedObject (verdict true true true true)) (initial_state (empty_db [] [])).
Proof.
  split.
  - exact (unlisted_behavior_falls_back_unless_inherited always_zero
             (sample_persona "u8" "Yan" "toString") post1
             (ParsedObject (verdict true true true true))
             (initial_state (empty_db [] [])) eq_refl).
  - exact (unlisted_behavior_falls_back_unless_inherited always_zero
             (sample_persona "u9" "Zoe" "influencer") post1
             (ParsedObject (verdict true true true true))
             (initial_state (empty_db [] [])) eq_refl).
Defined.

Lemma simulateReaction_draws_needed
  (random : nat -> Q) (judge : nat -> Persona -> GeneratedPost -> OracleReply)
  (persona : Persona) (post : GeneratedPost) (s : State) :
  exists r s',
    simulateReaction random judge persona post s = (Normal r, s') /\
    calls s' = calls s ++ [(persona_id persona, post_id post)] /\
    draws s' = draws s
               + draws_needed random (draws s) (socialBehavior persona)
                   (outcome (judge (List.length (calls s)) persona post)) /\
    draws s' <= draws s + 4 /\
    progress s' = progress s /\ db s' = db s.
Proof.
  unfold simulateReaction, bind, openai_create.
  destruct (outcome (judge (List.length (calls s)) persona post)) as [ | | | parsed];
    try (do 2 eexists; split; [reflexivity | simpl; repeat split; lia]).
  unfold react, try_catch, bind. simpl await_parsed. unfold ret at 1.
  repeat (rewrite gate_run; cbv beta iota).
  unfold ret. cbv beta iota.
  do 2 eexists. split; [reflexivity | ].
  unfold draws_needed.
  destruct (Boolean (parsed_stoppedScrolling parsed));
    cbn [andb draws set_draws set_calls calls progress db];
    [ destruct (Number_lt (random (draws s))
                  (option_map stopRate (gates_for (socialBehavior persona))));
      destruct (Boolean (parsed_liked parsed));
      destruct (Boolean (parsed_commented parsed));
      destruct (Boolean (parsed_shared parsed));
      cbn [andb draws set_draws set_calls calls progress db nat_of_bool] | ];
    repeat split; lia.
Qed.

(** X3.  One call of [simulateReaction] sends exactly one request to the
    oracle and makes between 0 and 4 random draws, and nothing else of the
    state changes.  It makes no draw when the oracle fails or its
    [stoppedScrolling] is falsy.  Otherwise, for a persona of one of the four
    behavior types: when the first draw is strictly below the stop rate of
    the type, one draw for the stop gate and one more for each action the
    oracle said yes to; when it is not, the one draw of the stop gate. *)
Theorem simulateReaction_requests_and_draws
  (random : nat -> Q) (judge : nat -> Persona -> GeneratedPost -> OracleReply)
  (persona : Persona) (post : GeneratedPost) (s : State) :
  exists r s',
    simulateReaction random judge persona post s = (Normal r, s') /\
    calls s' = calls s ++ [(persona_id persona, post_id post)] /\
    progress s' = progress s /\ db s' = db s /\
    draws s <= draws s' <= draws s + 4 /\
    match outcome (judge (List.length (calls s)) persona post) with
    | ParsedObject parsed =>
        (falsy (parsed_stoppedScrolling parsed) -> draws s' = draws s) /\
        (~ falsy (parsed_stoppedScrolling parsed) ->
         forall stopRate : Q,
           In (socialBehavior persona, stopRate)
              [ ("lurker", 0.30); ("casual_engager", 0.50);
                ("active_commenter", 0.70); ("power_sharer", 0.85) ]%Q ->
           ((random (draws s) < double stopRate)%Q ->
            draws s' = draws s + 1
                       + List.length (filter Boolean [ parsed_liked parsed;
                                                       parsed_commented parsed;
                                                       parsed_shared parsed ])) /\
           (~ (random (draws s) < double stopRate)%Q -> draws s' = draws s + 1))
    | _ => draws s' = draws s
    end.
Proof.
  destruct (simulateReaction_draws_needed random judge persona post s)
    as (r & s' & Hrun & Hcalls & Hdraws & Hbound & Hprogress & Hdb).
  exists r, s'. split; [exact Hrun | ]. split; [exact Hcalls | ].
  split; [exact Hprogress | ]. split; [exact Hdb | ].
  split; [lia | ].
  unfold draws_needed in Hdraws.
  destruct (outcome (judge (List.length (calls s)) persona post)) as [ | | | parsed];
    try lia.
  split.
  - intros Hstop. apply Boolean_false_iff in Hstop. rewrite Hstop in Hdraws. lia.
  - intros Hstop st Hlisted. apply Boolean_true_iff in Hstop. rewrite Hstop in Hdraws.
    assert (Hgates : option_map stopRate (gates_for (socialBehavior persona))
                     = Some (double st)).
    { destruct Hlisted as [H | [H | [H | [H | []]]]]; inversion H; subst; reflexivity. }
    rewrite Hgates in Hdraws. unfold Number_lt in Hdraws.
    split.
    + intros Hlt. apply Qltb_lt in Hlt. rewrite Hlt in Hdraws. rewrite Hdraws.
      cbn [filter]. unfold nat_of_bool.
      destruct (Boolean (parsed_liked parsed)), (Boolean (parsed_commented parsed)),
        (Boolean (parsed_shared parsed)); simpl; lia.
    + intros Hge. destruct (Qltb (random (draws s)) (double st)) eqn:E.
      * apply Qltb_lt in E. contradiction.
      * lia.
Qed.

(** X4.  Every result has a score between 0 and 9, and the score is 0
    exactly when the persona scrolled past (no like, no comment, no share);
    a result is either engaged or scrolled past, never both. *)
Theorem engagementScore_range
  (random : nat -> Q) (judge : nat -> Persona -> GeneratedPost -> OracleReply)
  (persona : Persona) (post : GeneratedPost) (s : State) :
  exists r s',
    simulateReaction random judge persona post s = (Normal r, s') /\
    (0 <= engagementScore r <= 9)%Z /\
    Z.eqb (engagementScore r) 0 = is_scrolledPast r /\
    is_engaged r = negb (is_scrolledPast r).
Proof.
  destruct (simulateReaction_returns random judge persona post s)
    as (r & s' & Hrun & _ & Hscore).
  exists r, s'. split; [exact Hrun | ].
  rewrite Hscore. unfold score_of, is_scrolledPast, is_engaged.
  destruct (liked r), (commented r), (shared r); simpl; repeat split; lia.
Qed.

(* ================================================================== *)
(** * Further properties of [runFullSimulation] *)
(* ================================================================== *)

(** X5.  A run sends exactly one request per (persona, post) pair to the
    oracle, in persona-major, post-minor order: [|personas| * |posts|]
    requests in all, whatever the oracle answers. *)
Theorem runFullSimulation_one_request_per_pair
  (random : nat -> Q) (judge : nat -> Persona -> GeneratedPost -> OracleReply)
  (personaList : list Persona) (posts : list GeneratedPost)
  (onProgress : option (string -> M unit)) (s : State) :
  never_throws onProgress ->
  callback_keeps calls onProgress ->
  exists results s',
    runFullSimulation random judge personaList posts onProgress s = (Normal results, s') /\
    calls s'
    = calls s ++ flat_map (fun p => map (fun q => (persona_id p, post_id q)) posts) personaList /\
    List.length (calls s') = List.length (calls s) + List.length personaList * List.length posts.
Proof.
  intros Hcb Hkeep.
  destruct (runFullSimulation_returns random judge personaList posts onProgress s Hcb)
    as (results & s' & Hrun & _ & Hcalls & _).
  exists results, s'. split; [exact Hrun | ].
  rewrite (Hcalls Hkeep), pair_ids_build_pairs. split; [reflexivity | ].
  rewrite length_app, <- pair_ids_build_pairs, length_map, length_build_pairs. reflexivity.
Qed.

Lemma runFullSimulation_one_request_per_pair_witness :
  exists results s',
    runFullSimulation always_zero failing_on_post2 [ada; bob] [post1; post2]
      (Some updateLog) (initial_state (empty_db [ada; bob] [post1; post2]))
    = (Normal results, s') /\
    calls s' = [("u1", "p1"); ("u1", "p2"); ("u2", "p1"); ("u2", "p2")] /\
    List.length (calls s') = 4.
Proof.
  exact (runFullSimulation_one_request_per_pair always_zero failing_on_post2
           [ada; bob] [post1; post2] (Some updateLog)
           (initial_state (empty_db [ada; bob] [post1; post2]))
           updateLog_never_throws updateLog_keeps_calls).
Defined.

(** ** Requests, draws and progress of a run, exactly *)

Lemma react_draws_bound (random : nat -> Q) (persona : Persona) (post : GeneratedPost)
  (o : OracleOutcome) (s : State) :
  draws (snd (react random persona post o s)) <= draws s + 4.
Proof.
  destruct o as [ | | | parsed]; try (simpl; lia).
  unfold react, try_catch, bind. simpl await_parsed. unfold ret at 1.
  repeat (rewrite gate_run; cbv beta iota).
  unfold ret. cbv beta iota. cbn [snd].
  destruct (Boolean (parsed_stoppedScrolling parsed));
    cbn [andb draws set_draws];
    [ destruct (Number_lt (random (draws s))
                  (option_map stopRate (gates_for (socialBehavior persona))));
      destruct (Boolean (parsed_liked parsed));
      destruct (Boolean (parsed_commented parsed));
      destruct (Boolean (parsed_shared parsed));
      cbn [andb draws set_draws] | ];
    lia.
Qed.

Lemma requests_numbered (judge : nat -> Persona -> GeneratedPost -> OracleReply)
  (batch : list Pair) :
  forall (s s' : State) (replies : list OracleReply),
    mapM (fun pr => openai_create judge (persona pr) (post pr)) batch s = (Normal replies, s') ->
    forall i pr, nth_error batch i = Some pr ->
                 nth_error replies i
                 = Some (judge (List.length (calls s) + i) (persona pr) (post pr)).
Proof.
  induction batch as [ | p batch IH]; intros s s' replies Hrun i pr Hpr.
  - destruct i; discriminate.
  - simpl in Hrun. unfold bind at 1 in Hrun. unfold openai_create at 1 in Hrun.
    unfold bind at 1 in Hrun.
    destruct (mapM _ batch _) as [[rest | e] s1] eqn:Erest; [ | discriminate].
    unfold ret in Hrun. inversion Hrun; subst replies s'. clear Hrun.
    destruct i as [ | i]; simpl in *.
    + inversion Hpr; subst p. rewrite Nat.add_0_r. reflexivity.
    + rewrite (IH _ _ _ Erest i pr Hpr). simpl.
      rewrite length_app. simpl.
      replace (List.length (calls s) + 1 + i) with (List.length (calls s) + S i) by lia.
      reflexivity.
Qed.

Lemma continuations_draws (random : nat -> Q)
  (arrival : list (nat * (Pair * OracleReply))) :
  forall (s s' : State) (settled : list (nat * SimulationResult)),
    mapM (fun x =>
            r <- react random (persona (fst (snd x))) (post (fst (snd x)))
                       (outcome (snd (snd x))) ;;
            ret (fst x, r))
         arrival s
    = (Normal settled, s') ->
    draws s' <= draws s + 4 * List.length arrival.
Proof.
  induction arrival as [ | x arrival IH]; intros s s' settled Hrun.
  - inversion Hrun. simpl. lia.
  - simpl in Hrun. unfold bind at 1 in Hrun. unfold bind at 1 in Hrun.
    assert (Hb := react_draws_bound random (persona (fst (snd x))) (post (fst (snd x)))
                    (outcome (snd (snd x))) s).
    destruct (react random _ _ _ s) as [[r | e] s1]; [ | discriminate].
    unfold ret at 1 in Hrun. unfold bind at 1 in Hrun.
    destruct (mapM _ arrival s1) as [[rest | e] s2] eqn:Erest; [ | discriminate].
    unfold ret in Hrun. inversion Hrun; subst. clear Hrun.
    apply IH in Erest. simpl in *. lia.
Qed.

(** One batch, position by position: the i-th value of [Promise.all] is the
    reaction to the reply to the i-th request of the batch. *)
Lemma Promise_all_positions (random : nat -> Q)
  (judge : nat -> Persona -> GeneratedPost -> OracleReply)
  (batch : list Pair) (s : State) :
  exists results s',
    Promise_all_simulateReaction random judge batch s = (Normal results, s') /\
    List.length results = List.length batch /\
    calls s' = calls s ++ map pair_ids batch /\
    progress s' = progress s /\
    draws s <= draws s' <= draws s + 4 * List.length batch /\
    forall i pr, nth_error batch i = Some pr ->
                 exists r, nth_error results i = Some r /\
                           reaction_to_request random judge (List.length (calls s) + i) pr r.
Proof.
  unfold Promise_all_simulateReaction.
  destruct (requests_sent judge batch s)
    as (replies & s1 & Hsent & Hreplies & Hcalls & Hdraws & Hprog & Hdb).
  assert (Hnumbered := requests_numbered judge batch s s1 replies Hsent).
  unfold bind at 1. rewrite Hsent.
  set (pending := combine (seq 0 (List.length batch)) (combine batch replies)).
  set (arrival := sort_by (fun x => latency (snd (snd x))) pending).
  destruct (continuations_settle random arrival s1)
    as (settled & s' & Hrun & (Fdraws & Fcalls & Fprog & Fdb) & Hsettled).
  assert (Hbound := continuations_draws random arrival s1 s' settled Hrun).
  unfold bind at 1. rewrite Hrun. unfold ret.
  assert (Hperm : Permutation arrival pending) by apply sort_by_perm.
  assert (Hlen : List.length pending = List.length batch).
  { unfold pending. rewrite length_combine, length_seq, length_combine.
    apply Forall2_length in Hreplies. lia. }
  assert (Hkeys : Permutation (map fst settled) (seq 0 (List.length batch))).
  { rewrite (Forall2_map_fst _ _ _ Hsettled) by (intros x y (E & _); exact E).
    apply Permutation_trans with (map fst pending).
    - apply Permutation_map. exact Hperm.
    - unfold pending. rewrite map_fst_combine; [apply Permutation_refl | ].
      rewrite length_seq, length_combine.
      apply Forall2_length in Hreplies. lia. }
  set (results := flat_map _ (seq 0 (List.length batch))).
  assert (Hpos : Forall2 (fun i r =>
                   exists pr, nth_error batch i = Some pr /\
                              reaction_to_request random judge (List.length (calls s) + i) pr r)
                 (seq 0 (List.length batch)) results).
  { apply flat_map_singletons. intros i Hi.
    assert (Hin : In i (map fst settled))
      by (eapply Permutation_in; [apply Permutation_sym; exact Hkeys | exact Hi]).
    apply in_map_iff in Hin. destruct Hin as ([i' r] & Ei & Hin). simpl in Ei. subst i'.
    exists r. split.
    - rewrite (filter_unique_key settled i r); auto.
      eapply Permutation_NoDup; [apply Permutation_sym; exact Hkeys | apply seq_NoDup].
    - destruct (Forall2_in_r _ _ _ _ Hsettled Hin) as ([j [pr reply]] & Hx & Ej & _ & Hreact).
      simpl in Ej, Hreact. subst j.
      apply (Permutation_in _ Hperm) in Hx.
      apply in_pending in Hx. destruct Hx as (_ & Hpr & Hreply).
      rewrite Nat.sub_0_r in Hpr, Hreply.
      exists pr. split; [exact Hpr | ].
      rewrite (Hnumbered i pr Hpr) in Hreply. inversion Hreply as [Ereply].
      destruct Hreact as (s0 & s1' & Hreact).
      exists s0, s1'. rewrite Ereply. exact Hreact. }
  exists results, s'. split; [reflexivity | ].
  assert (Hlenr : List.length results = List.length batch)
    by (rewrite <- (Forall2_length Hpos); apply length_seq).
  split; [exact Hlenr | ].
  split; [congruence | ]. split; [congruence | ].
  split.
  - rewrite <- Hdraws. split; [exact Fdraws | ].
    replace (List.length batch) with (List.length arrival); [exact Hbound | ].
    rewrite (Permutation_length Hperm). exact Hlen.
  - intros i pr Hpr.
    assert (Hi : nth_error (seq 0 (List.length batch)) i = Some i).
    { rewrite nth_error_seq.
      assert (i < List.length batch) by (apply nth_error_Some; congruence).
      destruct (Nat.ltb_spec i (List.length batch)); [reflexivity | lia]. }
    destruct (Forall2_at_l _ _ _ _ _ Hpos Hi) as (r & Hr & pr' & Hpr' & Hreact).
    rewrite Hpr in Hpr'. inversion Hpr'; subst pr'.
    exists r. split; assumption.
Qed.

Lemma reported_refl (onProgress : option (string -> M unit)) (s : State) :
  reported onProgress s s [].
Proof.
  repeat split; auto. intros _. destruct onProgress; rewrite app_nil_r; reflexivity.
Qed.

Lemma reported_trans (onProgress : option (string -> M unit)) (s1 s2 s3 : State)
  (m1 m2 : list string) :
  reported onProgress s1 s2 m1 -> reported onProgress s2 s3 m2 ->
  reported onProgress s1 s3 (m1 ++ m2).
Proof.
  intros (H1 & H2 & H3) (K1 & K2 & K3). repeat split; intros H.
  - rewrite K1, H1; auto.
  - rewrite K2, H2; auto.
  - rewrite K3, H3 by assumption.
    destruct onProgress; rewrite <- app_assoc; reflexivity.
Qed.

Lemma call_onProgress_reports (callback : string -> M unit) (message : string) (s : State) :
  never_throws (Some callback) ->
  exists s', call_onProgress callback message s = (Normal tt, s') /\
             reported (Some callback) s s' [message].
Proof.
  intros Hcb. unfold call_onProgress, bind.
  destruct (Hcb message (set_progress (progress s ++ [message]) s)) as (s' & Hs').
  exists s'. split; [exact Hs' | ].
  repeat split; intros Hkeep;
    specialize (Hkeep message (set_progress (progress s ++ [message]) s));
    rewrite Hs' in Hkeep; simpl in Hkeep; exact Hkeep.
Qed.

Lemma forM_onProgress_reports (callback : string -> M unit) {A : Type}
  (l : list A) (text : A -> string) (s : State) :
  never_throws (Some callback) ->
  exists s', forM_ l (fun a => call_onProgress callback (text a)) s = (Normal tt, s') /\
             reported (Some callback) s s' (map text l).
Proof.
  intros Hcb. revert s. induction l as [ | a l IH]; intros s.
  - exists s. split; [reflexivity | apply reported_refl].
  - destruct (call_onProgress_reports callback (text a) s Hcb) as (s1 & H1 & F1).
    destruct (IH s1) as (s' & H' & F').
    exists s'. split.
    + simpl. unfold bind. rewrite H1. exact H'.
    + apply (reported_trans _ _ _ _ [text a] (map text l) F1 F').
Qed.

Lemma announce_batch_reports (onProgress : option (string -> M unit))
  (personaList : list Persona) (batch : list Pair) (s : State) :
  never_throws onProgress ->
  exists s' messages,
    when_given onProgress (announce_batch personaList batch) s = (Normal tt, s') /\
    reported onProgress s s' messages.
Proof.
  intros Hcb. destruct onProgress as [callback | ]; simpl.
  - unfold announce_batch.
    match goal with |- context [call_onProgress callback ?m s] =>
      destruct (call_onProgress_reports callback m s Hcb) as (s' & H' & F')
    end.
    exists s'. eexists. split; [exact H' | exact F'].
  - exists s, []. split; [reflexivity | apply reported_refl].
Qed.

(** The report of a batch ends with the running counter. *)
Lemma report_batch_reports (onProgress : option (string -> M unit))
  (personaList : list Persona) (posts : list GeneratedPost) (pairs : list Pair)
  (i : nat) (batchResults : list SimulationResult) (s : State) :
  never_throws onProgress ->
  exists s' before,
    when_given onProgress (report_batch personaList posts pairs i batchResults) s
    = (Normal tt, s') /\
    reported onProgress s s'
      (before ++ [counter_message (Nat.min (i + BATCH_SIZE) (List.length pairs))
                                  (List.length pairs)]).
Proof.
  intros Hcb. destruct onProgress as [callback | ]; simpl.
  - unfold report_batch.
    set (first_part := if _ && _ then _ else _).
    assert (H1 : exists s1 before, first_part s = (Normal tt, s1) /\
                                   reported (Some callback) s s1 before).
    { subst first_part.
      destruct (_ && _).
      - destruct (call_onProgress_reports callback
                    ("All " +++ nat_to_string
                       (List.length (filter is_scrolledPast batchResults)) +++
                     " scrolled past — no engagement on these") s Hcb) as (s1 & H1 & F1).
        exists s1. eexists. split; [exact H1 | exact F1].
      - destruct (0 <? _).
        + destruct (forM_onProgress_reports callback (filter is_engaged batchResults)
                      (reaction_message personaList posts) s Hcb) as (s1 & H1 & F1).
          exists s1. eexists. split; [exact H1 | exact F1].
        + exists s, []. split; [reflexivity | apply reported_refl]. }
    destruct H1 as (s1 & before & H1 & F1).
    unfold bind at 1. rewrite H1.
    fold (counter_message (Nat.min (i + BATCH_SIZE) (List.length pairs)) (List.length pairs)).
    destruct (call_onProgress_reports callback
                (counter_message (Nat.min (i + BATCH_SIZE) (List.length pairs))
                                 (List.length pairs)) s1 Hcb) as (s' & H' & F').
    exists s', before. split; [exact H' | ].
    apply (reported_trans _ _ _ _ _ _ F1 F').
  - exists s, []. split; [reflexivity | ].
    destruct (reported_refl None s) as (R1 & R2 & R3). repeat split; auto.
Qed.

Section RunExactly.

Variable random : nat -> Q.
Variable judge : nat -> Persona -> GeneratedPost -> OracleReply.

Lemma batch_loop_exact (personaList : list Persona) (posts : list GeneratedPost)
  (onProgress : option (string -> M unit)) (pairs : list Pair) :
  never_throws onProgress ->
  forall (fuel i : nat) (allResults : list SimulationResult) (s : State),
    List.length pairs <= i + fuel ->
    exists rs s',
      batch_loop random judge fuel personaList posts onProgress pairs i allResults s
      = (Normal (allResults ++ rs), s') /\
      (List.length pairs <= i -> s' = s) /\
      (callback_keeps calls onProgress ->
       forall j pr, nth_error (skipn i pairs) j = Some pr ->
                    exists r, nth_error rs j = Some r /\
                              reaction_to_request random judge (List.length (calls s) + j) pr r) /\
      (callback_keeps draws onProgress ->
       draws s <= draws s' <= draws s + 4 * List.length (skipn i pairs)) /\
      (callback_keeps progress onProgress -> i < List.length pairs ->
       exists before,
         progress s'
         = progress s ++ match onProgress with
                         | Some _ =>
                             before ++ [counter_message (List.length pairs) (List.length pairs)]
                         | None => []
                         end).
Proof.
  intros Hcb. induction fuel as [ | fuel IH]; intros i allResults s Hfuel.
  - exists [], s. simpl. rewrite skipn_all2 by lia. rewrite app_nil_r.
    split; [reflexivity | ]. split; [reflexivity | ].
    split; [intros _ j pr Hj; destruct j; discriminate | ].
    split; [intros _; simpl; lia | intros _ Hlt; lia].
  - simpl. destruct (Nat.ltb_spec i (List.length pairs)) as [Hlt | Hge].
    + unfold slice. replace (i + BATCH_SIZE - i) with BATCH_SIZE by lia.
      set (batch := firstn BATCH_SIZE (skipn i pairs)).
      destruct (announce_batch_reports onProgress personaList batch s Hcb)
        as (s1 & m1 & H1 & (F1c & F1d & F1p)).
      unfold bind at 1. rewrite H1.
      destruct (Promise_all_positions random judge batch s1)
        as (batchResults & s2 & H2 & H2len & H2c & H2p & H2d & H2pos).
      unfold bind at 1. rewrite H2.
      destruct (report_batch_reports onProgress personaList posts pairs i batchResults s2 Hcb)
        as (s3 & before3 & H3 & (F3c & F3d & F3p)).
      unfold bind at 1. rewrite H3.
      destruct (IH (i + BATCH_SIZE) (allResults ++ batchResults) s3)
        as (rs & s' & H4 & H4same & H4pos & H4d & H4p); [unfold BATCH_SIZE; lia | ].
      exists (batchResults ++ rs), s'.
      rewrite app_assoc. split; [exact H4 | ].
      assert (Esplit : skipn i pairs = batch ++ skipn (i + BATCH_SIZE) pairs).
      { subst batch. rewrite <- (firstn_skipn BATCH_SIZE (skipn i pairs)) at 1.
        rewrite skipn_skipn. rewrite (Nat.add_comm BATCH_SIZE i). reflexivity. }
      split; [intros Hle; lia | ].
      split; [ | split].
      * intros Hkeep j pr Hj. rewrite Esplit in Hj.
        destruct (Nat.lt_ge_cases j (List.length batch)) as [Hjb | Hjb].
        -- rewrite nth_error_app1 in Hj by exact Hjb.
           destruct (H2pos j pr Hj) as (r & Hr & Hreact).
           exists r. split.
           ++ rewrite nth_error_app1 by (rewrite H2len; exact Hjb). exact Hr.
           ++ rewrite <- (F1c Hkeep). exact Hreact.
        -- rewrite nth_error_app2 in Hj by exact Hjb.
           destruct (H4pos Hkeep _ pr Hj) as (r & Hr & Hreact).
           exists r. split.
           ++ rewrite nth_error_app2 by (rewrite H2len; exact Hjb).
              rewrite H2len. exact Hr.
           ++ rewrite (F3c Hkeep), H2c, (F1c Hkeep), length_app, length_map in Hreact.
              replace (List.length (calls s) + j)
                with (List.length (calls s) + List.length batch + (j - List.length batch))
                by lia.
              exact Hreact.
      * intros Hkeep. specialize (H4d Hkeep).
        rewrite (F3d Hkeep) in H4d. rewrite (F1d Hkeep) in H2d.
        rewrite Esplit, length_app. lia.
      * intros Hkeep _.
        destruct (Nat.lt_ge_cases (i + BATCH_SIZE) (List.length pairs)) as [Hmore | Hlast].
        -- destruct (H4p Hkeep Hmore) as (before & E).
           rewrite E, (F3p Hkeep), H2p, (F1p Hkeep).
           destruct onProgress as [callback | ].
           ++ exists (m1 ++ (before3 ++ [counter_message
                                           (Nat.min (i + BATCH_SIZE) (List.length pairs))
                                           (List.length pairs)]) ++ before).
              rewrite <- !app_assoc. reflexivity.
           ++ exists []. rewrite !app_nil_r. reflexivity.
        -- rewrite (H4same Hlast), (F3p Hkeep), H2p, (F1p Hkeep).
           rewrite Nat.min_r by exact Hlast.
           destruct onProgress as [callback | ].
           ++ exists (m1 ++ before3). rewrite <- !app_assoc. reflexivity.
           ++ exists []. rewrite !app_nil_r. reflexivity.
    + exists [], s. rewrite skipn_all2 by lia. rewrite app_nil_r.
      split; [reflexivity | ]. split; [reflexivity | ].
      split; [intros _ j pr Hj; destruct j; discriminate | ].
      split; [intros _; simpl; lia | intros _ Hlt; lia].
Qed.

End RunExactly.

Lemma updateLog_keeps_draws : callback_keeps draws (Some updateLog).
Proof. intros message s. reflexivity. Qed.

Lemma updateLog_keeps_progress : callback_keeps progress (Some updateLog).
Proof. intros message s. reflexivity. Qed.

Lemma double_Qeq (x y : Q) : (x == y)%Q -> double x = double y.
Proof. intros H. unfold double. rewrite (Qred_complete x y H). reflexivity. Qed.

Lemma percent_complete (n : nat) : 0 < n -> percent n n = 100%Q.
Proof.
  intros Hn. unfold percent.
  set (q := inject_Z (Z.of_nat n)).
  assert (Hq : ~ (q == 0)%Q).
  { unfold q, Qeq. simpl. lia. }
  assert (E : (q / q == 1)%Q) by (field; exact Hq).
  rewrite (double_Qeq _ _ E).
  vm_compute. reflexivity.
Qed.

(** The percentage is rounded from the binary64 product, which can lie
    just below a half that the exact quotient reaches. *)
Example percent_of_double_product :
  map (fun '(part, whole) => Math_round (percent part whole))
      [ (23, 40); (184, 320); (57, 100); (7, 8); (1, 3); (2, 3); (1, 8) ]
  = [ 57; 57; 57; 88; 33; 67; 13 ]%Z.
Proof. vm_compute. reflexivity. Qed.

Lemma counter_message_complete (n : nat) :
  0 < n ->
  counter_message n n
  = nat_to_string n +++ "/" +++ nat_to_string n +++ " reactions simulated (100%)".
Proof.
  intros Hn. unfold counter_message. rewrite (percent_complete n Hn). reflexivity.
Qed.

(** X6.  A run draws at most four random numbers per (persona, post) pair. *)
Theorem runFullSimulation_draws_bound
  (random : nat -> Q) (judge : nat -> Persona -> GeneratedPost -> OracleReply)
  (personaList : list Persona) (posts : list GeneratedPost)
  (onProgress : option (string -> M unit)) (s : State) :
  never_throws onProgress ->
  callback_keeps draws onProgress ->
  exists results s',
    runFullSimulation random judge personaList posts onProgress s = (Normal results, s') /\
    draws s <= draws s' <= draws s + 4 * (List.length personaList * List.length posts).
Proof.
  intros Hcb Hkeep. unfold runFullSimulation.
  destruct (batch_loop_exact random judge personaList posts onProgress
              (build_pairs personaList posts) Hcb
              (List.length (build_pairs personaList posts)) 0 [] s)
    as (rs & s' & Hrun & _ & _ & Hdraws & _); [lia | ].
  exists rs, s'. split; [exact Hrun | ].
  specialize (Hdraws Hkeep). simpl in Hdraws.
  rewrite length_build_pairs in Hdraws. exact Hdraws.
Qed.

Lemma runFullSimulation_draws_bound_witness :
  exists results s',
    runFullSimulation always_zero (approving_after [3; 1; 2; 0]) [ada; bob] [post1; post2]
      (Some updateLog) (initial_state (empty_db [ada; bob] [post1; post2]))
    = (Normal results, s') /\
    0 <= draws s' <= 16.
Proof.
  exact (runFullSimulation_draws_bound always_zero (approving_after [3; 1; 2; 0])
           [ada; bob] [post1; post2] (Some updateLog)
           (initial_state (empty_db [ada; bob] [post1; post2]))
           updateLog_never_throws updateLog_keeps_draws).
Defined.

(** X7.  With a progress callback and at least one pair, the last message
    a run hands to the callback is the counter at its end,
    "n/n reactions simulated (100%)" for n pairs. *)
Theorem runFullSimulation_last_progress_message
  (random : nat -> Q) (judge : nat -> Persona -> GeneratedPost -> OracleReply)
  (personaList : list Persona) (posts : list GeneratedPost)
  (callback : string -> M unit) (s : State) :
  never_throws (Some callback) ->
  callback_keeps progress (Some callback) ->
  personaList <> [] -> posts <> [] ->
  let n := List.length personaList * List.length posts in
  exists results s' before,
    runFullSimulation random judge personaList posts (Some callback) s = (Normal results, s') /\
    progress s'
    = progress s ++ before
      ++ [nat_to_string n +++ "/" +++ nat_to_string n +++ " reactions simulated (100%)"].
Proof.
  intros Hcb Hkeep Hpersonas Hposts n. unfold runFullSimulation.
  assert (Hn : 0 < n).
  { unfold n. destruct personaList; [congruence | ]. destruct posts; [congruence | ].
    simpl. lia. }
  destruct (batch_loop_exact random judge personaList posts (Some callback)
              (build_pairs personaList posts) Hcb
              (List.length (build_pairs personaList posts)) 0 [] s)
    as (rs & s' & Hrun & _ & _ & _ & Hprogress); [lia | ].
  rewrite length_build_pairs in Hprogress. fold n in Hprogress.
  destruct (Hprogress Hkeep Hn) as (before & E).
  exists rs, s', before. split; [exact Hrun | ].
  rewrite E, counter_message_complete by exact Hn. reflexivity.
Qed.

Lemma runFullSimulation_last_progress_message_witness :
  exists results s' before,
    runFullSimulation always_zero failing_on_post2 [ada; bob] [post1; post2]
      (Some updateLog) (initial_state (empty_db [ada; bob] [post1; post2]))
    = (Normal results, s') /\
    progress s' = [] ++ before ++ ["4/4 reactions simulated (100%)"].
Proof.
  apply (runFullSimulation_last_progress_message always_zero failing_on_post2
           [ada; bob] [post1; post2] updateLog
           (initial_state (empty_db [ada; bob] [post1; post2]))
           updateLog_never_throws updateLog_keeps_progress);
    discriminate.
Defined.

(** X8.  Replies are never attributed to the wrong pair: the i-th result of
    a run is the reaction to the reply to the i-th request of the run, which
    is the request about the i-th pair -- whatever the order in which the
    replies of a batch arrive. *)
Theorem runFullSimulation_results_answer_their_request
  (random : nat -> Q) (judge : nat -> Persona -> GeneratedPost -> OracleReply)
  (personaList : list Persona) (posts : list GeneratedPost)
  (onProgress : option (string -> M unit)) (s : State) :
  never_throws onProgress ->
  callback_keeps calls onProgress ->
  exists results s',
    runFullSimulation random judge personaList posts onProgress s = (Normal results, s') /\
    forall i pr,
      nth_error (build_pairs personaList posts) i = Some pr ->
      exists r,
        nth_error results i = Some r /\
        reaction_to_request random judge (List.length (calls s) + i) pr r.
Proof.
  intros Hcb Hkeep. unfold runFullSimulation.
  destruct (batch_loop_exact random judge personaList posts onProgress
              (build_pairs personaList posts) Hcb
              (List.length (build_pairs personaList posts)) 0 [] s)
    as (rs & s' & Hrun & _ & Hpos & _); [lia | ].
  exists rs, s'. split; [exact Hrun | ].
  exact (Hpos Hkeep).
Qed.

Lemma runFullSimulation_results_answer_their_request_witness :
  exists results s',
    runFullSimulation always_zero failing_on_post2 [ada; bob] [post1; post2]
      (Some updateLog) (initial_state (empty_db [ada; bob] [post1; post2]))
    = (Normal results, s') /\
    forall i pr,
      nth_error (build_pairs [ada; bob] [post1; post2]) i = Some pr ->
      exists r,
        nth_error results i = Some r /\
        reaction_to_request always_zero failing_on_post2 (0 + i) pr r.
Proof.
  exact (runFullSimulation_results_answer_their_request always_zero failing_on_post2
           [ada; bob] [post1; post2] (Some updateLog)
           (initial_state (empty_db [ada; bob] [post1; post2]))
           updateLog_never_throws updateLog_keeps_calls).
Defined.

(* ================================================================== *)
(** * Further properties of the worker *)
(* ================================================================== *)

Section JobOutcome.

Variable random : nat -> Q.
Variable judge : nat -> Persona -> GeneratedPost -> OracleReply.

Lemma simulation_job_outcome (s : State) :
  exists s',
    simulation_job random judge s
    = (match personas_of_user (db s), posts_of_user (db s) with
       | [], _ =>
           Throw (Error "No personas found — persona generation may not have completed")
       | _ :: _, [] => Throw (Error "No generated posts found")
       | _ :: _, _ :: _ => Normal tt
       end,
       s') /\
    match personas_of_user (db s), posts_of_user (db s) with
    | _ :: _, _ :: _ =>
        simulationStatus (db s') = "complete" /\ onboardingStep (db s') = 7%Z
    | _, _ =>
        simulationStatus (db s') = "error" /\
        onboardingStep (db s') = onboardingStep (db s) /\
        simulationActivityLog (db s') = ["Assembling focus group panel..."] /\
        calls s' = calls s /\ draws s' = draws s /\ stored_rows s' = stored_rows s
    end.
Proof.
  unfold simulation_job, try_catch.
  unfold bind at 1. unfold updateUser at 1.
  set (s0 := set_db _ s).
  unfold bind at 1. unfold bind at 1.
  unfold getPersonasByUserId, getPostsByUserId.
  change (personas_of_user (db s0)) with (personas_of_user (db s)).
  change (posts_of_user (db s0)) with (posts_of_user (db s)).
  destruct (personas_of_user (db s)) as [ | p0 personaList] eqn:Epersonas.
  { eexists. split; [reflexivity | ]. simpl. repeat split; reflexivity. }
  destruct (posts_of_user (db s)) as [ | q0 allPosts] eqn:Eposts.
  { eexists. split; [reflexivity | ]. simpl. repeat split; reflexivity. }
  set (personas := p0 :: personaList). set (posts := q0 :: allPosts).
  unfold bind at 1.
  replace (require_inputs personas posts s0) with (Normal tt, s0) by reflexivity.
  unfold bind at 1. rewrite split_posts_returns.
  cbv beta iota zeta. cbn [fst snd app].
  set (need := filter _ posts). set (already := filter _ posts).
  destruct (simulate_missing_returns random judge personas need already s0)
    as (results & s1 & H1 & _).
  unfold bind at 1. rewrite H1.
  destruct (log_summary_returns posts already s1) as (s2 & H2 & _).
  unfold bind at 1. rewrite H2.
  eexists. split; [reflexivity | ]. simpl. split; reflexivity.
Qed.

End JobOutcome.

(** X9.  A job for a user without personas, or without posts, fails: it
    throws "No personas found ..." (checked first) or "No generated posts
    found", leaves the status at "error" and the onboarding step where it
    was, and has asked the oracle nothing and stored nothing. *)
Theorem simulation_job_fails_without_inputs
  (random : nat -> Q) (judge : nat -> Persona -> GeneratedPost -> OracleReply) (s : State) :
  personas_of_user (db s) = [] \/ posts_of_user (db s) = [] ->
  exists s',
    simulation_job random judge s
    = (Throw (Error (if List.length (personas_of_user (db s)) =? 0
                     then "No personas found — persona generation may not have completed"
                     else "No generated posts found")),
       s') /\
    simulationStatus (db s') = "error" /\
    onboardingStep (db s') = onboardingStep (db s) /\
    simulationActivityLog (db s') = ["Assembling focus group panel..."] /\
    calls s' = calls s /\ stored_rows s' = stored_rows s.
Proof.
  intros Hempty.
  destruct (simulation_job_outcome random judge s) as (s' & Hrun & Hstate).
  exists s'.
  destruct (personas_of_user (db s)) as [ | p0 personaList].
  - split; [exact Hrun | ]. tauto.
  - destruct (posts_of_user (db s)) as [ | q0 allPosts].
    + split; [exact Hrun | ]. tauto.
    + destruct Hempty; discriminate.
Qed.

Lemma simulation_job_fails_without_inputs_witness :
  exists s',
    simulation_job always_zero (approving_after []) (initial_state (empty_db [ada] []))
    = (Throw (Error "No generated posts found"), s') /\
    simulationStatus (db s') = "error" /\
    onboardingStep (db s') = 6%Z /\
    simulationActivityLog (db s') = ["Assembling focus group panel..."] /\
    calls s' = [] /\ stored_rows s' = [].
Proof.
  exact (simulation_job_fails_without_inputs always_zero (approving_after [])
           (initial_state (empty_db [ada] [])) (or_intror eq_refl)).
Defined.



Lemma fresh_job_completes :
  simulation_job always_zero (approving_after [])
    (initial_state (empty_db [ada; bob] [post1; post2]))
  = (Normal tt,
     snd (simulation_job always_zero (approving_after [])
            (initial_state (empty_db [ada; bob] [post1; post2])))).
Proof. vm_compute. reflexivity. Qed.

(** A job that runs a second time, after a first, complete run. *)
Lemma second_job_simulates_nothing_witness :
  let s1 := snd (simulation_job always_zero (approving_after [])
                   (initial_state (empty_db [ada; bob] [post1; post2]))) in
  exists completion s2,
    simulation_job always_high (answering Rejected) s1 = (completion, s2) /\
    calls s2 = calls s1 /\
    stored_rows s2 = stored_rows s1.
Proof.
  exact (second_job_simulates_nothing always_zero always_high
           (approving_after []) (answering Rejected)
           (initial_state (empty_db [ada; bob] [post1; post2])) _
           fresh_job_completes).
Defined.

Lemma has_rows_same_id (d : Db) (q q' : GeneratedPost) :
  post_id q = post_id q' -> has_rows d q = has_rows d q'.
Proof. intros E. unfold has_rows. rewrite E. reflexivity. Qed.

Lemma filter_results_of_other_posts (random : nat -> Q)
  (judge : nat -> Persona -> GeneratedPost -> OracleReply)
  (pairs : list Pair) (results : list SimulationResult) (id : string) :
  Forall2 (reaction_of random judge) pairs results ->
  (forall pr, In pr pairs -> post_id (post pr) <> id) ->
  filter (fun r => String.eqb (postId r) id) results = [].
Proof.
  induction 1 as [ | pr r pairs results (Hids & _) Hall IH]; intros Hother; simpl.
  - reflexivity.
  - unfold result_ids, pair_ids in Hids. injection Hids as Hp Hq.
    destruct (String.eqb_spec (postId r) id) as [E | E].
    + exfalso. apply (Hother pr); [left; reflexivity | congruence].
    + apply IH. intros pr' Hpr'. apply Hother. right. exact Hpr'.
Qed.

Lemma job_skips_post_with_rows
  (random : nat -> Q) (judge : nat -> Persona -> GeneratedPost -> OracleReply)
  (s : State) (q : GeneratedPost) :
  has_rows (db s) q = true ->
  exists completion s' requests,
    simulation_job random judge s = (completion, s') /\
    calls s' = calls s ++ requests /\
    (forall pid, ~ In (pid, post_id q) requests) /\
    rows_of_post (db s') (post_id q) = rows_of_post (db s) (post_id q).
Proof.
  intros Hrows.
  destruct (simulation_job_effect random judge s)
    as (completion & s' & results & Hrun & Hcalls & Hstored & Hall & _).
  exists completion, s', (map pair_ids (pairs_to_simulate (db s))).
  split; [exact Hrun | ]. split; [exact Hcalls | ].
  assert (Hother : forall pr, In pr (pairs_to_simulate (db s)) ->
                              post_id (post pr) <> post_id q).
  { intros pr Hpr E. apply in_build_pairs in Hpr. destruct Hpr as (_ & Hq).
    apply filter_In in Hq. destruct Hq as (_ & Hq).
    rewrite (has_rows_same_id (db s) (post pr) q E), Hrows in Hq. discriminate. }
  split.
  - intros pid Hin. apply in_map_iff in Hin. destruct Hin as (pr & Epr & Hpr).
    unfold pair_ids in Epr. injection Epr as _ Eq. exact (Hother pr Hpr Eq).
  - unfold rows_of_post. fold (stored_rows s') (stored_rows s).
    rewrite Hstored, filter_app.
    rewrite (filter_results_of_other_posts random judge _ _ _ Hall Hother).
    apply app_nil_r.
Qed.

(** X12.  The skip is per post: a post that has at least one stored result
    gets no request to the oracle, for any persona -- also for a persona
    that has no stored result for it -- and the job leaves its stored
    results exactly as they were. *)
Theorem simulated_post_is_left_alone
  (random : nat -> Q) (judge : nat -> Persona -> GeneratedPost -> OracleReply)
  (s : State) (q : GeneratedPost) :
  has_rows (db s) q = true ->
  exists completion s' requests,
    simulation_job random judge s = (completion, s') /\
    calls s' = calls s ++ requests /\
    (forall pid, ~ In (pid, post_id q) requests) /\
    rows_of_post (db s') (post_id q) = rows_of_post (db s) (post_id q).
Proof. exact (job_skips_post_with_rows random judge s q). Qed.

Lemma simulated_post_is_left_alone_witness :
  exists completion s' requests,
    simulation_job always_zero (approving_after []) (initial_state partial_db)
    = (completion, s') /\
    calls s' = [] ++ requests /\
    (forall pid, ~ In (pid, "p1") requests) /\
    rows_of_post (db s') "p1" = [ stored "u2" "p1" true false false ].
Proof.
  exact (simulated_post_is_left_alone always_zero (approving_after [])
           (initial_state partial_db) post1 eq_refl).
Defined.






Lemma reaction_well_scored (random : nat -> Q)
  (judge : nat -> Persona -> GeneratedPost -> OracleReply)
  (pr : Pair) (r : SimulationResult) :
  reaction_of random judge pr r -> well_scored r.
Proof.
  intros (_ & k & s0 & s1 & Hreact).
  destruct (react_returns random (persona pr) (post pr)
              (outcome (judge k (persona pr) (post pr))) s0)
    as (r' & s1' & Hr' & _ & _ & Hscore).
  rewrite Hreact in Hr'. inversion Hr'; subst r'. exact Hscore.
Qed.

(** X14.  The job keeps the scoring invariant of the table: if the score
    of every stored result is 1*liked + 3*commented + 5*shared before a job,
    the same holds after it. *)
Theorem simulation_job_keeps_scores_consistent
  (random : nat -> Q) (judge : nat -> Persona -> GeneratedPost -> OracleReply) (s : State) :
  Forall well_scored (stored_rows s) ->
  exists completion s',
    simulation_job random judge s = (completion, s') /\
    Forall well_scored (stored_rows s').
Proof.
  intros Hbefore.
  destruct (simulation_job_effect random judge s)
    as (completion & s' & results & Hrun & _ & Hstored & Hall & _).
  exists completion, s'. split; [exact Hrun | ].
  rewrite Hstored. apply Forall_app. split; [exact Hbefore | ].
  apply Forall_forall. intros r Hr.
  destruct (Forall2_in_r _ _ _ _ Hall Hr) as (pr & _ & Hpr).
  eapply reaction_well_scored. exact Hpr.
Qed.

Lemma simulation_job_keeps_scores_consistent_witness :
  exists completion s',
    simulation_job always_zero (approving_after []) (initial_state partial_db)
    = (completion, s') /\
    Forall well_scored (stored_rows s').
Proof.
  apply (simulation_job_keeps_scores_consistent always_zero (approving_after [])
           (initial_state partial_db)).
  repeat constructor.
Defined.

(* ================================================================== *)
(** * Further properties of the top performer *)
(* ================================================================== *)

Lemma Map_set_key_order (k : string) (v : Z) (m : list (string * Z)) :
  map fst (Map_set k v m)
  = map fst m ++ (if existsb (String.eqb k) (map fst m) then [] else [k]).
Proof.
  induction m as [ | [k0 v0] m IH]; simpl; [reflexivity | ].
  rewrite (String.eqb_sym k k0).
  destruct (String.eqb k0 k); simpl.
  - rewrite app_nil_r. reflexivity.
  - rewrite IH. reflexivity.
Qed.

Lemma Set_values_snoc (seen l : list string) (x : string) :
  Set_values seen (l ++ [x])
  = Set_values seen l
    ++ (if existsb (String.eqb x) seen || existsb (String.eqb x) l then [] else [x]).
Proof.
  revert seen. induction l as [ | n l IH]; intros seen; simpl.
  - rewrite orb_false_r. destruct (existsb (String.eqb x) seen); reflexivity.
  - destruct (existsb (String.eqb n) seen) eqn:En.
    + rewrite IH.
      destruct (String.eqb_spec x n) as [E | E]; [ | reflexivity].
      subst x. rewrite En. reflexivity.
    + simpl. rewrite IH. simpl.
      destruct (String.eqb x n), (existsb (String.eqb x) seen),
               (existsb (String.eqb x) l); reflexivity.
Qed.

Lemma key_present (k : string) (m : list (string * Z)) :
  existsb (String.eqb k) (map fst m)
  = match lookup k m with Some _ => true | None => false end.
Proof.
  induction m as [ | [k0 v0] m IH]; simpl; [reflexivity | ].
  rewrite (String.eqb_sym k k0). destruct (String.eqb k0 k); [reflexivity | exact IH].
Qed.

Lemma existsb_map_postId (k : string) (rs : list SimulationResult) :
  existsb (String.eqb k) (map postId rs) = existsb (fun r => String.eqb (postId r) k) rs.
Proof.
  induction rs as [ | r rs IH]; simpl; [reflexivity | ].
  rewrite IH, (String.eqb_sym k). reflexivity.
Qed.

(** X15.  The map [postScores] built by the worker has one entry per post
    that has results, in the order in which the posts first occur among the
    results, and the entry of a post holds the sum of the scores of its
    results; a post without results has no entry. *)
Theorem postScores_holds_the_totals (allSimResults : list SimulationResult) :
  map fst (postScores_of allSimResults) = Set_values [] (map postId allSimResults) /\
  NoDup (map fst (postScores_of allSimResults)) /\
  forall id,
    lookup id (postScores_of allSimResults)
    = if existsb (fun r => String.eqb (postId r) id) allSimResults
      then Some (total_score id allSimResults)
      else None.
Proof.
  split; [ | split; [apply postScores_of_NoDup | apply postScores_of_lookup]].
  induction allSimResults as [ | r rs IH] using rev_ind; [reflexivity | ].
  rewrite postScores_of_snoc, Map_set_key_order, map_app.
  change (map postId [r]) with [postId r].
  rewrite Set_values_snoc, IH. f_equal.
  rewrite <- IH, key_present, postScores_of_lookup, existsb_map_postId.
  cbn [existsb orb].
  destruct (existsb _ rs); reflexivity.
Qed.

Lemma winning_first_from (m : list (string * Z)) (best : string * Z) :
  let final := fold_left (fun best entry => if (snd best <? snd entry)%Z then entry else best)
                         m best in
  (final = best /\ forall e, In e m -> (snd e <= snd best)%Z) \/
  (exists before after,
      m = before ++ final :: after /\
      (snd best < snd final)%Z /\
      (forall e, In e before -> (snd e < snd final)%Z) /\
      (forall e, In e after -> (snd e <= snd final)%Z)).
Proof.
  revert best. induction m as [ | e m IH]; intros best; simpl.
  - left. split; [reflexivity | intros e []].
  - destruct (Z.ltb_spec (snd best) (snd e)) as [Hlt | Hge].
    + right. specialize (IH e). cbv zeta in IH.
      set (final := fold_left _ m e) in *.
      destruct IH as [(E & Hall) | (before & after & E & H1 & H2 & H3)].
      * exists [], m. rewrite E. split; [reflexivity | ]. split; [exact Hlt | ].
        split; [intros x [] | exact Hall].
      * exists (e :: before), after. split; [simpl; f_equal; exact E | ].
        split; [lia | ]. split; [ | exact H3].
        intros x [<- | Hx]; [exact H1 | apply H2; exact Hx].
    + specialize (IH best). cbv zeta in IH.
      set (final := fold_left _ m best) in *.
      destruct IH as [(E & Hall) | (before & after & E & H1 & H2 & H3)].
      * left. split; [exact E | ].
        intros x [<- | Hx]; [exact Hge | apply Hall; exact Hx].
      * right. exists (e :: before), after. split; [simpl; f_equal; exact E | ].
        split; [exact H1 | ]. split; [ | exact H3].
        intros x [<- | Hx]; [lia | apply H2; exact Hx].
Qed.

(** X16.  The loop that picks the winner keeps the first maximum: when
    some post has a total score of at least 0, the winner is an entry of the
    map with the greatest score, and every entry the loop met before it has
    a strictly smaller score -- among equals, the post met first wins. *)
Theorem winning_is_the_first_maximum (postScores : list (string * Z)) :
  (exists e, In e postScores /\ (0 <= snd e)%Z) ->
  exists before after,
    postScores = before ++ winning postScores :: after /\
    (forall e, In e before -> (snd e < snd (winning postScores))%Z) /\
    (forall e, In e after -> (snd e <= snd (winning postScores))%Z).
Proof.
  intros (e & He & Hpos). unfold winning.
  destruct (winning_first_from postScores ("", (-1)%Z))
    as [(_ & Hall) | (before & after & E & _ & H1 & H2)].
  - apply Hall in He. simpl in He. lia.
  - exists before, after. auto.
Qed.

Lemma winning_is_the_first_maximum_witness :
  exists before after,
    [("p1", 5%Z); ("p2", 7%Z); ("p3", 7%Z)]
    = before ++ winning [("p1", 5%Z); ("p2", 7%Z); ("p3", 7%Z)] :: after /\
    (forall e, In e before
               -> (snd e < snd (winning [("p1", 5%Z); ("p2", 7%Z); ("p3", 7%Z)]))%Z) /\
    (forall e, In e after
               -> (snd e <= snd (winning [("p1", 5%Z); ("p2", 7%Z); ("p3", 7%Z)]))%Z).
Proof.
  apply (winning_is_the_first_maximum [("p1", 5%Z); ("p2", 7%Z); ("p3", 7%Z)]).
  exists ("p1", 5%Z). split; [left; reflexivity | simpl; lia].
Defined.

(* ================================================================== *)
(** * Further properties of the ranking *)
(* ================================================================== *)

Lemma insert_cmp_perm {A : Type} (cmp : A -> A -> Q) (x : A) (l : list A) :
  Permutation (insert_cmp cmp x l) (x :: l).
Proof.
  induction l as [ | y l IH]; simpl.
  - apply Permutation_refl.
  - destruct (Qle_bool (cmp x y) 0).
    + apply Permutation_refl.
    + apply Permutation_trans with (y :: x :: l).
      * apply perm_skip, IH.
      * apply perm_swap.
Qed.

Lemma Array_sort_perm {A : Type} (cmp : A -> A -> Q) (l : list A) :
  Permutation (Array_sort cmp l) l.
Proof.
  unfold Array_sort. induction l as [ | x l IH]; simpl.
  - apply perm_nil.
  - apply Permutation_trans with (x :: fold_right (insert_cmp cmp) [] l).
    + apply insert_cmp_perm.
    + apply perm_skip, IH.
Qed.

(** X18.  The ranking lists every post of the user exactly once: the posts
    of the response are a rearrangement of the user's posts. *)
Theorem getSimulationResults_lists_every_post (d : Db) :
  Permutation (map result_post (getSimulationResults d)) (posts_of_user d) /\
  List.length (getSimulationResults d) = List.length (posts_of_user d).
Proof.
  assert (Hperm : Permutation (getSimulationResults d) (postResults_of d))
    by apply Array_sort_perm.
  assert (Hposts : map result_post (postResults_of d) = posts_of_user d).
  { unfold postResults_of. rewrite map_map. simpl. apply map_id. }
  split.
  - rewrite <- Hposts. apply Permutation_map. exact Hperm.
  - rewrite (Permutation_length Hperm), <- Hposts, length_map. reflexivity.
Qed.

Lemma filter_filter_implied {A : Type} (f g : A -> bool) (l : list A) :
  (forall x, f x = true -> g x = true) ->
  filter f (filter g l) = filter f l.
Proof.
  intros H. induction l as [ | x l IH]; simpl; [reflexivity | ].
  destruct (g x) eqn:Eg; simpl.
  - rewrite IH. reflexivity.
  - destruct (f x) eqn:Ef; [ | exact IH].
    apply H in Ef. congruence.
Qed.

Lemma existsb_Set_values (x : string) (seen l : list string) :
  existsb (fun y => String.eqb y x) (Set_values seen l)
  = existsb (fun y => String.eqb y x) l && negb (existsb (String.eqb x) seen).
Proof.
  revert seen. induction l as [ | n l IH]; intros seen; simpl; [reflexivity | ].
  destruct (existsb (String.eqb n) seen) eqn:En.
  - rewrite IH.
    destruct (String.eqb_spec n x) as [E | E]; [ | reflexivity].
    subst n. rewrite En. simpl. rewrite andb_false_r. reflexivity.
  - simpl. rewrite IH. simpl. rewrite (String.eqb_sym x n).
    destruct (String.eqb_spec n x) as [E | E]; simpl; [ | reflexivity].
    subst n. rewrite En. reflexivity.
Qed.

Lemma find_summary (make : string -> PostEngagementSummary) (ids : list string) (id : string) :
  (forall k, summary_postId (make k) = k) ->
  find (fun e => String.eqb (summary_postId e) id) (map make ids)
  = if existsb (fun k => String.eqb k id) ids then Some (make id) else None.
Proof.
  intros Hkey. induction ids as [ | k ids IH]; simpl; [reflexivity | ].
  rewrite Hkey. destruct (String.eqb_spec k id) as [E | E]; simpl.
  - subst k. reflexivity.
  - exact IH.
Qed.

(** The summary the response attaches to a post of the user. *)
Lemma engagement_of_post (d : Db) (p : GeneratedPost) :
  In p (posts_of_user d) ->
  match find (fun e => String.eqb (summary_postId e) (post_id p)) (getEngagementByUserId d) with
  | Some e => e
  | None => {| summary_postId := post_id p; totalLikes := 0; totalShares := 0;
               totalComments := 0; totalEngagementScore := 0; simulationCount := 0 |}
  end
  = summary_of (post_id p) (rows_of_post d (post_id p)).
Proof.
  intros Hp. unfold getEngagementByUserId.
  set (joined := filter _ (postSimulations d)).
  assert (Hgroup : filter (fun r => String.eqb (postId r) (post_id p)) joined
                   = rows_of_post d (post_id p)).
  { unfold joined, rows_of_post. apply filter_filter_implied.
    intros r Hr. apply String.eqb_eq in Hr. apply existsb_exists.
    exists p. split; [exact Hp | ]. rewrite Hr. apply String.eqb_refl. }
  rewrite (find_summary
             (fun id =>
                {| summary_postId := id;
                   totalLikes :=
                     count_where liked (filter (fun r => String.eqb (postId r) id) joined);
                   totalShares :=
                     count_where shared (filter (fun r => String.eqb (postId r) id) joined);
                   totalComments :=
                     count_where commented (filter (fun r => String.eqb (postId r) id) joined);
                   totalEngagementScore :=
                     sum_scores (filter (fun r => String.eqb (postId r) id) joined);
                   simulationCount :=
                     Z.of_nat (List.length (filter (fun r => String.eqb (postId r) id)
                                                   joined)) |}))
    by reflexivity.
  rewrite existsb_Set_values. simpl. rewrite andb_true_r.
  destruct (existsb (fun y => String.eqb y (post_id p)) (map postId joined)) eqn:Eex.
  - rewrite Hgroup. reflexivity.
  - assert (Hnone : rows_of_post d (post_id p) = []).
    { rewrite <- Hgroup.
      destruct (filter _ joined) as [ | r rows] eqn:Ef; [reflexivity | exfalso].
      assert (Hr : In r (filter (fun r => String.eqb (postId r) (post_id p)) joined))
        by (rewrite Ef; left; reflexivity).
      apply filter_In in Hr. destruct Hr as (Hr & E).
      assert (Htrue : existsb (fun y => String.eqb y (post_id p)) (map postId joined) = true).
      { apply existsb_exists. exists (postId r). split; [apply in_map; exact Hr | exact E]. }
      congruence. }
    rewrite Hnone. reflexivity.
Qed.

Lemma results_carry_their_summaries (d : Db) :
  Forall (fun x =>
            In (result_post x) (posts_of_user d) /\
            simulations x = rows_of_post d (post_id (result_post x)) /\
            engagement x = summary_of (post_id (result_post x)) (simulations x))
         (getSimulationResults d).
Proof.
  apply (Permutation_Forall (Permutation_sym (Array_sort_perm compare_results _))).
  unfold postResults_of. apply Forall_forall. intros x Hx.
  apply in_map_iff in Hx. destruct Hx as (p & <- & Hp). simpl.
  split; [exact Hp | ]. split; [reflexivity | ].
  apply engagement_of_post. exact Hp.
Qed.

Lemma Set_values_in (x : string) (l : list string) :
  forall seen, In x (Set_values seen l) -> In x l.
Proof.
  induction l as [ | n l IH]; intros seen H; simpl in *; [exact H | ].
  destruct (existsb (String.eqb n) seen).
  - right. exact (IH _ H).
  - destruct H as [H | H]; [left; exact H | right; exact (IH _ H)].
Qed.

(** Every row of the query is the summary of a post of the user. *)
Lemma summaries_are_of_posts (d : Db) (e : PostEngagementSummary) :
  In e (getEngagementByUserId d) ->
  exists p, In p (posts_of_user d) /\
            e = summary_of (post_id p) (rows_of_post d (post_id p)).
Proof.
  unfold getEngagementByUserId.
  set (joined := filter _ (postSimulations d)).
  intros He. apply in_map_iff in He. destruct He as (id & <- & Hid).
  apply Set_values_in in Hid. apply in_map_iff in Hid. destruct Hid as (r & <- & Hr).
  apply filter_In in Hr. destruct Hr as (_ & Hr).
  apply existsb_exists in Hr. destruct Hr as (p & Hp & E). apply String.eqb_eq in E.
  exists p. split; [exact Hp | ].
  assert (Hgroup : filter (fun r' => String.eqb (postId r') (post_id p)) joined
                   = rows_of_post d (post_id p)).
  { unfold joined, rows_of_post. apply filter_filter_implied.
    intros r' Hr'. apply String.eqb_eq in Hr'. apply existsb_exists.
    exists p. split; [exact Hp | ]. rewrite Hr'. apply String.eqb_refl. }
  rewrite <- E, Hgroup. reflexivity.
Qed.

Lemma aggregates_fit_when_query_succeeds (d : Db) (p : GeneratedPost) :
  getEngagementByUserId_fails d = false ->
  In p (posts_of_user d) ->
  fits_INTEGER (sum_scores (rows_of_post d (post_id p))) = true /\
  fits_INTEGER (Z.of_nat (List.length (rows_of_post d (post_id p)))) = true.
Proof.
  intros Hok Hp. pose proof (engagement_of_post d p Hp) as Hsummary.
  destruct (find _ (getEngagementByUserId d)) as [e | ] eqn:Efind.
  - apply find_some in Efind. destruct Efind as (He & _).
    unfold getEngagementByUserId_fails in Hok.
    destruct (fits_INTEGER (totalEngagementScore e) && fits_INTEGER (simulationCount e))
      eqn:Efits.
    + apply andb_true_iff in Efits. rewrite Hsummary in Efits. exact Efits.
    + exfalso. assert (Hex : existsb (fun e => negb (fits_INTEGER (totalEngagementScore e) &&
                                                     fits_INTEGER (simulationCount e)))
                                     (getEngagementByUserId d) = true).
      { apply existsb_exists. exists e. split; [exact He | ]. rewrite Efits. reflexivity. }
      congruence.
  - pose proof (f_equal totalEngagementScore Hsummary) as Hscore.
    pose proof (f_equal simulationCount Hsummary) as Hcount.
    cbn [totalEngagementScore simulationCount summary_of] in Hscore, Hcount.
    rewrite <- Hscore, <- Hcount. split; reflexivity.
Qed.

(** X19.  What [getSimulationResults] answers.  When the query of the
    engagement summaries does not fail, the response lists every post with
    all its stored results, and the summary next to them is their aggregate
    -- the count of results, the numbers of likes, comments and shares, the
    sum of the scores (all 0 for a post without results) -- each of which
    fits a 32-bit integer.  The response is the error of the [catch] block
    exactly when the query fails, which takes a post of the user whose sum of
    scores or count of results does not fit a 32-bit integer. *)
Theorem getSimulationResults_summaries_agree (d : Db) :
  match getSimulationResults_response d with
  | Ok results =>
      results = getSimulationResults d /\
      Forall (fun x =>
                simulations x = rows_of_post d (post_id (result_post x)) /\
                engagement x = summary_of (post_id (result_post x)) (simulations x) /\
                (-2147483648 <= sum_scores (simulations x) <= 2147483647)%Z /\
                (Z.of_nat (List.length (simulations x)) <= 2147483647)%Z)
             results
  | InternalServerError =>
      exists p,
        In p (posts_of_user d) /\
        ((sum_scores (rows_of_post d (post_id p)) < -2147483648)%Z \/
         (2147483647 < sum_scores (rows_of_post d (post_id p)))%Z \/
         (2147483647 < Z.of_nat (List.length (rows_of_post d (post_id p))))%Z)
  end.
Proof.
  unfold getSimulationResults_response.
  destruct (getEngagementByUserId_fails d) eqn:Efails.
  - unfold getEngagementByUserId_fails in Efails.
    apply existsb_exists in Efails. destruct Efails as (e & He & Hfits).
    destruct (summaries_are_of_posts d e He) as (p & Hp & ->).
    exists p. split; [exact Hp | ].
    apply negb_true_iff, andb_false_iff in Hfits.
    cbn [summary_of totalEngagementScore simulationCount] in Hfits.
    unfold fits_INTEGER in Hfits.
    destruct Hfits as [H | H]; apply andb_false_iff in H;
      destruct H as [H | H]; apply Z.leb_gt in H; lia.
  - split; [reflexivity | ].
    pose proof (results_carry_their_summaries d) as Hall.
    rewrite Forall_forall in *. intros x Hx.
    destruct (Hall x Hx) as (Hp & Hsims & Hsum).
    split; [exact Hsims | ]. split; [exact Hsum | ].
    destruct (aggregates_fit_when_query_succeeds d _ Efails Hp) as (Hscore & Hcount).
    rewrite <- Hsims in Hscore, Hcount. unfold fits_INTEGER in Hscore, Hcount.
    apply andb_true_iff in Hscore, Hcount.
    destruct Hscore as (H1 & H2). destruct Hcount as (_ & H3).
    apply Z.leb_le in H1, H2, H3. lia.
Qed.

Lemma engRate_as_quotient (sims : list SimulationResult) :
  let total := Z.of_nat (if List.length sims =? 0 then 1 else List.length sims) in
  let scrolled := Z.of_nat (scrolled_count sims) in
  engRate sims = (inject_Z (total - scrolled) / inject_Z total)%Q /\
  (0 < total)%Z /\ (0 <= scrolled <= total)%Z /\
  (sims = [] -> scrolled = 0%Z).
Proof.
  intros total scrolled. split; [reflexivity | ].
  assert (Hle : scrolled_count sims <= List.length sims) by apply filter_length_le.
  unfold total, scrolled.
  destruct sims as [ | r sims]; simpl List.length in *; simpl Nat.eqb.
  - repeat split; try lia; reflexivity.
  - repeat split; try lia; discriminate.
Qed.

(** X20.  The engagement rate the ranking compares lies between 0 and 1;
    it is 1 exactly when no result scrolled past (in particular for a post
    without results), and 0 exactly when there are results and all of them
    scrolled past. *)
Theorem engRate_bounds (sims : list SimulationResult) :
  (0 <= engRate sims)%Q /\ (engRate sims <= 1)%Q /\
  ((engRate sims == 1)%Q <-> scrolled_count sims = 0) /\
  ((engRate sims == 0)%Q <-> sims <> [] /\ scrolled_count sims = List.length sims).
Proof.
  destruct (engRate_as_quotient sims) as (E & Htotal & Hscrolled & Hempty).
  cbv zeta in *. rewrite E. clear E.
  set (total := Z.of_nat (if List.length sims =? 0 then 1 else List.length sims)) in *.
  set (scrolled := Z.of_nat (scrolled_count sims)) in *.
  assert (Hq : (0 < inject_Z total)%Q) by (rewrite Zlt_Qlt in Htotal; exact Htotal).
  assert (Hne : ~ (inject_Z total == 0)%Q) by lra.
  assert (Hnum : (inject_Z (total - scrolled) == inject_Z total - inject_Z scrolled)%Q).
  { unfold Zminus. rewrite inject_Z_plus, inject_Z_opp. reflexivity. }
  assert (Hs0 : (inject_Z 0 <= inject_Z scrolled)%Q) by (rewrite <- Zle_Qle; lia).
  change (inject_Z 0) with 0%Q in Hs0.
  assert (Hs1 : (inject_Z scrolled <= inject_Z total)%Q) by (rewrite <- Zle_Qle; lia).
  split; [ | split; [ | split]].
  - apply Qle_shift_div_l; [exact Hq | ]. rewrite Hnum. lra.
  - apply Qle_shift_div_r; [exact Hq | ]. rewrite Hnum. lra.
  - split.
    + intros H.
      assert (H' : (inject_Z (total - scrolled) == inject_Z total)%Q).
      { setoid_replace (inject_Z (total - scrolled))
          with ((inject_Z (total - scrolled) / inject_Z total) * inject_Z total)%Q
          by (field; exact Hne).
        rewrite H. ring. }
      rewrite Hnum in H'.
      assert (Hz : (inject_Z scrolled == inject_Z 0)%Q).
      { change (inject_Z 0) with 0%Q. clear - H'.
        generalize dependent (inject_Z scrolled). generalize (inject_Z total).
        intros qt qs H'. lra. }
      unfold Qeq in Hz. simpl in Hz. unfold scrolled in Hz. lia.
    + intros H. unfold scrolled in *. rewrite H in *. simpl Z.of_nat.
      rewrite Z.sub_0_r. field. exact Hne.
  - split.
    + intros H.
      assert (H' : (inject_Z (total - scrolled) == 0)%Q).
      { setoid_replace (inject_Z (total - scrolled))
          with ((inject_Z (total - scrolled) / inject_Z total) * inject_Z total)%Q
          by (field; exact Hne).
        rewrite H. ring. }
      rewrite Hnum in H'.
      assert (Hz : (inject_Z scrolled == inject_Z total)%Q).
      { clear - H'.
        generalize dependent (inject_Z scrolled). generalize (inject_Z total).
        intros qt qs H'. lra. }
      unfold Qeq in Hz. simpl in Hz. rewrite !Z.mul_1_r in Hz.
      destruct sims as [ | r sims].
      * specialize (Hempty eq_refl). unfold total in Hz. simpl in Hz. lia.
      * split; [discriminate | ]. unfold scrolled, total in Hz. simpl Nat.eqb in Hz.
        cbv iota in Hz. lia.
    + intros (Hsome & Hall).
      assert (Hz : scrolled = total).
      { unfold scrolled, total. rewrite Hall.
        destruct sims as [ | r sims]; [congruence | reflexivity]. }
      rewrite Hz, Z.sub_diag. unfold Qdiv. rewrite Qmult_0_l. reflexivity.
Qed.

(* ================================================================== *)
(** * Deleting and regenerating *)
(* ================================================================== *)

Lemma filter_filter_and {A : Type} (f g : A -> bool) (l : list A) :
  filter f (filter g l) = filter (fun x => g x && f x) l.
Proof.
  induction l as [ | x l IH]; simpl; [reflexivity | ].
  destruct (g x); simpl; [destruct (f x) | ]; rewrite IH; reflexivity.
Qed.

Lemma delete_rows_of_posts (posts : list GeneratedPost) (d : Db) :
  let d' := fold_left (fun d post => delete_rows_of_post (post_id post) d) posts d in
  postSimulations d'
  = filter (fun r => negb (existsb (fun p => String.eqb (post_id p) (postId r)) posts))
           (postSimulations d) /\
  personas_of_user d' = personas_of_user d /\
  posts_of_user d' = posts_of_user d /\
  simulationActivityLog d' = simulationActivityLog d /\
  simulationStatus d' = simulationStatus d /\
  onboardingStep d' = onboardingStep d.
Proof.
  revert d. induction posts as [ | p posts IH]; intros d; simpl.
  - repeat split. symmetry. clear. induction (postSimulations d) as [ | r l IH]; simpl;
      [reflexivity | rewrite IH; reflexivity].
  - destruct (IH (delete_rows_of_post (post_id p) d)) as (H1 & H2 & H3 & H4 & H5 & H6).
    cbv zeta in *. rewrite H1, H2, H3, H4, H5, H6. simpl.
    repeat split. rewrite filter_filter_and. apply filter_ext.
    intros r. rewrite (String.eqb_sym (postId r)), negb_orb. reflexivity.
Qed.

Lemma rows_of_post_after_delete (d : Db) (rows : list SimulationResult) (id : string) :
  filter (fun r => String.eqb (postId r) id) (filter (fun r => negb (of_user d r)) rows)
  = if existsb (fun p => String.eqb (post_id p) id) (posts_of_user d)
    then []
    else filter (fun r => String.eqb (postId r) id) rows.
Proof.
  rewrite filter_filter_and.
  destruct (existsb _ (posts_of_user d)) eqn:E.
  - induction rows as [ | r rows IH]; simpl; [reflexivity | ].
    destruct (String.eqb_spec (postId r) id) as [Er | Er].
    + unfold of_user. rewrite Er, E. simpl. exact IH.
    + rewrite andb_false_r. exact IH.
  - apply filter_ext. intros r.
    destruct (String.eqb_spec (postId r) id) as [Er | Er].
    + unfold of_user. rewrite Er, E. reflexivity.
    + apply andb_false_r.
Qed.

Lemma no_summary_without_rows (d : Db) :
  filter (of_user d) (postSimulations d) = [] -> getEngagementByUserId d = [].
Proof.
  intros H. unfold getEngagementByUserId. fold (of_user d).
  change (filter (fun r => existsb (fun p => String.eqb (post_id p) (postId r))
                                   (posts_of_user d)) (postSimulations d))
    with (filter (of_user d) (postSimulations d)).
  rewrite H. reflexivity.
Qed.

Lemma filter_complement {A : Type} (f : A -> bool) (l : list A) :
  filter f (filter (fun x => negb (f x)) l) = [].
Proof.
  induction l as [ | x l IH]; simpl; [reflexivity | ].
  destruct (f x) eqn:E; simpl; [ | rewrite E]; exact IH.
Qed.

(** X21.  [SimulationRepository.deleteByUserId] removes exactly the stored
    results of the user's posts: afterwards none of the user's posts has a
    result and the user has no engagement summary, while results of any
    other post, and the posts themselves, are as before. *)
Theorem simulations_deleteByUserId_effect (s : State) :
  exists s',
    simulations_deleteByUserId s = (Normal tt, s') /\
    stored_rows s' = filter (fun r => negb (of_user (db s) r)) (stored_rows s) /\
    posts_of_user (db s') = posts_of_user (db s) /\
    Forall (fun p => rows_of_post (db s') (post_id p) = []) (posts_of_user (db s)) /\
    getEngagementByUserId (db s') = [] /\
    forall id,
      existsb (fun p => String.eqb (post_id p) id) (posts_of_user (db s)) = false ->
      rows_of_post (db s') id = rows_of_post (db s) id.
Proof.
  unfold simulations_deleteByUserId. eexists. split; [reflexivity | ].
  destruct (delete_rows_of_posts (posts_of_user (db s)) (db s)) as (H1 & _ & H3 & _).
  cbv zeta in *.
  change (postSimulations
            (fold_left (fun d post => delete_rows_of_post (post_id post) d)
                       (posts_of_user (db s)) (db s))
          = filter (fun r => negb (of_user (db s) r)) (postSimulations (db s))) in H1.
  unfold stored_rows, rows_of_post. cbn [db set_db].
  rewrite H1, H3.
  split; [reflexivity | ]. split; [reflexivity | ].
  split; [ | split].
  - apply Forall_forall. intros p Hp.
    rewrite rows_of_post_after_delete.
    replace (existsb _ (posts_of_user (db s))) with true; [reflexivity | ].
    symmetry. apply existsb_exists. exists p. split; [exact Hp | apply String.eqb_refl].
  - apply no_summary_without_rows. rewrite H1, (filter_ext (of_user _) (of_user (db s))).
    + apply filter_complement.
    + intros r. unfold of_user. rewrite H3. reflexivity.
  - intros id Hid. rewrite rows_of_post_after_delete, Hid. reflexivity.
Qed.

Lemma delete_rows_of_posts_eq (posts : list GeneratedPost) (d : Db) :
  fold_left (fun d post => delete_rows_of_post (post_id post) d) posts d
  = set_postSimulations
      (filter (fun r => negb (existsb (fun p => String.eqb (post_id p) (postId r)) posts))
              (postSimulations d)) d.
Proof.
  revert d. induction posts as [ | p posts IH]; intros d; simpl.
  - destruct d as [pe po rows lg st step]. unfold set_postSimulations. simpl. f_equal.
    induction rows as [ | r l IHl]; simpl; [reflexivity | rewrite <- IHl; reflexivity].
  - rewrite IH. unfold delete_rows_of_post, set_postSimulations. simpl. f_equal.
    rewrite filter_filter_and. apply filter_ext.
    intros r. rewrite (String.eqb_sym (postId r)), negb_orb. reflexivity.
Qed.

Lemma filter_twice {A : Type} (f : A -> bool) (l : list A) :
  filter f (filter f l) = filter f l.
Proof.
  rewrite filter_filter_and. apply filter_ext. intros x. apply andb_diag.
Qed.

Lemma regeneratePost_effect (selectedPostId : option string) (new_id : string) (s : State) :
  let selectedPost :=
    match selectedPostId with
    | Some id =>
        if truthy id
        then find (fun p => String.eqb (post_id p) id) (posts_of_user (db s))
        else None
    | None => None
    end in
  exists s',
    regeneratePost selectedPostId new_id s = (Normal tt, s') /\
    posts_of_user (db s')
    = match selectedPost with
      | Some original => [ {| post_id := new_id; variationNumber := 1;
                              platform := platform original;
                              content := content original |} ]
      | None => []
      end /\
    stored_rows s'
    = filter (fun r => negb (of_user (db s) r)) (stored_rows s)
      ++ match selectedPostId, selectedPost with
         | Some id, Some _ =>
             if truthy new_id
             then map (reinserted_row new_id) (rows_of_post (db s) id)
             else []
         | _, _ => []
         end /\
    simulationStatus (db s') = "pending" /\
    simulationActivityLog (db s') = [] /\
    onboardingStep (db s') = 5%Z /\
    personas_of_user (db s') = personas_of_user (db s) /\
    calls s' = calls s /\ draws s' = draws s /\ progress s' = progress s.
Proof.
  cbv zeta.
  unfold regeneratePost, bind, getPostsByUserId, simulations_deleteByUserId,
    posts_deleteByUserId, posts_create, getByPostId, createBulk, updateUser, ret.
  cbv zeta.
  assert (Hclean : forall rows : list SimulationResult,
            filter (fun r => negb (existsb (fun p => String.eqb (post_id p) (postId r))
                                           (posts_of_user (db s))))
                   (filter (fun r => negb (existsb (fun p => String.eqb (post_id p) (postId r))
                                                   (posts_of_user (db s)))) rows)
            = filter (fun r => negb (of_user (db s) r)) rows).
  { intros rows. apply filter_twice. }
  destruct selectedPostId as [id | ].
  - destruct (truthy id).
    + destruct (find _ (posts_of_user (db s))) as [original | ].
      * cbn [db set_db fst snd]. rewrite !delete_rows_of_posts_eq.
        cbn [db set_db posts_of_user postSimulations set_postSimulations
             set_posts_of_user insert_post post_id].
        rewrite Hclean.
        destruct (truthy new_id) eqn:Enew; cbn [andb].
        -- destruct (0 <? List.length (rows_of_post (db s) id)) eqn:Elen.
           ++ eexists. split; [reflexivity | ]. repeat split.
           ++ eexists. split; [reflexivity | ].
              apply Nat.ltb_ge in Elen.
              destruct (rows_of_post (db s) id); [ | simpl in Elen; lia].
              unfold stored_rows. cbn. rewrite app_nil_r. repeat split.
        -- eexists. split; [reflexivity | ].
           unfold stored_rows. cbn. rewrite app_nil_r. repeat split.
      * cbn [db set_db fst snd]. rewrite !delete_rows_of_posts_eq.
        cbn [db set_db posts_of_user postSimulations set_postSimulations set_posts_of_user].
        rewrite Hclean.
        eexists. split; [reflexivity | ].
        unfold stored_rows. cbn. rewrite app_nil_r. repeat split.
    + cbn [db set_db fst snd]. rewrite !delete_rows_of_posts_eq.
      cbn [db set_db posts_of_user postSimulations set_postSimulations set_posts_of_user].
      rewrite Hclean.
      eexists. split; [reflexivity | ].
      unfold stored_rows. cbn. rewrite app_nil_r. repeat split.
  - cbn [db set_db fst snd]. rewrite !delete_rows_of_posts_eq.
    cbn [db set_db posts_of_user postSimulations set_postSimulations set_posts_of_user].
    rewrite Hclean.
    eexists. split; [reflexivity | ].
    unfold stored_rows. cbn. rewrite app_nil_r. repeat split.
Qed.

Lemma filter_none {A : Type} (f : A -> bool) (l : list A) :
  (forall x, In x l -> f x = false) -> filter f l = [].
Proof.
  induction l as [ | x l IH]; intros H; simpl; [reflexivity | ].
  rewrite (H x (or_introl eq_refl)). apply IH. intros y Hy. apply H. right. exact Hy.
Qed.

Lemma rows_of_reinserted (new_id : string) (rows : list SimulationResult) :
  filter (fun r => String.eqb (postId r) new_id) (map (reinserted_row new_id) rows)
  = map (reinserted_row new_id) rows.
Proof.
  induction rows as [ | r rows IH]; simpl; [reflexivity | ].
  rewrite String.eqb_refl, IH. reflexivity.
Qed.



Lemma regenerated_rows (id new_id : string) (s s' : State) :
  (forall r, In r (stored_rows s) -> postId r <> new_id) ->
  stored_rows s'
  = filter (fun r => negb (of_user (db s) r)) (stored_rows s)
    ++ map (reinserted_row new_id) (rows_of_post (db s) id) ->
  rows_of_post (db s') new_id = map (reinserted_row new_id) (rows_of_post (db s) id).
Proof.
  intros Hfresh Hrows. unfold rows_of_post at 1. fold (stored_rows s').
  rewrite Hrows, filter_app, rows_of_reinserted, filter_none; [reflexivity | ].
  intros r Hr. apply filter_In in Hr. destruct Hr as (Hr & _).
  apply String.eqb_neq. exact (Hfresh r Hr).
Qed.



(** X23.  Regenerating without a usable selection -- no selected post id,
    an empty one, or one that is not a post of the user -- is a clean slate:
    the user is left with no post and no engagement summary, results of
    other posts stay, and the simulation columns are reset. *)
Theorem regeneratePost_without_selection_clears
  (selectedPostId : option string) (new_id : string) (s : State) :
  match selectedPostId with
  | Some id =>
      truthy id = false \/
      find (fun p => String.eqb (post_id p) id) (posts_of_user (db s)) = None
  | None => True
  end ->
  exists s',
    regeneratePost selectedPostId new_id s = (Normal tt, s') /\
    posts_of_user (db s') = [] /\
    stored_rows s' = filter (fun r => negb (of_user (db s) r)) (stored_rows s) /\
    getEngagementByUserId (db s') = [] /\
    simulationStatus (db s') = "pending" /\
    simulationActivityLog (db s') = [] /\
    onboardingStep (db s') = 5%Z.
Proof.
  intros Hsel.
  destruct (regeneratePost_effect selectedPostId new_id s)
    as (s' & Hrun & Hposts & Hrows & Hstatus & Hlog & Hstep & _).
  cbv zeta in *.
  assert (Hnone : match selectedPostId with
                  | Some id =>
                      if truthy id
                      then find (fun p => String.eqb (post_id p) id) (posts_of_user (db s))
                      else None
                  | None => None
                  end = None).
  { destruct selectedPostId as [id | ]; [ | reflexivity].
    destruct Hsel as [H | H]; [rewrite H; reflexivity | ].
    rewrite H. destruct (truthy id); reflexivity. }
  rewrite Hnone in Hposts, Hrows.
  assert (Hrows' : stored_rows s'
                   = filter (fun r => negb (of_user (db s) r)) (stored_rows s)).
  { rewrite Hrows. destruct selectedPostId; apply app_nil_r. }
  exists s'. repeat split; try assumption.
  apply no_summary_without_rows. unfold of_user. rewrite Hposts. simpl.
  clear. induction (postSimulations (db s')) as [ | r l IH]; [reflexivity | exact IH].
Qed.

Lemma regeneratePost_without_selection_clears_witness :
  exists s',
    regeneratePost (Some "p7") "p9" (initial_state regeneration_db) = (Normal tt, s') /\
    posts_of_user (db s') = [] /\
    stored_rows s'
    = filter (fun r => negb (of_user regeneration_db r)) (postSimulations regeneration_db) /\
    getEngagementByUserId (db s') = [] /\
    simulationStatus (db s') = "pending" /\
    simulationActivityLog (db s') = [] /\
    onboardingStep (db s') = 5%Z.
Proof.
  apply (regeneratePost_without_selection_clears (Some "p7") "p9"
           (initial_state regeneration_db)).
  right. reflexivity.
Defined.

(** X24.  The handler and the worker compose as the handler intends: when
    the selected post had results, then in any later state that holds the
    results as the handler left them -- whatever posts were added since --
    the simulation job sends no request about the re-inserted post and
    leaves its results as they are. *)
Theorem regenerated_post_is_not_simulated_again
  (random : nat -> Q) (judge : nat -> Persona -> GeneratedPost -> OracleReply)
  (id new_id : string) (original : GeneratedPost) (s later : State) :
  truthy id = true ->
  find (fun p => String.eqb (post_id p) id) (posts_of_user (db s)) = Some original ->
  truthy new_id = true ->
  (forall r, In r (stored_rows s) -> postId r <> new_id) ->
  rows_of_post (db s) id <> [] ->
  stored_rows later = stored_rows (snd (regeneratePost (Some id) new_id s)) ->
  exists completion s' requests,
    simulation_job random judge later = (completion, s') /\
    calls s' = calls later ++ requests /\
    (forall pid, ~ In (pid, new_id) requests) /\
    rows_of_post (db s') new_id = map (reinserted_row new_id) (rows_of_post (db s) id).
Proof.
  intros Hid Hfind Hnew Hfresh Hsome Hlater.
  destruct (regeneratePost_effect (Some id) new_id s)
    as (s1 & Hrun & _ & Hrows & _).
  cbv zeta in *. rewrite Hid, Hfind, Hnew in Hrows.
  rewrite Hrun in Hlater. cbn [snd] in Hlater.
  assert (Hkept : rows_of_post (db later) new_id
                  = map (reinserted_row new_id) (rows_of_post (db s) id)).
  { apply (regenerated_rows id new_id s later Hfresh). rewrite Hlater. exact Hrows. }
  set (q := {| post_id := new_id; variationNumber := 1;
               platform := platform original; content := content original |}).
  assert (Hhas : has_rows (db later) q = true).
  { unfold has_rows. cbn [q post_id]. rewrite Hkept, length_map.
    apply Nat.ltb_lt. destruct (rows_of_post (db s) id); [congruence | simpl; lia]. }
  destruct (job_skips_post_with_rows random judge later q Hhas)
    as (completion & s' & requests & Hjob & Hcalls & Hnot & Hsame).
  exists completion, s', requests. cbn [q post_id] in Hnot, Hsame.
  repeat split; try assumption.
  rewrite Hsame. exact Hkept.
Qed.

Lemma regenerated_post_is_not_simulated_again_witness :
  let handled := snd (regeneratePost (Some "p1") "p9" (initial_state regeneration_db)) in
  let later := snd (posts_create "p10" 2 "linkedin" "A second take" handled) in
  exists completion s' requests,
    simulation_job always_zero (approving_after []) later = (completion, s') /\
    calls s' = calls later ++ requests /\
    (forall pid, ~ In (pid, "p9") requests) /\
    rows_of_post (db s') "p9"
    = map (reinserted_row "p9") (rows_of_post regeneration_db "p1").
Proof.
  apply (regenerated_post_is_not_simulated_again always_zero (approving_after [])
           "p1" "p9" post1 (initial_state regeneration_db)).
  - reflexivity.
  - reflexivity.
  - reflexivity.
  - intros r Hr. simpl in Hr.
    repeat (destruct Hr as [<- | Hr]; [discriminate | ]). destruct Hr.
  - discriminate.
  - reflexivity.
Defined.

(* ================================================================== *)
(** * The content calendar, stored and rebuilt *)
(* ================================================================== *)

Lemma StronglySorted_app {A : Type} (R : A -> A -> Prop) (l1 l2 : list A) :
  StronglySorted R l1 -> StronglySorted R l2 ->
  (forall x y, In x l1 -> In y l2 -> R x y) ->
  StronglySorted R (l1 ++ l2).
Proof.
  intros H1 H2 Hcross. induction H1 as [ | a l1 H1 IH Ha]; simpl; [exact H2 | ].
  constructor.
  - apply IH. intros x y Hx Hy. apply Hcross; [right; exact Hx | exact Hy].
  - apply Forall_app. split; [exact Ha | ].
    apply Forall_forall. intros y Hy. apply Hcross; [left; reflexivity | exact Hy].
Qed.

Lemma StronglySorted_filter {A : Type} (R : A -> A -> Prop) (f : A -> bool) (l : list A) :
  StronglySorted R l -> StronglySorted R (filter f l).
Proof.
  intros H. induction H as [ | a l H IH Ha]; simpl; [constructor | ].
  destruct (f a); [ | exact IH]. constructor; [exact IH | ].
  apply Forall_forall. intros y Hy. apply filter_In in Hy.
  rewrite Forall_forall in Ha. apply Ha. tauto.
Qed.

Lemma Array_sort_of_sorted {A : Type} (cmp : A -> A -> Q) (l : list A) :
  StronglySorted (fun a b => Qle_bool (cmp a b) 0 = true) l -> Array_sort cmp l = l.
Proof.
  intros H. induction H as [ | a l H IH Ha]; [reflexivity | ].
  unfold Array_sort in *. simpl. rewrite IH.
  destruct l as [ | b rest]; [reflexivity | ]. simpl.
  inversion Ha as [ | ? ? Hab _]; subst. rewrite Hab. reflexivity.
Qed.

Lemma postsToCreate_ascending (calendar : list Calendar.ContentCalendarDay) :
  Calendar.ascending calendar ->
  StronglySorted Calendar.row_lt (Calendar.postsToCreate calendar).
Proof.
  intros (Hdays & Hposts).
  induction Hdays as [ | d calendar Hdays IH Hd]; [constructor | ].
  inversion Hposts as [ | ? ? Hpd Hrest]; subst.
  change (Calendar.postsToCreate (d :: calendar))
    with (map (Calendar.row_of d) (Calendar.posts d) ++ Calendar.postsToCreate calendar).
  apply StronglySorted_app.
  - clear - Hpd. induction Hpd as [ | p ps Hps IHps Hp]; simpl; constructor; [exact IHps | ].
    apply Forall_forall. intros x Hx. apply in_map_iff in Hx. destruct Hx as (q & <- & Hq).
    rewrite Forall_forall in Hp. right. split; [reflexivity | exact (Hp q Hq)].
  - exact (IH Hrest).
  - intros x y Hx Hy.
    apply in_map_iff in Hx. destruct Hx as (p & <- & _).
    apply in_flat_map in Hy. destruct Hy as (d2 & Hd2 & Hy).
    apply in_map_iff in Hy. destruct Hy as (q & <- & _).
    rewrite Forall_forall in Hd. left. exact (Hd d2 Hd2).
Qed.

Lemma ordered_rows_unique (l1 : list Calendar.ContentCalendar) :
  forall l2,
    StronglySorted Calendar.row_le l1 -> StronglySorted Calendar.row_lt l2 ->
    Permutation l1 l2 -> l1 = l2.
Proof.
  induction l1 as [ | a l1 IH]; intros l2 H1 H2 HP.
  - apply Permutation_nil in HP. subst. reflexivity.
  - destruct l2 as [ | b l2].
    { apply Permutation_sym, Permutation_nil in HP. discriminate. }
    inversion H1 as [ | ? ? H1t H1h]; inversion H2 as [ | ? ? H2t H2h]; subst.
    assert (E : a = b).
    { assert (Ha : In a (b :: l2)) by (apply (Permutation_in _ HP); left; reflexivity).
      assert (Hb : In b (a :: l1))
        by (apply (Permutation_in _ (Permutation_sym HP)); left; reflexivity).
      destruct Ha as [-> | Ha]; [reflexivity | ].
      destruct Hb as [-> | Hb]; [reflexivity | ].
      rewrite Forall_forall in H1h, H2h.
      pose proof (H1h b Hb) as Hle. pose proof (H2h a Ha) as Hlt.
      unfold Calendar.row_le, Calendar.row_lt in *. lia. }
    subst. f_equal. apply IH; [exact H1t | exact H2t | ].
    apply Permutation_cons_inv with b. exact HP.
Qed.

Lemma Map_has_app (key : Z) (m1 m2 : list (Z * Calendar.ContentCalendarDay)) :
  Calendar.Map_has key (m1 ++ m2) = Calendar.Map_has key m1 || Calendar.Map_has key m2.
Proof. apply existsb_app. Qed.

Lemma Map_set_day_new (key : Z) (value : Calendar.ContentCalendarDay)
  (m : list (Z * Calendar.ContentCalendarDay)) :
  Calendar.Map_has key m = false -> Calendar.Map_set_day key value m = m ++ [(key, value)].
Proof.
  induction m as [ | [k v] m IH]; simpl; intros H; [reflexivity | ].
  apply orb_false_iff in H. destruct H as (Hk & Hm).
  rewrite Hk, (IH Hm). reflexivity.
Qed.

Lemma push_post_last (key : Z) (post : Calendar.CalendarPost)
  (v : Calendar.ContentCalendarDay) (m : list (Z * Calendar.ContentCalendarDay)) :
  Calendar.Map_has key m = false ->
  Calendar.push_post key post (m ++ [(key, v)])
  = Some (m ++ [(key, {| Calendar.day := Calendar.day v;
                         Calendar.dayNumber := Calendar.dayNumber v;
                         Calendar.posts := Calendar.posts v ++ [post] |})]).
Proof.
  induction m as [ | [k w] m IH]; simpl; intros H.
  - rewrite Z.eqb_refl. reflexivity.
  - apply orb_false_iff in H. destruct H as (Hk & Hm).
    rewrite Hk, (IH Hm). reflexivity.
Qed.

Lemma calendarByDay_app (l1 l2 : list Calendar.ContentCalendar)
  (m : list (Z * Calendar.ContentCalendarDay)) :
  Calendar.calendarByDay (l1 ++ l2) m
  = match Calendar.calendarByDay l1 m with
    | Some m' => Calendar.calendarByDay l2 m'
    | None => None
    end.
Proof.
  revert m. induction l1 as [ | row l1 IH]; intros m; simpl; [reflexivity | ].
  destruct (Calendar.add_row row m); [apply IH | reflexivity].
Qed.

Lemma calendarByDay_more_posts (d : Calendar.ContentCalendarDay)
  (ps : list Calendar.CalendarPost) :
  forall (acc : list Calendar.CalendarPost) (m : list (Z * Calendar.ContentCalendarDay)),
    Calendar.Map_has (Calendar.dayNumber d) m = false ->
    Calendar.calendarByDay (map (Calendar.row_of d) ps)
      (m ++ [(Calendar.dayNumber d,
              {| Calendar.day := Calendar.day d; Calendar.dayNumber := Calendar.dayNumber d;
                 Calendar.posts := acc |})])
    = Some (m ++ [(Calendar.dayNumber d,
                   {| Calendar.day := Calendar.day d;
                      Calendar.dayNumber := Calendar.dayNumber d;
                      Calendar.posts := acc ++ ps |})]).
Proof.
  induction ps as [ | p ps IH]; intros acc m Hm; simpl.
  - rewrite app_nil_r. reflexivity.
  - unfold Calendar.add_row. cbn [Calendar.row_of Calendar.row_dayNumber].
    rewrite Map_has_app, Hm. cbn [Calendar.Map_has existsb fst orb negb].
    rewrite Z.eqb_refl. cbn [orb negb].
    rewrite (push_post_last _ _ _ m Hm). cbn [Calendar.day Calendar.dayNumber Calendar.posts].
    destruct p as [n t pl]. cbn [Calendar.row_postNumber Calendar.row_theme
                                  Calendar.row_platform Calendar.postNumber Calendar.theme
                                  Calendar.platform].
    rewrite (IH _ m Hm), <- app_assoc. reflexivity.
Qed.

Lemma calendarByDay_of_day (d : Calendar.ContentCalendarDay)
  (m : list (Z * Calendar.ContentCalendarDay)) :
  Calendar.Map_has (Calendar.dayNumber d) m = false ->
  Calendar.calendarByDay (map (Calendar.row_of d) (Calendar.posts d)) m
  = Some (if Calendar.has_posts d then m ++ [(Calendar.dayNumber d, d)] else m).
Proof.
  intros Hm. unfold Calendar.has_posts.
  destruct d as [name k ps]. cbn [Calendar.posts Calendar.dayNumber] in *.
  destruct ps as [ | p ps]; [reflexivity | ].
  cbn [map Calendar.calendarByDay]. unfold Calendar.add_row.
  cbn [Calendar.row_of Calendar.row_dayNumber Calendar.dayOfWeek Calendar.day
       Calendar.dayNumber].
  rewrite Hm. cbn [negb]. rewrite (Map_set_day_new _ _ _ Hm), (push_post_last _ _ _ m Hm).
  cbn [Calendar.day Calendar.dayNumber Calendar.posts app].
  destruct p as [n t pl]. cbn [Calendar.row_postNumber Calendar.row_theme
                                Calendar.row_platform Calendar.postNumber Calendar.theme
                                Calendar.platform].
  exact (calendarByDay_more_posts
           {| Calendar.day := name; Calendar.dayNumber := k; Calendar.posts := [] |}
           ps [ {| Calendar.postNumber := n; Calendar.theme := t; Calendar.platform := pl |} ]
           m Hm).
Qed.

Lemma calendarByDay_of_postsToCreate (calendar : list Calendar.ContentCalendarDay) :
  forall m : list (Z * Calendar.ContentCalendarDay),
    StronglySorted (fun a b => (Calendar.dayNumber a < Calendar.dayNumber b)%Z) calendar ->
    Forall (fun d => Calendar.Map_has (Calendar.dayNumber d) m = false) calendar ->
    Calendar.calendarByDay (Calendar.postsToCreate calendar) m
    = Some (m ++ map (fun d => (Calendar.dayNumber d, d))
                     (filter Calendar.has_posts calendar)).
Proof.
  induction calendar as [ | d calendar IH]; intros m Hsorted Hnew.
  - simpl. rewrite app_nil_r. reflexivity.
  - inversion Hsorted as [ | ? ? Hs Hd]; inversion Hnew as [ | ? ? Hm Hrest]; subst.
    change (Calendar.postsToCreate (d :: calendar))
      with (map (Calendar.row_of d) (Calendar.posts d) ++ Calendar.postsToCreate calendar).
    rewrite calendarByDay_app, (calendarByDay_of_day d m Hm).
    cbn [filter]. destruct (Calendar.has_posts d).
    + rewrite IH; [ | exact Hs | ].
      * rewrite <- app_assoc. reflexivity.
      * rewrite Forall_forall in *. intros d2 Hd2.
        rewrite Map_has_app, (Hrest d2 Hd2). cbn [Calendar.Map_has existsb fst orb].
        rewrite orb_false_r. apply Z.eqb_neq. specialize (Hd d2 Hd2). lia.
    + apply IH; assumption.
Qed.

(** X25.  The calendar survives the table: when the calendar the calendar
    worker stores lists its days by ascending day number and the posts of
    each day by ascending post number, the post-generation worker rebuilds,
    from the rows [getUserCalendar] returns, that same calendar without its
    days that have no post -- and never fails doing so. *)
Theorem contentCalendar_round_trip
  (calendar : list Calendar.ContentCalendarDay) (rows : list Calendar.ContentCalendar) :
  Calendar.ascending calendar ->
  Calendar.returned_by_getUserCalendar (Calendar.postsToCreate calendar) rows ->
  Calendar.contentCalendar rows = Some (filter Calendar.has_posts calendar).
Proof.
  intros Hasc (Hperm & Hsorted).
  rewrite (ordered_rows_unique rows (Calendar.postsToCreate calendar) Hsorted
             (postsToCreate_ascending calendar Hasc) Hperm).
  destruct Hasc as (Hdays & _).
  unfold Calendar.contentCalendar.
  rewrite (calendarByDay_of_postsToCreate calendar [] Hdays).
  - cbn [app]. rewrite map_map. cbn [snd]. rewrite map_id. f_equal.
    apply Array_sort_of_sorted.
    apply StronglySorted_filter.
    clear - Hdays. induction Hdays as [ | d l Hl IH Hd]; constructor; [exact IH | ].
    rewrite Forall_forall in *. intros y Hy. specialize (Hd y Hy).
    unfold Qle_bool, inject_Z. simpl. apply Z.leb_le. lia.
  - apply Forall_forall. intros d _. reflexivity.
Qed.

Lemma contentCalendar_round_trip_witness :
  Calendar.contentCalendar (Calendar.postsToCreate Calendar.sample_calendar)
  = Some (filter Calendar.has_posts Calendar.sample_calendar).
Proof.
  apply (contentCalendar_round_trip Calendar.sample_calendar
           (Calendar.postsToCreate Calendar.sample_calendar)).
  - split; repeat constructor; simpl; lia.
  - split; [apply Permutation_refl | ].
    repeat constructor; unfold Calendar.row_le; simpl; lia.
Defined.

Lemma Map_has_keys (key : Z) (m : list (Z * Calendar.ContentCalendarDay)) :
  Calendar.Map_has key m = true <-> In key (map fst m).
Proof.
  unfold Calendar.Map_has. rewrite existsb_exists, in_map_iff. split.
  - intros (e & He & Hk). apply Z.eqb_eq in Hk. exists e. split; assumption.
  - intros (e & Hk & He). exists e. split; [exact He | apply Z.eqb_eq; exact Hk].
Qed.

Lemma Map_has_same_keys (key : Z) (m m' : list (Z * Calendar.ContentCalendarDay)) :
  map fst m' = map fst m -> Calendar.Map_has key m' = Calendar.Map_has key m.
Proof.
  intros Hkeys. apply eq_true_iff_eq. rewrite !Map_has_keys, Hkeys. reflexivity.
Qed.

Lemma push_post_present (key : Z) (post : Calendar.CalendarPost)
  (m : list (Z * Calendar.ContentCalendarDay)) :
  NoDup (map fst m) -> Calendar.Map_has key m = true ->
  Calendar.push_post key post m
  = Some (map (fun e => if Z.eqb (fst e) key
                        then (fst e, Calendar.with_post post (snd e)) else e) m).
Proof.
  induction m as [ | [k v] m IH]; simpl; intros Hnd Hhas; [discriminate | ].
  inversion Hnd as [ | ? ? Hk Hm]; subst.
  destruct (Z.eqb_spec k key) as [-> | Hne].
  - f_equal. f_equal. symmetry.
    rewrite <- (map_id m) at 2. apply map_ext_in. intros e He.
    destruct (Z.eqb_spec (fst e) key) as [E | _]; [ | reflexivity].
    exfalso. apply Hk. rewrite <- E. apply in_map. exact He.
  - simpl in Hhas. rewrite (IH Hm Hhas). reflexivity.
Qed.

Lemma find_app_first {A : Type} (f : A -> bool) (l1 l2 : list A) (x : A) :
  find f l1 = Some x -> find f (l1 ++ l2) = Some x.
Proof.
  induction l1 as [ | a l1 IH]; simpl; [discriminate | ].
  destruct (f a); [exact (fun H => H) | exact IH].
Qed.

Lemma find_app_none {A : Type} (f : A -> bool) (l1 l2 : list A) :
  (forall x, In x l1 -> f x = false) -> find f (l1 ++ l2) = find f l2.
Proof.
  induction l1 as [ | a l1 IH]; simpl; intros H; [reflexivity | ].
  rewrite (H a (or_introl eq_refl)). apply IH. intros x Hx. apply H. right. exact Hx.
Qed.

Lemma day_of_rows_other (rows : list Calendar.ContentCalendar)
  (row : Calendar.ContentCalendar) (d : Calendar.ContentCalendarDay) :
  Calendar.day_of_rows rows d ->
  Calendar.dayNumber d <> Calendar.row_dayNumber row ->
  Calendar.day_of_rows (rows ++ [row]) d.
Proof.
  intros (Hposts & Hsome & Hname) Hne. unfold Calendar.day_of_rows.
  rewrite filter_app. cbn [filter]. unfold Calendar.on_day at 2.
  destruct (Z.eqb_spec (Calendar.row_dayNumber row) (Calendar.dayNumber d)) as [E | _];
    [congruence | ].
  rewrite app_nil_r. repeat split; [exact Hposts | exact Hsome | ].
  destruct (find _ rows) as [r0 | ] eqn:Ef; [ | discriminate].
  rewrite (find_app_first _ _ _ _ Ef). exact Hname.
Qed.

Lemma day_of_rows_same (rows : list Calendar.ContentCalendar)
  (row : Calendar.ContentCalendar) (d : Calendar.ContentCalendarDay) :
  Calendar.day_of_rows rows d ->
  Calendar.dayNumber d = Calendar.row_dayNumber row ->
  Calendar.day_of_rows (rows ++ [row]) (Calendar.with_post (Calendar.post_of_row row) d).
Proof.
  intros (Hposts & Hsome & Hname) E. unfold Calendar.day_of_rows.
  cbn [Calendar.with_post Calendar.posts Calendar.dayNumber Calendar.day].
  rewrite filter_app. cbn [filter]. unfold Calendar.on_day at 2.
  rewrite E, Z.eqb_refl, <- E, map_app, Hposts. repeat split.
  - intros H. apply app_eq_nil in H. destruct H as (_ & H). discriminate.
  - destruct (find _ rows) as [r0 | ] eqn:Ef; [ | discriminate].
    rewrite (find_app_first _ _ _ _ Ef). exact Hname.
Qed.

Lemma add_row_grouped (row : Calendar.ContentCalendar)
  (done : list Calendar.ContentCalendar) (m : list (Z * Calendar.ContentCalendarDay)) :
  Calendar.grouped done m ->
  exists m1, Calendar.add_row row m = Some m1 /\ Calendar.grouped (done ++ [row]) m1.
Proof.
  intros (Hnd & Hent & Hrows). unfold Calendar.add_row.
  set (k := Calendar.row_dayNumber row).
  change {| Calendar.postNumber := Calendar.row_postNumber row;
            Calendar.theme := Calendar.row_theme row;
            Calendar.platform := Calendar.row_platform row |}
    with (Calendar.post_of_row row).
  destruct (Calendar.Map_has k m) eqn:Ehas; cbn [negb].
  - rewrite (push_post_present k _ m Hnd Ehas). eexists. split; [reflexivity | ].
    assert (Hkeys : map fst (map (fun e => if Z.eqb (fst e) k
                                           then (fst e, Calendar.with_post
                                                          (Calendar.post_of_row row) (snd e))
                                           else e) m) = map fst m).
    { rewrite map_map. apply map_ext. intros e. destruct (Z.eqb (fst e) k); reflexivity. }
    split; [rewrite Hkeys; exact Hnd | ]. split.
    + apply Forall_forall. intros e1 He1. apply in_map_iff in He1.
      destruct He1 as (e & <- & He). rewrite Forall_forall in Hent.
      destruct (Hent e He) as (Hnum & Hday).
      destruct (Z.eqb_spec (fst e) k) as [E | Hne]; cbn [fst snd].
      * split; [exact Hnum | ]. apply day_of_rows_same; [exact Hday | ].
        rewrite Hnum. exact E.
      * split; [exact Hnum | ]. apply day_of_rows_other; [exact Hday | ].
        rewrite Hnum. exact Hne.
    + apply Forall_app. split.
      * rewrite Forall_forall in *. intros r Hr.
        rewrite (Map_has_same_keys _ _ _ Hkeys). exact (Hrows r Hr).
      * constructor; [ | constructor].
        rewrite (Map_has_same_keys _ _ _ Hkeys). exact Ehas.
  - rewrite (Map_set_day_new _ _ _ Ehas), (push_post_last _ _ _ m Ehas).
    cbn [Calendar.day Calendar.dayNumber Calendar.posts app].
    eexists. split; [reflexivity | ].
    assert (Hfresh : ~ In k (map fst m)).
    { intros H. apply Map_has_keys in H. congruence. }
    assert (Hnone : forall r, In r done -> Calendar.on_day k r = false).
    { intros r Hr. rewrite Forall_forall in Hrows. specialize (Hrows r Hr).
      unfold Calendar.on_day. apply Z.eqb_neq. intros E. rewrite E in Hrows. congruence. }
    split; [ | split].
    + rewrite map_app. cbn [map fst].
      apply (Permutation_NoDup (l := k :: map fst m)).
      * apply Permutation_cons_append.
      * constructor; assumption.
    + apply Forall_app. split.
      * rewrite Forall_forall in *. intros e He. destruct (Hent e He) as (Hnum & Hday).
        split; [exact Hnum | ]. apply day_of_rows_other; [exact Hday | ].
        rewrite Hnum. intros E. apply Hfresh. fold k in E. rewrite <- E.
        apply in_map. exact He.
      * constructor; [ | constructor]. cbn [fst snd Calendar.dayNumber].
        split; [reflexivity | ]. unfold Calendar.day_of_rows.
        cbn [Calendar.posts Calendar.dayNumber Calendar.day].
        rewrite filter_app, (filter_none _ _ Hnone), (find_app_none _ _ _ Hnone).
        cbn [filter find app]. unfold Calendar.on_day. fold k. rewrite Z.eqb_refl.
        repeat split. discriminate.
    + apply Forall_app. split.
      * rewrite Forall_forall in *. intros r Hr.
        rewrite Map_has_app, (Hrows r Hr). reflexivity.
      * constructor; [ | constructor]. fold k.
        rewrite Map_has_app. cbn [Calendar.Map_has existsb fst].
        rewrite Z.eqb_refl. apply orb_true_r.
Qed.

Lemma calendarByDay_grouped (rows : list Calendar.ContentCalendar) :
  forall (done : list Calendar.ContentCalendar) (m : list (Z * Calendar.ContentCalendarDay)),
    Calendar.grouped done m ->
    exists m', Calendar.calendarByDay rows m = Some m' /\
               Calendar.grouped (done ++ rows) m'.
Proof.
  induction rows as [ | row rows IH]; intros done m Hm; simpl.
  - exists m. rewrite app_nil_r. split; [reflexivity | exact Hm].
  - destruct (add_row_grouped row done m Hm) as (m1 & -> & Hm1).
    destruct (IH (done ++ [row]) m1 Hm1) as (m' & Hrun & Hm').
    exists m'. rewrite <- app_assoc in Hm'. split; assumption.
Qed.

Lemma insert_by_dayNumber_sorted (x : Calendar.ContentCalendarDay)
  (l : list Calendar.ContentCalendarDay) :
  StronglySorted (fun a b => (Calendar.dayNumber a <= Calendar.dayNumber b)%Z) l ->
  StronglySorted (fun a b => (Calendar.dayNumber a <= Calendar.dayNumber b)%Z)
    (insert_cmp (fun a b => inject_Z (Calendar.dayNumber a - Calendar.dayNumber b)) x l).
Proof.
  induction 1 as [ | y l Hsorted IH Hy]; simpl.
  - constructor; constructor.
  - assert (Hcmp : Qle_bool (inject_Z (Calendar.dayNumber x - Calendar.dayNumber y)) 0
                   = (Calendar.dayNumber x <=? Calendar.dayNumber y)%Z).
    { unfold Qle_bool, inject_Z. simpl. apply eq_true_iff_eq.
      rewrite !Z.leb_le. lia. }
    rewrite Hcmp. destruct (Z.leb_spec (Calendar.dayNumber x) (Calendar.dayNumber y)) as [E | E].
    + constructor; [constructor; assumption | ].
      constructor; [exact E | ].
      rewrite Forall_forall in *. intros z Hz. specialize (Hy z Hz). lia.
    + constructor; [exact IH | ].
      rewrite Forall_forall in *. intros z Hz.
      apply insert_cmp_in in Hz. destruct Hz as [-> | Hz]; [lia | apply Hy; exact Hz].
Qed.

Lemma distinct_sorted_is_ascending (l : list Calendar.ContentCalendarDay) :
  StronglySorted (fun a b => (Calendar.dayNumber a <= Calendar.dayNumber b)%Z) l ->
  NoDup (map Calendar.dayNumber l) ->
  StronglySorted (fun a b => (Calendar.dayNumber a < Calendar.dayNumber b)%Z) l.
Proof.
  induction 1 as [ | a l Hsorted IH Ha]; intros Hnd; simpl in Hnd; [constructor | ].
  inversion Hnd as [ | ? ? Hna Hl]; subst.
  constructor; [exact (IH Hl) | ].
  rewrite Forall_forall in *. intros y Hy. specialize (Ha y Hy).
  assert (Calendar.dayNumber a <> Calendar.dayNumber y).
  { intros E. apply Hna. rewrite E. apply in_map. exact Hy. }
  lia.
Qed.

(** X26.  Whatever rows the table holds, the post-generation worker's
    rebuilding of the calendar never fails -- the day it pushes to is always
    there -- and yields the days in ascending order of distinct day numbers,
    where each day holds exactly the posts of the rows of its number, in the
    order of the rows, under the name of the first of them; every row lands
    in a day. *)
Theorem contentCalendar_groups_rows_by_day (rows : list Calendar.ContentCalendar) :
  exists calendar,
    Calendar.contentCalendar rows = Some calendar /\
    StronglySorted (fun a b => (Calendar.dayNumber a < Calendar.dayNumber b)%Z) calendar /\
    Forall (Calendar.day_of_rows rows) calendar /\
    Forall (fun row => exists d, In d calendar /\
                                 Calendar.dayNumber d = Calendar.row_dayNumber row) rows.
Proof.
  assert (Hempty : Calendar.grouped [] []).
  { split; [constructor | ]. split; constructor. }
  destruct (calendarByDay_grouped rows [] [] Hempty) as (m & Hrun & Hnd & Hent & Hrows).
  cbn [app] in *. unfold Calendar.contentCalendar. rewrite Hrun.
  set (cmp := fun a b => inject_Z (Calendar.dayNumber a - Calendar.dayNumber b)).
  exists (Array_sort cmp (map snd m)). split; [reflexivity | ].
  pose proof (Array_sort_perm cmp (map snd m)) as Hperm.
  assert (Hnums : map Calendar.dayNumber (map snd m) = map fst m).
  { rewrite map_map. apply map_ext_in. intros e He.
    rewrite Forall_forall in Hent. apply (Hent e He). }
  split; [ | split].
  - apply distinct_sorted_is_ascending.
    + unfold Array_sort. clear. induction (map snd m) as [ | x l IH]; simpl.
      * constructor.
      * apply insert_by_dayNumber_sorted. exact IH.
    + apply (Permutation_NoDup (l := map Calendar.dayNumber (map snd m))).
      * apply Permutation_map, Permutation_sym. exact Hperm.
      * rewrite Hnums. exact Hnd.
  - apply Forall_forall. intros d Hd.
    apply (Permutation_in _ Hperm) in Hd. apply in_map_iff in Hd.
    destruct Hd as (e & <- & He). rewrite Forall_forall in Hent. apply (Hent e He).
  - apply Forall_forall. intros row Hrow. rewrite Forall_forall in Hrows, Hent.
    specialize (Hrows row Hrow). apply Map_has_keys in Hrows. apply in_map_iff in Hrows.
    destruct Hrows as (e & Hk & He). exists (snd e). split.
    + apply (Permutation_in _ (Permutation_sym Hperm)). apply in_map. exact He.
    + rewrite <- Hk. apply (Hent e He).
Qed.
